(** * gpt5-pro: the browser-automation core of [src/chatgpt.ts]

    A shallow embedding of the session and interaction state machine of
    the ChatGPT command-line oracle, and the properties its specification
    states about it.

    Conventions of the embedding.
    - JavaScript strings are [string]s restricted to the ASCII range: the
      white space of [trim] and of the regular-expression class [\s] is
      TAB, LF, VT, FF, CR and SPACE, and [toLowerCase] maps [A-Z] to
      [a-z] and leaves every other character alone.
    - JavaScript numbers that hold durations and clock readings are
      integers ([Z]); lengths and element counts are [nat].
    - [null] and [undefined] are [None]. *)

From Stdlib Require Import ZArith NArith List String Ascii Bool Lia Arith.
From Stdlib Require Import DecimalString.
Import ListNotations.
Local Open Scope string_scope.

(** ** JavaScript string primitives used by the source *)

Module JS.

(** White space of [String.prototype.trim] and of the class [\s]. *)
Definition isWhiteSpace (c : ascii) : bool :=
  let n := nat_of_ascii c in
  (((9 <=? n) && (n <=? 13)) || (n =? 32))%nat.

(** The character class [[\s_]] of the two normalising [replace] calls. *)
Definition isSeparator (c : ascii) : bool :=
  isWhiteSpace c || (c =? "_")%char.

Definition toLowerChar (c : ascii) : ascii :=
  let n := nat_of_ascii c in
  if ((65 <=? n) && (n <=? 90))%nat then ascii_of_nat (n + 32) else c.

(** [s.toLowerCase()] *)
Fixpoint toLowerCase (s : string) : string :=
  match s with
  | EmptyString => EmptyString
  | String c r => String (toLowerChar c) (toLowerCase r)
  end.

Fixpoint trimStart (s : string) : string :=
  match s with
  | EmptyString => EmptyString
  | String c r => if isWhiteSpace c then trimStart r else s
  end.

Fixpoint trimEnd (s : string) : string :=
  match s with
  | EmptyString => EmptyString
  | String c r =>
      match trimEnd r with
      | EmptyString => if isWhiteSpace c then EmptyString else String c EmptyString
      | r' => String c r'
      end
  end.

(** [s.trim()] *)
Definition trim (s : string) : string := trimEnd (trimStart s).

(** [s.startsWith(t)] *)
Fixpoint startsWith (s t : string) : bool :=
  match t, s with
  | EmptyString, _ => true
  | String _ _, EmptyString => false
  | String a t', String b s' => (a =? b)%char && startsWith s' t'
  end.

(** [s.includes(t)] *)
Fixpoint includes (s t : string) : bool :=
  startsWith s t ||
  match s with
  | EmptyString => false
  | String _ r => includes r t
  end.

(** [s.replace(/[\s_]+/g, '-')]: every maximal run of separators becomes
    one dash.  [inRun] tells that the previous character was a separator,
    whose dash is already written. *)
Fixpoint dashRuns (inRun : bool) (s : string) : string :=
  match s with
  | EmptyString => EmptyString
  | String c r =>
      if isSeparator c
      then if inRun then dashRuns true r else String "-" (dashRuns true r)
      else String c (dashRuns false r)
  end.

Definition replaceSeparators (s : string) : string := dashRuns false s.

(** Template-literal rendering of an integer: [`${n}`]. *)
Definition showZ (z : Z) : string := NilZero.string_of_int (Z.to_int z).
Definition showNat (n : nat) : string := showZ (Z.of_nat n).

(** The double-quote character, for messages that quote a name. *)
Definition dquote : string := String "034"%char EmptyString.

(** [obj[k]] on an object literal used as a map; [k] is never the name
    of an inherited property that survives the lookups of the source
    (see [resolveModelDefinition]). *)
Fixpoint lookup {V : Type} (k : string) (m : list (string * V)) : option V :=
  match m with
  | [] => None
  | (k', v) :: rest => if (k' =? k)%string then Some v else lookup k rest
  end.

(** [a ?? b] *)
Definition nullish {A : Type} (a : option A) (b : A) : A :=
  match a with Some x => x | None => b end.

End JS.

Import JS.

(** ** The model catalog (interfaces [ModelPreStep], [ModelDefinition]) *)

Record ModelPreStep := mkPreStep {
  testId : option string;
  text : option string
}.

Record ModelDefinition := mkModelDefinition {
  key : string;
  displayName : string;
  verifyTokens : list string;
  optionTestIds : list string;
  fallbackTexts : list string;
  preSteps : option (list ModelPreStep)
}.

Definition legacySubmenu : ModelPreStep :=
  mkPreStep (Some "Legacy models-submenu") None.

(** [buildModelDefinitions()] *)
Definition buildModelDefinitions : list (string * ModelDefinition) :=
  [ ("gpt-5",
      mkModelDefinition "gpt-5" "GPT-5 Auto" ["chatgpt 5"; "gpt-5"]
        ["model-switcher-gpt-5"] ["GPT-5"; "Auto"] None);
    ("gpt-5-auto",
      mkModelDefinition "gpt-5-auto" "GPT-5 Auto" ["chatgpt 5"; "gpt-5"]
        ["model-switcher-gpt-5"] ["GPT-5"; "Auto"] None);
    ("gpt-5-instant",
      mkModelDefinition "gpt-5-instant" "GPT-5 Instant" ["instant"]
        ["model-switcher-gpt-5-instant"] ["Instant"] None);
    ("gpt-5-thinking",
      mkModelDefinition "gpt-5-thinking" "GPT-5 Thinking" ["thinking"]
        ["model-switcher-gpt-5-thinking"] ["Thinking"] None);
    ("gpt-5-pro",
      mkModelDefinition "gpt-5-pro" "GPT-5 Pro" ["pro"]
        ["model-switcher-gpt-5-pro"] ["Pro"] None);
    ("gpt-4o",
      mkModelDefinition "gpt-4o" "GPT-4o" ["gpt-4o"]
        ["model-switcher-gpt-4o"] ["GPT-4o"] (Some [legacySubmenu]));
    ("gpt-4o-mini",
      mkModelDefinition "gpt-4o-mini" "GPT-4o mini" ["gpt-4o mini"; "mini"]
        ["model-switcher-gpt-4o-mini"] ["GPT-4o mini"] (Some [legacySubmenu])) ].

(** The field [modelDefinitions] of the class, initialised once. *)
Definition modelDefinitions : list (string * ModelDefinition) :=
  buildModelDefinitions.

(** The table [aliasMap] of [resolveModelDefinition]. *)
Definition aliasMap : list (string * string) :=
  [ ("chatgpt-5", "gpt-5");
    ("gpt5", "gpt-5");
    ("gpt5-auto", "gpt-5");
    ("gpt5-pro", "gpt-5-pro");
    ("gpt5-instant", "gpt-5-instant");
    ("gpt5-thinking", "gpt-5-thinking");
    ("gpt-5auto", "gpt-5");
    ("gpt-5pro", "gpt-5-pro");
    ("gpt-5instant", "gpt-5-instant");
    ("gpt-5thinking", "gpt-5-thinking");
    ("gpt-4", "gpt-4o");
    ("gpt4", "gpt-4o");
    ("gpt4o", "gpt-4o");
    ("gpt4omini", "gpt-4o-mini");
    ("gpt-4omini", "gpt-4o-mini");
    ("gpt-4o-mini", "gpt-4o-mini");
    ("gpt-4o-mini-high", "gpt-4o-mini") ].

(** The first line of [resolveModelDefinition]:
    [modelName.trim().toLowerCase().replace(/[\s_]+/g, '-')]. *)
Definition normalizeModelName (modelName : string) : string :=
  replaceSeparators (toLowerCase (trim modelName)).

(** [resolveModelDefinition(modelName)].  The only inherited property of
    an object literal whose name is a possible [normalized] value is
    [constructor]; [aliasMap] answers it with a function, which is no key
    of [modelDefinitions], so the result is [null] there as well, as the
    plain lookups below give. *)
Definition resolveModelDefinition (modelName : string) : option ModelDefinition :=
  let normalized := normalizeModelName modelName in
  let key := nullish (lookup normalized aliasMap) normalized in
  lookup key modelDefinitions.

(** ** The class [ChatGPT] and its options *)

Module Options.
Record t := mk {
  headless : option bool;
  profile : option string;
  model : option string;
  timeout : option Z;
  retries : option Z;
  verbose : option bool
}.
(** [{}], the default argument of the constructor. *)
Definition empty : t := mk None None None None None None.
End Options.

(** The fields of the class.  The three handles are [null] ([false])
    until [initialize] assigns them. *)
Record ChatGPT := mkChatGPT {
  browser : bool;
  context : bool;
  page : bool;
  headless : bool;
  stateDir : string;
  profile : string;
  model : string;
  timeout : Z;
  retries : Z;
  verbose : bool
}.

(** [path.join] on segments that need no normalisation. *)
Definition pathJoin (a b : string) : string := a ++ "/" ++ b.

(** The constructor; [homedir] is [os.homedir()]. *)
Definition newChatGPT (homedir : string) (options : Options.t) : ChatGPT :=
  let profile := nullish (Options.profile options) "default" in
  mkChatGPT false false false
    (nullish (Options.headless options) false)
    (pathJoin (pathJoin homedir ".gpt5-pro-cli") profile)
    profile
    (nullish (Options.model options) "gpt-5-pro")
    (nullish (Options.timeout options) 60000%Z)
    (nullish (Options.retries options) 2%Z)
    (nullish (Options.verbose options) false).

(** The list [longRunningModels] of [getResponseTimeout]. *)
Definition longRunningModels : list string :=
  [ "gpt-5"; "gpt5"; "gpt-5-pro"; "gpt5-pro"; "gpt-5-thinking"; "gpt5-thinking" ].

(** [getResponseTimeout()] *)
Definition getResponseTimeout (self : ChatGPT) : Z :=
  let base := timeout self in
  let normalizedModel := replaceSeparators (toLowerCase (model self)) in
  let requiresLongTimeout :=
    existsb (fun name => includes normalizedModel name) longRunningModels in
  let minimum := if requiresLongTimeout then (30 * 60 * 1000)%Z else 0%Z in
  Z.max base minimum.

(** ** The browser, the operating system and the clock

    Everything the class awaits is a [Call]; what it answers and how long
    it takes is decided by the [Driver], from the calls made so far and
    the clock.  [Date.now()] reads the clock of the [World]. *)

Inductive Locator :=
| Css (selector : string)
| ByTestId (id : string)
| ByRole (role name : string) (exact : bool)
| First (l : Locator)
| Last (l : Locator)
| Nth (l : Locator) (i : nat)
| Within (parent : Locator) (selector : string).

(** What the functions evaluated in the page read of it. *)
Record PageSnapshot := mkSnapshot {
  sessionUser : bool;
  composerPresent : bool;
  bodyInnerText : string
}.

Inductive Call : Type -> Type :=
| ExistsSync (path : string) : Call bool
| MkdirSync (path : string) : Call unit
| ExecSync (command : string) : Call string
| Question (prompt : string) : Call string
| ExecutablePath : Call string
| InstallBrowserBinary : Call unit
| Launch (headless : bool) (timeout : Z) : Call unit
| NewContext (storageState : option string) : Call unit
| NewPage : Call unit
| AddInitScript : Call unit
| Goto (url : string) (timeout : Z) : Call unit
| WaitForTimeout (ms : Z) : Call unit
| WaitForSelector (selector : string) (timeout : Z) : Call unit
| WaitForURL (timeout : Z) : Call unit
| PageFill (selector value : string) : Call unit
| KeyboardPress (key : string) : Call unit
| KeyboardType (text : string) (delay : Z) : Call unit
| Screenshot (path : string) : Call unit
| PageUrl : Call string
| Evaluate : Call PageSnapshot
| ClipboardRead : Call (option string)
| Cookies (url : string) : Call (list string)
| StorageState (path : string) : Call unit
| Count (l : Locator) : Call nat
| All (l : Locator) : Call nat
| Click (l : Locator) (timeout : option Z) (force : bool) : Call unit
| Fill (l : Locator) (value : string) : Call unit
| Clear (l : Locator) : Call unit
| TypeInto (l : Locator) (text : string) (delay : Z) : Call unit
| InputValue (l : Locator) : Call string
| Blur (l : Locator) : Call unit
| Press (l : Locator) (key : string) : Call unit
| TextContent (l : Locator) : Call (option string)
| InnerText (l : Locator) : Call string
| GetAttribute (l : Locator) (name : string) : Call (option string)
| ScrollIntoViewIfNeeded (l : Locator) : Call unit
| Hover (l : Locator) (timeout : Z) : Call unit
| WaitFor (l : Locator) (timeout : Z) : Call unit.

Inductive Event :=
| Called : forall T : Type, Call T -> Event.
Arguments Called {T} c.

(** The answer to a call: a value, or an exception with its name and
    message. *)
Inductive Outcome (T : Type) :=
| Done (v : T)
| Fail (name msg : string).
Arguments Done {T} v.
Arguments Fail {T} name msg.

Record Driver := mkDriver {
  (** [process.env] *)
  getenv : string -> option string;
  (** the answer to a call, given the calls already made (most recent
      first) and the time of the call *)
  respond : forall T : Type, Call T -> list Event -> Z -> Outcome T;
  (** the time the call takes beyond the wait it asks for *)
  latency : forall T : Type, Call T -> list Event -> Z -> N
}.
Arguments respond d {T} c h t.
Arguments latency d {T} c h t.

(** The wait a call asks for: [waitForTimeout(ms)] lasts at least [ms]. *)
Definition requestedWait {T : Type} (c : Call T) : Z :=
  match c with
  | WaitForTimeout ms => Z.max 0 ms
  | _ => 0%Z
  end.

Inductive Prefix := CrossMark | WarningSign | CheckMark | DebugTag | DownArrow | CheckBox.

(** A line written by [console.log]: the prefix and the message.  Only
    the lines the class itself writes are recorded; what a child process
    sends to the terminal is not. *)
Definition ConsoleLine : Type := Prefix * string.

Record World := mkWorld {
  clock : Z;
  history : list Event;        (* most recent first *)
  console : list ConsoleLine   (* most recent first *)
}.

(** The values the class throws. *)
Inductive Error :=
| BrowserNotInitialized
| BrowserInstallFailed
| VerificationCodeEmpty
| LoginFailed (url : string)
| ResponseTimeout (ms : Z)
| EmptyResponse
| CredentialsEmpty
| CredentialsUnavailable (emailRef cause : string)
| DriverError (name msg : string).

Definition newline : string := String "010"%char EmptyString.

(** [error.message] *)
Definition message (e : Error) : string :=
  match e with
  | BrowserNotInitialized => "Browser not initialized"
  | BrowserInstallFailed =>
      "Unable to install Playwright Chromium browser automatically. Please run "
      ++ dquote ++ "npx playwright install chromium" ++ dquote ++ " and retry."
  | VerificationCodeEmpty => "Verification code was empty"
  | LoginFailed url =>
      "Login failed - could not find chat interface. URL: " ++ url
      ++ ". Screenshot: /tmp/login-failed.png"
  | ResponseTimeout ms => "Response timeout after " ++ showZ ms ++ "ms"
  | EmptyResponse => "Empty response received"
  | CredentialsEmpty => "Email or password is empty from 1Password"
  | CredentialsUnavailable emailRef cause =>
      "Failed to read credentials from 1Password." ++ newline
      ++ "Make sure:" ++ newline
      ++ "  1. 1Password CLI is installed (op)" ++ newline
      ++ "  2. You're signed in: op signin" ++ newline
      ++ "  3. Item exists at: " ++ emailRef ++ newline
      ++ "Error: " ++ cause
  | DriverError _ msg => msg
  end.

(** [String(error)], also [`${error}`] *)
Definition toString (e : Error) : string :=
  match e with
  | DriverError name msg => name ++ ": " ++ msg
  | _ => "Error: " ++ message e
  end.

(** The result of running a method: a value, an exception, or no result
    within the given number of loop iterations. *)
Inductive Result (A : Type) :=
| Ok (a : A)
| Throw (e : Error)
| OutOfFuel.
Arguments Ok {A} a.
Arguments Throw {A} e.
Arguments OutOfFuel {A}.

Definition M (A : Type) : Type := World -> Result A * World.

Definition ret {A : Type} (a : A) : M A := fun w => (Ok a, w).

Definition bind {A B : Type} (m : M A) (f : A -> M B) : M B :=
  fun w =>
    match m w with
    | (Ok a, w') => f a w'
    | (Throw e, w') => (Throw e, w')
    | (OutOfFuel, w') => (OutOfFuel, w')
    end.

Definition throw {A : Type} (e : Error) : M A := fun w => (Throw e, w).

Definition outOfFuel {A : Type} : M A := fun w => (OutOfFuel, w).

(** [try { m } catch (error) { handler(error) }] *)
Definition tryCatch {A : Type} (m : M A) (handler : Error -> M A) : M A :=
  fun w =>
    match m w with
    | (Throw e, w') => handler e w'
    | other => other
    end.

(** [Date.now()] *)
Definition now : M Z := fun w => (Ok (clock w), w).

(** [console.log] *)
Definition print (p : Prefix) (msg : string) : M unit :=
  fun w => (Ok tt, mkWorld (clock w) (history w) ((p, msg) :: console w)).

Declare Scope js_scope.
Delimit Scope js_scope with js.
Notation "x <- m ;; k" := (bind m (fun x => k))
  (at level 61, m at next level, right associativity) : js_scope.
Notation "m ;; k" := (bind m (fun _ => k))
  (at level 61, right associativity) : js_scope.
Local Open Scope js_scope.

(** The control flow of one loop iteration: [continue] (or the end of
    the body), [break], [return]. *)
Inductive Flow (St R : Type) :=
| Next (s : St)
| Break (s : St)
| Return (r : R).
Arguments Next {St R} s.
Arguments Break {St R} s.
Arguments Return {St R} r.

(** [while (cond) { body }] over the variables [s] the loop assigns; the
    result is the value of the variables when the loop is left, or the
    value returned from inside it. *)
Fixpoint while {St R : Type} (fuel : nat) (cond : St -> M bool)
    (body : St -> M (Flow St R)) (s : St) : M (St + R) :=
  match fuel with
  | O => outOfFuel
  | S fuel' =>
      c <- cond s ;;
      if c : bool then
        f <- body s ;;
        match f with
        | Next s' => while fuel' cond body s'
        | Break s' => ret (inl s')
        | Return r => ret (inr r)
        end
      else ret (inl s)
  end.

(** [for (const x of xs) { body }], left when the body breaks or
    returns with a value. *)
Fixpoint forOf {X R : Type} (xs : list X) (body : X -> M (option R)) : M (option R) :=
  match xs with
  | [] => ret None
  | x :: rest =>
      r <- body x ;;
      match r with
      | Some v => ret (Some v)
      | None => forOf rest body
      end
  end.

(** [Date.now() < deadline], the condition of the polling loops. *)
Definition before {St : Type} (deadline : Z) (_ : St) : M bool :=
  t <- now ;; ret (t <? deadline)%Z.

Inductive Level := Info | Warn | ErrorLevel.

Definition q (s : string) : string := dquote ++ s ++ dquote.

(** ** [credentials.ts] *)

Record Credentials := mkCredentials {
  email : string;
  password : string
}.

(** [value.replace(/\r?\n$/, '')] *)
Fixpoint stripTrailingNewline (value : string) : string :=
  match value with
  | EmptyString => EmptyString
  | String c r =>
      if ((c =? "013")%char && (r =? newline)%string)
         || ((c =? "010")%char && (r =? "")%string)
      then EmptyString
      else String c (stripTrailingNewline r)
  end.

(** [a || b] on a string that may be undefined. *)
Definition orElse (a : option string) (b : string) : string :=
  match a with
  | Some EmptyString | None => b
  | Some s => s
  end.

(** [!s] on a string *)
Definition isEmpty (s : string) : bool := (s =? "")%string.

(** ** Small string helpers of the login flow *)

(** [xs.join(sep)] *)
Fixpoint joinWith (sep : string) (xs : list string) : string :=
  match xs with
  | [] => ""
  | [x] => x
  | x :: rest => x ++ sep ++ joinWith sep rest
  end.

(** [s.replace(/\s+/g, '')] *)
Fixpoint removeWhiteSpace (s : string) : string :=
  match s with
  | EmptyString => EmptyString
  | String c r => if isWhiteSpace c then removeWhiteSpace r else String c (removeWhiteSpace r)
  end.

(** [s.replace(/\s+/g, ' ')] *)
Fixpoint spaceRuns (inRun : bool) (s : string) : string :=
  match s with
  | EmptyString => EmptyString
  | String c r =>
      if isWhiteSpace c
      then if inRun then spaceRuns true r else String " " (spaceRuns true r)
      else String c (spaceRuns false r)
  end.

(** [s.split('')] *)
Fixpoint splitChars (s : string) : list string :=
  match s with
  | EmptyString => []
  | String c r => String c EmptyString :: splitChars r
  end.

(** [s.slice(0, n)] *)
Definition sliceTo (n : nat) (s : string) : string := substring 0 n s.

(** [JSON.stringify(step)] for a step whose texts need no escaping. *)
Definition stringifyStep (step : ModelPreStep) : string :=
  let field (name : string) (v : option string) : list string :=
    match v with
    | Some s => [q name ++ ":" ++ q s]
    | None => []
    end in
  "{" ++ joinWith "," (field "testId" (testId step) ++ field "text" (text step)) ++ "}".

Definition optionEqb (a b : option string) : bool :=
  match a, b with
  | Some x, Some y => (x =? y)%string
  | None, None => true
  | _, _ => false
  end.

(** ** The methods of the class *)

Section Methods.

Variable drv : Driver.
Variable self : ChatGPT.

(** [await] of a browser or system call. *)
Definition call {T : Type} (c : Call T) : M T :=
  fun w =>
    let h := history w in
    let t := clock w in
    let w' := mkWorld (t + requestedWait c + Z.of_N (latency drv c h t))
                      (Called c :: h) (console w) in
    match respond drv c h t with
    | Done v => (Ok v, w')
    | Fail name msg => (Throw (DriverError name msg), w')
    end.

(** [promise.catch(() => fallback)] *)
Definition orCatch {A : Type} (m : M A) (fallback : A) : M A :=
  tryCatch m (fun _ => ret fallback).

(** [log(message, level)] *)
Definition log (message : string) (level : Level) : M unit :=
  if negb (verbose self) && (match level with Info => true | _ => false end)
  then ret tt
  else
    let prefix :=
      match level with
      | ErrorLevel => CrossMark
      | Warn => WarningSign
      | Info => CheckMark
      end in
    print prefix message.

(** [debug(message)] *)
Definition debug (message : string) : M unit :=
  if verbose self then print DebugTag message else ret tt.

(** [getCredentials()] *)
Definition getCredentials : M Credentials :=
  let emailRef :=
    orElse (getenv drv "ONEPASSWORD_EMAIL_REF") "op://Private/OpenAI/username" in
  let passwordRef :=
    orElse (getenv drv "ONEPASSWORD_PASSWORD_REF") "op://Private/OpenAI/password" in
  tryCatch
    (emailOut <- call (ExecSync ("op read " ++ q emailRef)) ;;
     let email := stripTrailingNewline emailOut in
     passwordOut <- call (ExecSync ("op read " ++ q passwordRef)) ;;
     let password := stripTrailingNewline passwordOut in
     if isEmpty email || isEmpty password
     then throw CredentialsEmpty
     else ret (mkCredentials email password))
    (fun error => throw (CredentialsUnavailable emailRef (toString error))).

(** [saveSession()] *)
Definition saveSession : M unit :=
  if negb (context self) then ret tt
  else
    let statePath := pathJoin (stateDir self) "browser-state.json" in
    call (StorageState statePath) ;;
    log "Session saved for future use" Info.

Definition sessionCookieNames : list string :=
  [ "__Secure-next-auth.session-token";
    "next-auth.session-token";
    "__Secure-openai-session-token";
    "openai-session" ].

Definition hasSessionCookie (cookies : list string) : bool :=
  existsb (fun name => existsb (String.eqb name) sessionCookieNames) cookies.

(** The function [checkIfLoggedIn] evaluates in the page. *)
Definition sessionProbe (snap : PageSnapshot) : bool :=
  if sessionUser snap then true
  else
    let body := bodyInnerText snap in
    let composer := composerPresent snap in
    let history := includes body "Search chats" || includes body "New chat" in
    let notTemporary := negb (includes body "Temporary Chat") in
    composer && history && notTemporary.

(** [checkIfLoggedIn()] *)
Definition checkIfLoggedIn : M bool :=
  if negb (page self) then ret false
  else
    found <- tryCatch
      (snap <- call Evaluate ;;
       let hasSession := sessionProbe snap in
       if hasSession
       then debug "Detected authenticated session payload" ;; ret true
       else ret false)
      (fun error =>
         debug ("Failed to inspect __NEXT_DATA__: " ++ toString error) ;; ret false) ;;
    if found : bool then ret true
    else if context self then
      cookies <- call (Cookies "https://chatgpt.com") ;;
      if hasSessionCookie cookies
      then debug "Detected authenticated session via cookies" ;; ret true
      else ret false
    else ret false.

(** The function [waitForAuthenticatedSession] evaluates in the page. *)
Definition confirmationProbe (snap : PageSnapshot) : bool :=
  if sessionUser snap then true
  else
    let body := bodyInnerText snap in
    let composer := composerPresent snap in
    let hasHistorySection :=
      includes body "New chat" && (includes body "Search chats" || includes body "GPTs") in
    let hasProBadge := includes body "Pro" in
    let hasTemporaryBanner := includes body "Temporary Chat" in
    composer && (hasHistorySection || hasProBadge) && negb hasTemporaryBanner.

Definition showBool (b : bool) : string := if b then "true" else "false".

(** [waitForAuthenticatedSession(maxWaitMs)] *)
Definition waitForAuthenticatedSession (fuel : nat) (maxWaitMs : Z) : M bool :=
  if negb (page self) then ret false
  else
    r <- tryCatch
      (orCatch (call (WaitForURL maxWaitMs)) tt ;;
       start <- now ;;
       r <- while fuel
         (fun _ : unit => t <- now ;; ret (t - start <? maxWaitMs)%Z)
         (fun _ =>
            cookieFound <-
              (if context self
               then cookies <- call (Cookies "https://chatgpt.com") ;;
                    ret (hasSessionCookie cookies)
               else ret false) ;;
            snap <- call Evaluate ;;
            let domLoggedIn := confirmationProbe snap in
            if cookieFound || domLoggedIn then
              t <- now ;;
              debug ("Authenticated session detected (cookie=" ++ showBool cookieFound
                     ++ ", dom=" ++ showBool domLoggedIn ++ ") after "
                     ++ showZ (t - start) ++ "ms") ;;
              ret (Return true)
            else
              call (WaitForTimeout 1000) ;;
              ret (Next tt))
         tt ;;
       match r with
       | inr b => ret (Some b)
       | inl _ => ret None
       end)
      (fun error =>
         debug ("waitForAuthenticatedSession error: " ++ toString error) ;; ret None) ;;
    match r with
    | Some b => ret b
    | None => debug "waitForAuthenticatedSession timed out" ;; ret false
    end.

Definition triggerSelectors : list string :=
  [ "button:has-text(" ++ q "Send code" ++ ")";
    "button:has-text(" ++ q "Send me a code" ++ ")";
    "button:has-text(" ++ q "Send verification code" ++ ")";
    "button:has-text(" ++ q "Email code" ++ ")";
    "button:has-text(" ++ q "Email me a code" ++ ")";
    "button:has-text(" ++ q "Use email" ++ ")";
    "button:has-text(" ++ q "Continue with email" ++ ")";
    "button:has-text(" ++ q "Verify" ++ ")";
    "button:has-text(" ++ q "Resend" ++ ")";
    "button[data-testid*=" ++ q "email" ++ " i]" ].

(** [tryTriggerVerificationStep(attempt)] *)
Definition tryTriggerVerificationStep (attempt : nat) : M unit :=
  if negb (page self) then ret tt
  else
    forOf triggerSelectors (fun selector =>
      let button := First (Css (selector ++ ":visible")) in
      n <- call (Count button) ;;
      if (n =? 0)%nat then ret None
      else
        tryCatch
          (call (Click button (Some 3000%Z) false) ;;
           debug ("Clicked verification trigger (" ++ selector ++ ") on attempt "
                  ++ showNat attempt) ;;
           call (WaitForTimeout 500) ;;
           ret (Some tt))
          (fun error =>
             debug ("Failed to click " ++ selector ++ " during verification (attempt "
                    ++ showNat attempt ++ "): " ++ toString error) ;;
             ret None)) ;;
    ret tt.

(** [waitForOtpInputs(selectors)] *)
Definition waitForOtpInputs (fuel : nat) (selectors : list string) : M (option Locator) :=
  if negb (page self) then throw BrowserNotInitialized
  else
    let otpSelector := joinWith ", " (map (fun selector => selector ++ ":visible") selectors) in
    if isEmpty (trim otpSelector) then ret None
    else
      let pollIntervalMs := 500%Z in
      let maxWaitMs := 45000%Z in
      t0 <- now ;;
      let deadline := (t0 + maxWaitMs)%Z in
      r <- while fuel (before deadline)
        (fun attempt : nat =>
           let attempt := S attempt in
           let locator := Css otpSelector in
           count <- orCatch (call (Count locator)) 0 ;;
           if (0 <? count)%nat then
             debug ("OTP inputs detected after " ++ showNat attempt ++ " poll(s)") ;;
             ret (Return locator)
           else
             tryTriggerVerificationStep attempt ;;
             call (WaitForTimeout pollIntervalMs) ;;
             ret (Next attempt))
        0 ;;
      match r with
      | inr locator => ret (Some locator)
      | inl _ => debug "Timed out waiting for OTP inputs" ;; ret None
      end.

(** [prompt2FA()].  The answer of the operator is the answer to the call
    [Question]; nothing bounds the time the operator takes, and a prompt
    that is never answered is no run of the embedding. *)
Definition prompt2FA : M string :=
  answer <- call (Question (newline ++ "Enter your 2FA code: ")) ;;
  ret (trim answer).

Definition otpSelectors : list string :=
  [ "input[autocomplete=" ++ q "one-time-code" ++ "]";
    "input[data-testid*=" ++ q "otp" ++ " i]";
    "input[data-testid*=" ++ q "code" ++ " i]";
    "input[name*=" ++ q "code" ++ " i]";
    "input[inputmode=" ++ q "numeric" ++ "]";
    "input[type=" ++ q "tel" ++ "]";
    "input[type=" ++ q "text" ++ "][maxlength=" ++ q "1" ++ "]";
    "input[aria-label*=" ++ q "digit" ++ " i]" ].

Definition submitSelectors : list string :=
  [ "button:has-text(" ++ q "Continue" ++ ")";
    "button:has-text(" ++ q "Verify" ++ ")";
    "button:has-text(" ++ q "Submit" ++ ")";
    "button:has-text(" ++ q "Next" ++ ")";
    "button:has-text(" ++ q "Confirm" ++ ")";
    "button[type=" ++ q "submit" ++ "]" ].

(** The loop [for (let i = 0; i < maxDigits; i++)] of [loginInteractive],
    over the first [maxDigits] digits, [i] being the index of the first. *)
Fixpoint typeDigits (codeInputs : Locator) (i : nat) (digits : list string) : M unit :=
  match digits with
  | [] => ret tt
  | digit :: rest =>
      let digitInput := Nth codeInputs i in
      call (Fill digitInput "") ;;
      call (TypeInto digitInput digit 40) ;;
      call (WaitForTimeout 40) ;;
      typeDigits codeInputs (S i) rest
  end.

(** [loginInteractive], the branch [if (codeInputs) { ... }]. *)
Definition enterVerificationCode (codeInputs : Locator) : M unit :=
  visibleOtpCount <- call (Count codeInputs) ;;
  debug ("Detected " ++ showNat visibleOtpCount ++ " OTP inputs") ;;
  log "Email verification required - check your email for code" Info ;;
  answer <- prompt2FA ;;
  let code := removeWhiteSpace answer in
  if isEmpty code then throw VerificationCodeEmpty
  else
    log "Entering verification code..." Info ;;
    call (Click (First codeInputs) None true) ;;
    call (WaitForTimeout 200) ;;
    (if (visibleOtpCount <=? 1)%nat then
       call (Fill (First codeInputs) "") ;;
       call (KeyboardType code 80)
     else
       let digits := splitChars code in
       let maxDigits := Nat.min (List.length digits) visibleOtpCount in
       typeDigits codeInputs 0 (firstn maxDigits digits) ;;
       if (visibleOtpCount <? List.length digits)%nat then
         log ("Verification code has " ++ showNat (List.length digits)
              ++ " digits but only " ++ showNat visibleOtpCount
              ++ " inputs were detected. Extra digits were ignored.") Warn
       else ret tt) ;;
    call (WaitForTimeout 500) ;;
    submitClicked <- forOf submitSelectors (fun selector =>
      let buttonLocator := First (Css (selector ++ ":visible")) in
      n <- call (Count buttonLocator) ;;
      if (0 <? n)%nat then
        tryCatch
          (call (Click buttonLocator (Some 3000%Z) false) ;;
           debug ("Clicked OTP submit button (" ++ selector ++ ")") ;;
           ret (Some tt))
          (fun error =>
             debug ("Failed to click " ++ selector ++ ": " ++ toString error) ;;
             ret None)
      else ret None) ;;
    match submitClicked with
    | Some _ => ret tt
    | None =>
        debug "No visible submit button detected for OTP, pressing Enter instead" ;;
        call (KeyboardPress "Enter")
    end ;;
    call (WaitForTimeout 5000).

(** [loginInteractive] from [this.log('Clicking login button...')] on:
    credential entry, the verification step and the confirmation. *)
Definition enterCredentials (fuel : nat) (credentials : Credentials) : M unit :=
  log "Clicking login button..." Info ;;
  call (Click (ByTestId "login-button") None false) ;;
  call (WaitForTimeout 2000) ;;
  log "Entering email..." Info ;;
  call (Fill (ByRole "textbox" "Email address" false) (email credentials)) ;;
  call (WaitForTimeout 500) ;;
  call (Click (ByRole "button" "Continue" true) None false) ;;
  call (WaitForTimeout 3000) ;;
  log "Entering password..." Info ;;
  let passwordField := ByRole "textbox" "Password" false in
  call (Click passwordField None true) ;;
  call (WaitForTimeout 500) ;;
  call (Clear passwordField) ;;
  call (WaitForTimeout 500) ;;
  debug "Typing password with simulated delays" ;;
  call (TypeInto passwordField (password credentials) 50) ;;
  call (WaitForTimeout 500) ;;
  fieldValue <- call (InputValue passwordField) ;;
  debug ("Password field length after fill: " ++ showNat (length fieldValue) ++ " chars") ;;
  (if negb (length fieldValue =? length (password credentials))%nat then
     log ("Password field length mismatch (expected "
          ++ showNat (length (password credentials)) ++ ", got "
          ++ showNat (length fieldValue) ++ ")") Warn
   else ret tt) ;;
  call (Blur passwordField) ;;
  call (WaitForTimeout 500) ;;
  let submitPasswordButton := ByRole "button" "Continue" true in
  submitted <- tryCatch
    (call (Click submitPasswordButton (Some 5000%Z) false) ;;
     log "Submitting password..." Info ;;
     ret true)
    (fun error =>
       debug ("Continue button click failed (" ++ toString error
              ++ ") - falling back to Enter") ;;
       ret false) ;;
  (if negb submitted then
     call (Press passwordField "Enter") ;;
     log "Submitting password with Enter key..." Info
   else ret tt) ;;
  call (WaitForTimeout 3000) ;;
  call (Screenshot "/tmp/after-password-submit.png") ;;
  log "Screenshot saved: /tmp/after-password-submit.png" Info ;;
  log "Checking for email verification..." Info ;;
  codeInputs <- waitForOtpInputs fuel otpSelectors ;;
  match codeInputs with
  | Some codeInputs => enterVerificationCode codeInputs
  | None =>
      debug "No email verification prompt detected after password submission" ;;
      if verbose self then
        snap <- call Evaluate ;;
        let textPreview := sliceTo 500 (bodyInnerText snap) in
        debug ("Page text preview: " ++ trim (spaceRuns false textPreview))
      else ret tt
  end ;;
  log "Waiting for login to complete..." Info ;;
  loginSuccess <- waitForAuthenticatedSession fuel 90000 ;;
  if loginSuccess : bool then
    log "Logged in successfully!" Info ;;
    saveSession
  else
    call (Screenshot "/tmp/login-failed.png") ;;
    url <- call PageUrl ;;
    throw (LoginFailed url).

(** [loginInteractive], from its start to the settle delay after the
    landing page is loaded; the result is the credentials. *)
Definition openLandingPage : M Credentials :=
  if negb (page self) then throw BrowserNotInitialized
  else
    credentials <- getCredentials ;;
    log "Navigating to https://chatgpt.com/..." Info ;;
    call (Goto "https://chatgpt.com/" (timeout self)) ;;
    call (WaitForTimeout 2000) ;;
    ret credentials.

(** [loginInteractive()] *)
Definition loginInteractive (fuel : nat) : M unit :=
  credentials <- openLandingPage ;;
  isLoggedIn <- checkIfLoggedIn ;;
  if isLoggedIn : bool then
    log "Already logged in!" Info ;;
    saveSession
  else enterCredentials fuel credentials.

(** [ensureBrowserInstalled()]; the promise of [installBrowserBinary] is
    the call [InstallBrowserBinary]. *)
Definition ensureBrowserInstalled : M unit :=
  executablePath <- tryCatch (call ExecutablePath)
    (fun error =>
       debug ("chromium.executablePath() threw: " ++ toString error) ;; ret "") ;;
  found <- (if isEmpty executablePath then ret false
            else call (ExistsSync executablePath)) ;;
  if found : bool then
    debug ("Chromium executable found at " ++ executablePath)
  else
    let message :=
      "Playwright Chromium browser not found; installing (first run may take a moment)..." in
    (if verbose self then log message Info else print DownArrow message) ;;
    call InstallBrowserBinary ;;
    executablePath <- call ExecutablePath ;;
    installed <- (if isEmpty executablePath then ret false
                  else call (ExistsSync executablePath)) ;;
    if negb installed then throw BrowserInstallFailed
    else if negb (verbose self)
    then print CheckBox "Playwright Chromium browser installed."
    else log "Playwright Chromium browser installed." Info.

(** [initialize], from its start to the launch of the browser. *)
Definition launchBrowser : M unit :=
  exists_ <- call (ExistsSync (stateDir self)) ;;
  (if negb exists_ then call (MkdirSync (stateDir self)) else ret tt) ;;
  ensureBrowserInstalled ;;
  debug ("Profile: " ++ profile self ++ ", State dir: " ++ stateDir self) ;;
  debug ("Launching browser (headless: " ++ showBool (headless self) ++ ")...") ;;
  tryCatch
    (call (Launch (headless self) (timeout self)) ;;
     debug "Browser launched successfully")
    (fun error =>
       log ("Browser launch failed: " ++ toString error) ErrorLevel ;;
       throw error).

(** [initialize], from [const statePath = ...] on: the saved session is
    looked up, the context and the page are created.  The result is the
    object with its handles assigned. *)
Definition openContext : M ChatGPT :=
  let statePath := pathJoin (stateDir self) "browser-state.json" in
  hasState <- call (ExistsSync statePath) ;;
  storageState <-
    (if hasState : bool then
       log "Loading saved session..." Info ;;
       ret (Some statePath)
     else ret None) ;;
  call (NewContext storageState) ;;
  call NewPage ;;
  call AddInitScript ;;
  ret (mkChatGPT true true true (headless self) (stateDir self) (profile self)
         (model self) (timeout self) (retries self) (verbose self)).

(** [initialize()] *)
Definition initialize : M ChatGPT :=
  launchBrowser ;;
  openContext.

(** [isModelAlreadySelected(trigger, definition)] *)
Definition isModelAlreadySelected (trigger : Locator) (definition : ModelDefinition) : M bool :=
  tryCatch
    (labelRaw <- call (TextContent trigger) ;;
     match labelRaw with
     | None => ret false
     | Some labelRaw =>
         if isEmpty labelRaw then ret false
         else
           let label := toLowerCase labelRaw in
           ret (existsb (fun token => includes label token) (verifyTokens definition))
     end)
    (fun _ => ret false).

Definition composerSelectors : list string :=
  [ "[data-testid=" ++ q "composer" ++ "]";
    "textarea#prompt-textarea";
    "textarea[placeholder*=" ++ q "Ask anything" ++ " i]";
    "textarea[placeholder*=" ++ q "Message" ++ " i]";
    "div[contenteditable=" ++ q "true" ++ "]" ].

(** [ensureComposerReady()] *)
Definition ensureComposerReady : M unit :=
  if negb (page self) then ret tt
  else
    ready <- forOf composerSelectors (fun selector =>
      tryCatch
        (call (WaitForSelector selector 5000) ;; ret (Some tt))
        (fun _ => ret None)) ;;
    match ready with
    | Some _ => ret tt
    | None => debug "Composer did not load within expected time"
    end.

(** The closure [tryClickable] of [applyModelSelection]. *)
Definition tryClickable (locator : Locator) : M bool :=
  n <- call (Count locator) ;;
  if (n =? 0)%nat then ret false
  else
    tryCatch
      (call (ScrollIntoViewIfNeeded locator) ;;
       call (Click locator (Some 3000%Z) false) ;;
       ret true)
      (fun error =>
         debug ("Failed to click model option locator: " ++ toString error) ;;
         ret false).

(** [!s] on a string that may be undefined *)
Definition isFalsy (s : option string) : bool :=
  match s with
  | Some s => isEmpty s
  | None => true
  end.

(** [applyModelSelection(definition)] *)
Definition applyModelSelection (definition : ModelDefinition) : M bool :=
  if negb (page self) then ret false
  else
    let steps := nullish (preSteps definition) [] in
    forOf steps (fun step =>
      let stepLocator :=
        if negb (isFalsy (testId step)) then
          Some (First (Css ("[data-testid=" ++ q (nullish (testId step) "") ++ "]:visible")))
        else if negb (isFalsy (text step)) then
          Some (First (Css ("div.__menu-item:has-text(" ++ q (nullish (text step) "") ++ ")")))
        else None in
      missing <-
        match stepLocator with
        | None => ret true
        | Some l => n <- call (Count l) ;; ret (n =? 0)%nat
        end ;;
      if missing : bool then
        debug ("Pre-step " ++ q (stringifyStep step) ++ " not found when switching model") ;;
        ret (@None unit)
      else
        match stepLocator with
        | None => ret None
        | Some l =>
            tryCatch
              (call (Click l (Some 2000%Z) false) ;;
               call (WaitForTimeout 250) ;;
               ret None)
              (fun error =>
                 debug ("Failed to execute pre-step " ++ stringifyStep step ++ ": "
                        ++ toString error) ;;
                 ret None)
        end) ;;
    byTestId <- forOf (optionTestIds definition) (fun testId =>
      let locator := First (Css ("[data-testid=" ++ q testId ++ "]:visible")) in
      clicked <- tryClickable locator ;;
      if clicked : bool then ret (Some true) else ret None) ;;
    match byTestId with
    | Some r => ret r
    | None =>
        byText <- forOf (fallbackTexts definition) (fun text =>
          let locator := First (Css ("div.__menu-item:has-text(" ++ q text ++ ")")) in
          clicked <- tryClickable locator ;;
          if clicked : bool then ret (Some true) else ret None) ;;
        match byText with
        | Some r => ret r
        | None => ret false
        end
    end.

Definition modelSwitcher : Locator :=
  First (Css ("button[data-testid=" ++ q "model-switcher-dropdown-button" ++ "]:visible")).

(** [selectModel(modelName)] *)
Definition selectModel (modelName : string) : M unit :=
  if negb (page self) then throw BrowserNotInitialized
  else
    log ("Selecting model: " ++ modelName) Info ;;
    match resolveModelDefinition modelName with
    | None =>
        log ("Model " ++ q modelName ++ " is not recognized; skipping model switch") Warn
    | Some definition =>
        let trigger := modelSwitcher in
        already <- isModelAlreadySelected trigger definition ;;
        if already : bool then debug ("Already using " ++ modelName)
        else
          ensureComposerReady ;;
          opened <- tryCatch
            (call (ScrollIntoViewIfNeeded trigger) ;;
             call (Click trigger (Some 5000%Z) false) ;;
             call (WaitForSelector ("[role=" ++ q "menu" ++ "], [data-state=" ++ q "open" ++ "]") 3000) ;;
             debug "Model picker opened" ;;
             ret true)
            (fun error =>
               log ("Failed to open model picker: " ++ toString error) Warn ;;
               ret false) ;;
          if negb opened then ret tt
          else
            applied <- applyModelSelection definition ;;
            if negb applied then
              log ("Could not find model option for " ++ modelName) Warn ;;
              orCatch (call (KeyboardPress "Escape")) tt
            else
              call (WaitForTimeout 1200) ;;
              confirmed <- isModelAlreadySelected trigger definition ;;
              if confirmed : bool then
                log ("Model " ++ displayName definition ++ " selected successfully") Info
              else
                content <- call (TextContent trigger) ;;
                let label := nullish (option_map trim content) "(unavailable)" in
                debug ("Model picker label after selection: " ++ label) ;;
                log ("Triggered " ++ displayName definition
                     ++ " selection (confirmation unavailable)") Info
    end.

Definition copyButtonSelector : string :=
  "[data-testid=" ++ q "copy-turn-action-button" ++ "]".

(** [!clip || clip.trim().length === 0] *)
Definition isBlank (clip : option string) : bool :=
  match clip with
  | Some s => isEmpty s || (length (trim s) =? 0)%nat
  | None => true
  end.

(** [copyAssistantResponse(message)] *)
Definition copyAssistantResponse (fuel : nat) (message : Locator) : M (option string) :=
  if negb (page self) then ret None
  else
    tryCatch
      (call (ScrollIntoViewIfNeeded message) ;;
       orCatch (call (Hover message 2000)) tt ;;
       call (WaitForTimeout 150) ;;
       let copyButton := First (Within message copyButtonSelector) in
       n <- call (Count copyButton) ;;
       copyButton <-
         (if (n =? 0)%nat then
            messageId <- call (GetAttribute message "data-message-id") ;;
            if negb (isFalsy messageId) then
              ret (First (Css (copyButtonSelector ++ "[data-message-id="
                               ++ q (nullish messageId "") ++ "]")))
            else ret copyButton
          else ret copyButton) ;;
       n <- call (Count copyButton) ;;
       let copyButton :=
         if (n =? 0)%nat then Last (Css (copyButtonSelector ++ ":visible")) else copyButton in
       n <- call (Count copyButton) ;;
       if (n =? 0)%nat then
         debug "Copy button not found for assistant message" ;;
         ret None
       else
         orCatch (call (WaitFor copyButton 2000)) tt ;;
         before_ <- call ClipboardRead ;;
         orCatch (call (Hover copyButton 2000)) tt ;;
         call (Click copyButton (Some 3000%Z) false) ;;
         t0 <- now ;;
         let timeout := (t0 + 3000)%Z in
         r <- while fuel (before timeout)
           (fun _ : option string =>
              clip <- call ClipboardRead ;;
              if negb (isBlank clip) && negb (optionEqb clip before_)
              then ret (@Break _ unit clip)
              else call (WaitForTimeout 150) ;; ret (Next clip))
           None ;;
         let clip := match r with inl clip => clip | inr _ => None end in
         if isBlank clip then
           debug "Clipboard returned empty or unchanged content after copy" ;;
           ret None
         else ret clip)
      (fun error =>
         debug ("Failed to copy assistant response: " ++ toString error) ;;
         ret None).

Definition inputSelector : string :=
  "textarea#prompt-textarea, textarea[placeholder*=" ++ q "Message"
  ++ " i], div[contenteditable=" ++ q "true" ++ "]".

Definition assistantMessages : Locator :=
  Css ("[data-message-author-role=" ++ q "assistant" ++ "]").

Definition requiredStableChecks : nat := 3.

(** [query], from its start to the key press that submits the prompt;
    the result is [initialMessages]. *)
Definition submitPrompt (prompt : string) : M nat :=
  if negb (page self) then throw BrowserNotInitialized
  else
    selectModel (model self) ;;
    log "Submitting prompt..." Info ;;
    call (WaitForSelector inputSelector 10000) ;;
    initialMessages <- call (Count assistantMessages) ;;
    debug ("Initial assistant messages: " ++ showNat initialMessages) ;;
    call (PageFill inputSelector prompt) ;;
    call (WaitForTimeout 500) ;;
    call (KeyboardPress "Enter") ;;
    log "Waiting for response..." Info ;;
    ret initialMessages.

(** The body of the first loop of [query]: has a new message arrived? *)
Definition awaitArrival (initialMessages : nat) (pollIntervalMs : Z) (_ : unit)
  : M (Flow unit Empty_set) :=
  currentCount <- call (Count assistantMessages) ;;
  if (initialMessages <? currentCount)%nat then
    debug ("New assistant message detected (" ++ showNat currentCount ++ " > "
           ++ showNat initialMessages ++ ")") ;;
    ret (Break tt)
  else
    (if verbose self then
       snap <- call Evaluate ;;
       let thinking :=
         includes (bodyInnerText snap) "Pro thinking"
         || includes (bodyInnerText snap) "Thinking" in
       if thinking then log "Assistant is still thinking..." Info else ret tt
     else ret tt) ;;
    call (WaitForTimeout pollIntervalMs) ;;
    ret (Next tt).

(** The body of the second loop of [query], over the variables
    [(previousLength, stableCount)]. *)
Definition awaitStable (fuel : nat) (vars : nat * nat) : M (Flow (nat * nat) string) :=
  let '(previousLength, stableCount) := vars in
  call (WaitForTimeout 2000) ;;
  messages <- call (All assistantMessages) ;;
  if (messages =? 0)%nat then
    debug "Assistant message collection empty, waiting..." ;;
    ret (Next (previousLength, stableCount))
  else
    let lastMessage := Nth assistantMessages (messages - 1) in
    currentText <- call (InnerText lastMessage) ;;
    let trimmedText := trim currentText in
    let currentLength := length trimmedText in
    if (currentLength =? 0)%nat then
      (if verbose self
       then log "Assistant response not ready yet, continuing to wait..." Info
       else ret tt) ;;
      ret (Next (0, 0))
    else
      vars' <-
        (if (currentLength =? previousLength)%nat then
           let stableCount := S stableCount in
           debug ("Response length stable at " ++ showNat currentLength ++ " characters ("
                  ++ showNat stableCount ++ "/" ++ showNat requiredStableChecks ++ ")") ;;
           ret (previousLength, stableCount)
         else
           debug ("Response length changed (" ++ showNat previousLength ++ " -> "
                  ++ showNat currentLength ++ ")") ;;
           ret (currentLength, 0)) ;;
      let '(previousLength, stableCount) := vars' in
      if (requiredStableChecks <=? stableCount)%nat then
        if (length trimmedText =? 0)%nat then throw EmptyResponse
        else
          copied <- copyAssistantResponse fuel lastMessage ;;
          match copied with
          | Some copied =>
              if negb (isEmpty copied) && (0 <? length (trim copied))%nat
              then ret (Return (trim copied))
              else ret (Return trimmedText)
          | None => ret (Return trimmedText)
          end
      else ret (Next (previousLength, stableCount)).

(** [query], from [const responseTimeout = this.getResponseTimeout()] on. *)
Definition awaitResponse (fuel : nat) (initialMessages : nat) : M string :=
  let responseTimeout := getResponseTimeout self in
  let pollIntervalMs := 2000%Z in
  t0 <- now ;;
  let responseDeadline := (t0 + responseTimeout)%Z in
  while fuel (before responseDeadline) (awaitArrival initialMessages pollIntervalMs) tt ;;
  confirmedCount <- call (Count assistantMessages) ;;
  if (confirmedCount <=? initialMessages)%nat then throw (ResponseTimeout responseTimeout)
  else
    r <- while fuel (before responseDeadline) (awaitStable fuel) (0, 0) ;;
    match r with
    | inr response => ret response
    | inl _ => throw (ResponseTimeout responseTimeout)
    end.

(** [query(prompt)] *)
Definition query (fuel : nat) (prompt : string) : M string :=
  initialMessages <- submitPrompt prompt ;;
  awaitResponse fuel initialMessages.

End Methods.

(** The world after the call [c] made in [w]. *)
Definition after (drv : Driver) {T : Type} (c : Call T) (w : World) : World :=
  mkWorld (clock w + requestedWait c + Z.of_N (latency drv c (history w) (clock w)))
          (Called c :: history w) (console w).

(** The only assistant message of a scripted reply. *)
Definition lastMessage : Locator := Nth assistantMessages 0.

(** The world after one more poll of the last message, in no time beyond
    the wait. *)
Definition polled (w : World) : World :=
  mkWorld (clock w + 2000)
    (Called (InnerText lastMessage) :: Called (All assistantMessages)
     :: Called (WaitForTimeout 2000) :: history w)
    (console w).

(** What [query] does once the response is considered final. *)
Definition finalize (drv : Driver) (self : ChatGPT) (fuel : nat)
    (trimmedText : string) : M (Flow (nat * nat) string) :=
  copied <- copyAssistantResponse drv self fuel lastMessage ;;
  match copied with
  | Some copied =>
      if negb (isEmpty copied) && (0 <? length (trim copied))%nat
      then ret (Return (trim copied))
      else ret (Return trimmedText)
  | None => ret (Return trimmedText)
  end.

(** ** Notions the properties are stated with *)

(** [label] contains [token], letter case ignored. *)
Definition containsIgnoringCase (label token : string) : bool :=
  includes (toLowerCase label) (toLowerCase token).

(** The verification substrings of a catalog entry are non-empty and in
    lower case. *)
Definition lowercaseTokens (definition : ModelDefinition) : bool :=
  forallb (fun token => negb (isEmpty token) && (toLowerCase token =? token)%string)
          (verifyTokens definition).

(** A normalised name is recognised when it is an alias or a catalog key. *)
Definition isRecognized (normalized : string) : bool :=
  existsb (String.eqb normalized) (map fst aliasMap ++ map fst modelDefinitions).

(** Every character of [s] is a separator. *)
Fixpoint allSeparators (s : string) : bool :=
  match s with
  | EmptyString => true
  | String c r => isSeparator c && allSeparators r
  end.

(** No character of [s] is a separator. *)
Fixpoint noSeparator (s : string) : bool :=
  match s with
  | EmptyString => true
  | String c r => negb (isSeparator c) && noSeparator r
  end.

(** The floor [minimum] of [getResponseTimeout] for a model name. *)
Definition longRunningFloor (model : string) : Z :=
  if existsb (fun name => includes (replaceSeparators (toLowerCase model)) name)
             longRunningModels
  then 1800000%Z else 0%Z.

(** The driver answers every call. *)
Definition Reliable (drv : Driver) : Prop :=
  forall (T : Type) (c : Call T) h t, exists v, respond drv c h t = Done v.

(** No call takes more than [bound] beyond the wait it asks for. *)
Definition LatencyWithin (drv : Driver) (bound : Z) : Prop :=
  forall (T : Type) (c : Call T) h t, (Z.of_N (latency drv c h t) <= bound)%Z.

(** The events of [w'] that [w] does not have yet, most recent first. *)
Definition since (w w' : World) : list Event :=
  firstn (List.length (history w') - List.length (history w)) (history w').

Definition isSample (e : Event) : bool :=
  match e with
  | Called (InnerText _) => true
  | _ => false
  end.

(** The number of times the text of the last message has been read. *)
Definition samplesTaken (h : list Event) : nat :=
  List.length (filter isSample h).

(** The calls that simulate input: clicks, typing, key presses. *)
Definition isInput (e : Event) : bool :=
  match e with
  | Called (Click _ _ _) | Called (Fill _ _) | Called (Clear _)
  | Called (TypeInto _ _ _) | Called (Press _ _) | Called (PageFill _ _)
  | Called (KeyboardPress _) | Called (KeyboardType _ _) => true
  | _ => false
  end.

Definition isNavigation (e : Event) : bool :=
  match e with
  | Called (Goto _ _) | Called Evaluate | Called (Cookies _) => true
  | _ => false
  end.

(** What a run of [m] from the world [w] is allowed to do: the clock never
    goes back; a value satisfies [post]; an exception is [allowed]; and
    the run finishes within its fuel when that is [sufficient]. *)
Definition obeys {A : Type} (sufficient : Prop) (allowed : Error -> Prop)
    (post : A -> Prop) (m : M A) (w : World) : Prop :=
  (clock w <= clock (snd (m w)))%Z /\
  match fst (m w) with
  | Ok a => post a
  | Throw e => allowed e
  | OutOfFuel => ~ sufficient
  end.

(** The exceptions of a driver are allowed, or it raises none. *)
Definition tolerates (drv : Driver) (allowed : Error -> Prop) : Prop :=
  Reliable drv \/ forall name msg, allowed (DriverError name msg).

Definition any {A : Type} (_ : A) : Prop := True.

(** What an iteration may return from a loop whose result obeys [post]. *)
Definition flowPost {St R : Type} (post : R -> Prop) (f : Flow St R) : Prop :=
  match f with
  | Return r => post r
  | _ => True
  end.

Definition loopPost {St R : Type} (post : R -> Prop) (r : St + R) : Prop :=
  match r with
  | inr r => post r
  | inl _ => True
  end.

(** The text is not blank. *)
Definition nonBlank (s : string) : Prop := (0 < length (trim s))%nat.

(** The calls a run of [m] from [w] adds to the history are [permitted]. *)
Definition emits {A : Type} (permitted : Event -> bool) (m : M A) (w : World) : Prop :=
  exists events,
    history (snd (m w)) = (events ++ history w)%list
    /\ forallb permitted events = true.

Definition notInput (e : Event) : bool := negb (isInput e).

Definition notNavigation (e : Event) : bool := negb (isNavigation e).

(** The path of the saved session of the profile. *)
Definition statePathOf (self : ChatGPT) : string :=
  pathJoin (stateDir self) "browser-state.json".

(** ** Scripted drivers, for running the methods on an example *)

Inductive StateFile := Missing | Valid | Corrupt.

Record Scenario := mkScenario {
  opSignedIn : bool;            (* the 1Password CLI answers *)
  stateFile : StateFile;        (* the saved session of the profile *)
  sessionLive : bool;           (* the page shows a logged-in user *)
  pickerLabel : option string;  (* the label of the model switcher *)
  replyArrives : bool;          (* a new assistant message appears *)
  samples : list string;        (* its rendered text, poll after poll *)
  clipboard : option string     (* what its copy button puts on the clipboard *)
}.

(** The answer of a browser in which nothing is found and nothing fails. *)
Definition quiet {T : Type} (c : Call T) : T :=
  match c in Call T return T with
  | ExistsSync _ => false
  | MkdirSync _ => tt
  | ExecSync _ => ""
  | Question _ => ""
  | ExecutablePath => ""
  | InstallBrowserBinary => tt
  | Launch _ _ => tt
  | NewContext _ => tt
  | NewPage => tt
  | AddInitScript => tt
  | Goto _ _ => tt
  | WaitForTimeout _ => tt
  | WaitForSelector _ _ => tt
  | WaitForURL _ => tt
  | PageFill _ _ => tt
  | KeyboardPress _ => tt
  | KeyboardType _ _ => tt
  | Screenshot _ => tt
  | PageUrl => ""
  | Evaluate => mkSnapshot false false ""
  | ClipboardRead => None
  | Cookies _ => []
  | StorageState _ => tt
  | Count _ => 0
  | All _ => 0
  | Click _ _ _ => tt
  | Fill _ _ => tt
  | Clear _ => tt
  | TypeInto _ _ _ => tt
  | InputValue _ => ""
  | Blur _ => tt
  | Press _ _ => tt
  | TextContent _ => None
  | InnerText _ => ""
  | GetAttribute _ _ => None
  | ScrollIntoViewIfNeeded _ => tt
  | Hover _ _ => tt
  | WaitFor _ _ => tt
  end.

Definition isKeyPress (e : Event) : bool :=
  match e with Called (KeyboardPress _) => true | _ => false end.

Definition isClick (e : Event) : bool :=
  match e with Called (Click _ _ _) => true | _ => false end.

Definition scriptedRespond (sc : Scenario) (T : Type) (c : Call T) (h : list Event)
    (t : Z) : Outcome T :=
  match c in Call T return Outcome T with
  | ExistsSync path =>
      Done (if includes path "browser-state.json"
            then match stateFile sc with Missing => false | _ => true end
            else true)
  | ExecutablePath => Done "/opt/chromium/chrome"
  | ExecSync _ =>
      if opSignedIn sc then Done ("operator@example.com" ++ newline)
      else Fail "Error" "Command failed: op read"
  | NewContext (Some path) =>
      match stateFile sc with
      | Corrupt => Fail "Error" ("Error reading storage state from " ++ path)
      | _ => Done tt
      end
  | Evaluate => Done (mkSnapshot (sessionLive sc) (sessionLive sc) "")
  | TextContent _ => Done (pickerLabel sc)
  | Count (Css _) => Done (if replyArrives sc && existsb isKeyPress h then 1 else 0)
  | Count _ => Done (match clipboard sc with Some _ => 1 | None => 0 end)
  | All _ => Done (if replyArrives sc then 1 else 0)
  | InnerText _ => Done (nth (samplesTaken h) (samples sc) "")
  | ClipboardRead => Done (if existsb isClick h then clipboard sc else None)
  | other => Done (quiet other)
  end.

(** The driver of a scenario: calls take no time beyond their waits. *)
Definition scripted (sc : Scenario) : Driver :=
  mkDriver (fun _ => None) (scriptedRespond sc) (fun _ _ _ _ => 0%N).

(** The world before anything has happened. *)
Definition initialWorld : World := mkWorld 0 [] [].

(** The object [new ChatGPT()] after a successful [initialize]. *)
Definition defaultChatGPT : ChatGPT :=
  let fresh := newChatGPT "/home/operator" Options.empty in
  mkChatGPT true true true (headless fresh) (stateDir fresh) (profile fresh)
    (model fresh) (timeout fresh) (retries fresh) (verbose fresh).

(** [n] characters [x]. *)
Fixpoint repeatChar (n : nat) : string :=
  match n with
  | O => EmptyString
  | S k => String "x" (repeatChar k)
  end.

(** A reply whose rendered lengths are 0, 5, 5, 5, 8, 8, 8, 8 and then
    keep growing. *)
Definition streamingReply : list string :=
  map repeatChar [0; 5; 5; 5; 8; 8; 8; 8; 9; 10; 11; 12; 13; 14; 15; 16].

Definition streaming : Scenario :=
  mkScenario true Valid true (Some "ChatGPT 5 Pro") true streamingReply None.

(** A reply that never arrives. *)
Definition silent : Scenario :=
  mkScenario true Valid true (Some "ChatGPT 5 Pro") false [] None.

(** A reply with the given rendered texts and clipboard copy. *)
Definition replying (samples : list string) (clip : option string) : Scenario :=
  mkScenario true Valid true (Some "ChatGPT 5 Pro") true samples clip.

(** A reply whose length changes again at the eighth sample:
    0, 5, 5, 5, 8, 8, 8, 9, 9, 9, 9. *)
Definition stalling : Scenario :=
  replying (map repeatChar [0; 5; 5; 5; 8; 8; 8; 9; 9; 9; 9]) None.

(** The page shows a logged-in user, the 1Password CLI is signed out. *)
Definition signedOut : Scenario :=
  mkScenario false Valid true (Some "ChatGPT 5 Pro") false [] None.

(** A profile with no saved session, and one whose file cannot be parsed. *)
Definition freshProfile : Scenario :=
  mkScenario true Missing false None false [] None.

Definition corrupted : Scenario :=
  mkScenario true Corrupt false None false [] None.

(** The object [new ChatGPT()] before [initialize]. *)
Definition newDefault : ChatGPT := newChatGPT "/home/operator" Options.empty.

(** ** Further methods, and the notions their properties are stated with *)

(** [checkSession()] *)
Definition checkSession (drv : Driver) (self : ChatGPT) : M bool :=
  if negb (page self) then throw BrowserNotInitialized
  else
    log self "Checking session..." Info ;;
    call drv (Goto "https://chatgpt.com/" (timeout self)) ;;
    call drv (WaitForTimeout 3000) ;;
    checkIfLoggedIn drv self.

(** The text holds no line break: neither LF nor CR. *)
Fixpoint noLineBreak (s : string) : bool :=
  match s with
  | EmptyString => true
  | String c r => negb ((c =? "010")%char || (c =? "013")%char) && noLineBreak r
  end.

(** The character CR. *)
Definition carriageReturn : string := String "013"%char EmptyString.

(** The references [emailRef] and [passwordRef] of [getCredentials]. *)
Definition emailRefOf (drv : Driver) : string :=
  orElse (getenv drv "ONEPASSWORD_EMAIL_REF") "op://Private/OpenAI/username".

Definition passwordRefOf (drv : Driver) : string :=
  orElse (getenv drv "ONEPASSWORD_PASSWORD_REF") "op://Private/OpenAI/password".

(** The command [getCredentials] runs to read a reference. *)
Definition opRead (reference : string) : Call string :=
  ExecSync ("op read " ++ q reference).

(** The call writes no text into the page, presses no key but Escape,
    and does not navigate. *)
Definition leavesPageAlone (e : Event) : bool :=
  match e with
  | Called (Fill _ _) | Called (Clear _) | Called (TypeInto _ _ _)
  | Called (Press _ _) | Called (PageFill _ _) | Called (KeyboardType _ _)
  | Called (Goto _ _) => false
  | Called (KeyboardPress key) => (key =? "Escape")%string
  | _ => true
  end.

(** The wait for one of the composer selectors, five seconds at most. *)
Definition isComposerWait (e : Event) : bool :=
  match e with
  | Called (WaitForSelector selector timeout) =>
      existsb (String.eqb selector) composerSelectors && (timeout =? 5000)%Z
  | _ => false
  end.

(** The locators [applyModelSelection] tries for the option of a model:
    by test id first, by text next. *)
Definition optionLocators (definition : ModelDefinition) : list Locator :=
  (map (fun testId => First (Css ("[data-testid=" ++ q testId ++ "]:visible")))
       (optionTestIds definition)
   ++ map (fun text => First (Css ("div.__menu-item:has-text(" ++ q text ++ ")")))
       (fallbackTexts definition))%list.

(** The entry of the default model. *)
Definition gpt5Pro : ModelDefinition :=
  mkModelDefinition "gpt-5-pro" "GPT-5 Pro" ["pro"]
    ["model-switcher-gpt-5-pro"] ["Pro"] None.

(** What [query] may do to the page for a prompt: fill the composer with
    the prompt, press Enter or Escape, and calls that write no text and do
    not navigate. *)
Definition submitsOnly (prompt : string) (e : Event) : bool :=
  match e with
  | Called (PageFill selector value) =>
      (selector =? inputSelector)%string && (value =? prompt)%string
  | Called (KeyboardPress key) => (key =? "Enter")%string || (key =? "Escape")%string
  | Called (Fill _ _) | Called (Clear _) | Called (TypeInto _ _ _)
  | Called (Press _ _) | Called (KeyboardType _ _) | Called (Goto _ _) => false
  | _ => true
  end.

(** A page on which every option of the picker can be clicked. *)
Definition clickable : Scenario :=
  mkScenario true Valid true (Some "ChatGPT 5") false [] (Some "copied").

(** A browser whose clipboard holds the same text whatever is clicked,
    and in which every locator finds one element. *)
Definition staleClipboard (clip : string) : Driver :=
  mkDriver (fun _ => None)
    (fun T c _ _ =>
       match c in Call T return Outcome T with
       | ClipboardRead => Done (Some clip)
       | Count _ => Done 1%nat
       | other => Done (quiet other)
       end)
    (fun _ _ _ _ => 0%N).

(** The in-page probe of [checkIfLoggedIn] finds no session in the world
    [w]: the evaluation fails, or what it reads is negative. *)
Definition probeNegative (drv : Driver) (w : World) : Prop :=
  forall snap,
    respond drv Evaluate (history w) (clock w) = Done snap -> sessionProbe snap = false.

(** The combined selector [waitForOtpInputs] polls. *)
Definition otpSelectorOf (selectors : list string) : string :=
  joinWith ", " (map (fun selector => selector ++ ":visible") selectors).

(** The texts typed into elements among the events [h] (most recent
    first), oldest first. *)
Fixpoint typedInto (h : list Event) : list (Locator * string) :=
  match h with
  | [] => []
  | Called (TypeInto l text _) :: rest => (typedInto rest ++ [(l, text)])%list
  | _ :: rest => typedInto rest
  end.

(** The exception is one the driver raised. *)
Definition isDriverError (e : Error) : Prop :=
  exists name msg, e = DriverError name msg.

(** The exceptions an interactive login on an initialised page can end
    with. *)
Definition isLoginError (e : Error) : Prop :=
  match e with
  | CredentialsUnavailable _ _ | VerificationCodeEmpty | LoginFailed _
  | DriverError _ _ => True
  | _ => False
  end.

(** The stabilisation loop since the time [start]: once a length has been
    recorded, it has run for two seconds per unchanged observation, and
    two more. *)
Definition paced (start : Z) (vars : nat * nat) (w : World) : Prop :=
  (start <= clock w)%Z
  /\ (fst vars <> 0%nat -> (2000 * (Z.of_nat (snd vars) + 1) <= clock w - start)%Z).

(** Every call counts. *)
Definition anyEvent (_ : Event) : bool := true.

(** The call types no text into an element. *)
Definition noTyping (e : Event) : bool :=
  match e with
  | Called (TypeInto _ _ _) => false
  | _ => true
  end.

(** A verification page with [count] elements under every locator, and
    an operator who answers the prompt with [code]. *)
Definition verifying (code : string) (count : nat) : Driver :=
  mkDriver (fun _ => None)
    (fun T c _ _ =>
       match c in Call T return Outcome T with
       | Question _ => Done code
       | Count _ => Done count
       | other => Done (quiet other)
       end)
    (fun _ _ _ _ => 0%N).

(** * Properties *)

(** ** Strings *)

Section StringFacts.

Lemma append_assoc (a b c : string) : (a ++ b) ++ c = a ++ (b ++ c).
Proof. induction a as [|x a IH]; simpl; [reflexivity | now rewrite IH]. Qed.

Lemma isWhiteSpace_toLowerChar (c : ascii) :
  isWhiteSpace (toLowerChar c) = isWhiteSpace c.
Proof.
  destruct c as [b0 b1 b2 b3 b4 b5 b6 b7].
  destruct b0, b1, b2, b3, b4, b5, b6, b7; reflexivity.
Qed.

Lemma isSeparator_toLowerChar (c : ascii) :
  isSeparator (toLowerChar c) = isSeparator c.
Proof.
  destruct c as [b0 b1 b2 b3 b4 b5 b6 b7].
  destruct b0, b1, b2, b3, b4, b5, b6, b7; reflexivity.
Qed.

Lemma toLowerChar_idempotent (c : ascii) :
  toLowerChar (toLowerChar c) = toLowerChar c.
Proof.
  destruct c as [b0 b1 b2 b3 b4 b5 b6 b7].
  destruct b0, b1, b2, b3, b4, b5, b6, b7; reflexivity.
Qed.

Lemma isWhiteSpace_isSeparator (c : ascii) :
  isSeparator c = false -> isWhiteSpace c = false.
Proof. unfold isSeparator. intros H. now apply orb_false_iff in H. Qed.

Lemma toLowerCase_append (a b : string) :
  toLowerCase (a ++ b) = toLowerCase a ++ toLowerCase b.
Proof. induction a as [|c a IH]; simpl; [reflexivity | now rewrite IH]. Qed.

Lemma toLowerCase_empty (s : string) : toLowerCase s = "" -> s = "".
Proof. destruct s; simpl; [reflexivity | discriminate]. Qed.

Lemma trimStart_toLowerCase (s : string) :
  toLowerCase (trimStart s) = trimStart (toLowerCase s).
Proof.
  induction s as [|c s IH]; simpl; [reflexivity|].
  rewrite isWhiteSpace_toLowerChar.
  destruct (isWhiteSpace c); [exact IH | reflexivity].
Qed.

Lemma trimEnd_toLowerCase (s : string) :
  toLowerCase (trimEnd s) = trimEnd (toLowerCase s).
Proof.
  induction s as [|c s IH]; simpl; [reflexivity|].
  rewrite <- IH, isWhiteSpace_toLowerChar.
  destruct (trimEnd s) as [|d r]; simpl.
  - destruct (isWhiteSpace c); reflexivity.
  - reflexivity.
Qed.

Lemma trim_toLowerCase (s : string) :
  toLowerCase (trim s) = trim (toLowerCase s).
Proof. unfold trim. now rewrite trimEnd_toLowerCase, trimStart_toLowerCase. Qed.

Lemma dashRuns_noSeparator (inRun : bool) (s : string) :
  noSeparator (dashRuns inRun s) = true.
Proof.
  revert inRun. induction s as [|c s IH]; intros inRun; simpl; [reflexivity|].
  destruct (isSeparator c) eqn:E.
  - destruct inRun; simpl; auto.
  - simpl. rewrite E. simpl. auto.
Qed.

Lemma noSeparator_trimStart (s : string) : noSeparator s = true -> trimStart s = s.
Proof.
  destruct s as [|c s]; simpl; [reflexivity|].
  intros H. apply andb_true_iff in H as [H _]. apply negb_true_iff in H.
  now rewrite (isWhiteSpace_isSeparator _ H).
Qed.

Lemma noSeparator_trimEnd (s : string) : noSeparator s = true -> trimEnd s = s.
Proof.
  induction s as [|c s IH]; simpl; [reflexivity|].
  intros H. apply andb_true_iff in H as [Hc Hs]. apply negb_true_iff in Hc.
  rewrite (IH Hs). destruct s; [|reflexivity].
  now rewrite (isWhiteSpace_isSeparator _ Hc).
Qed.

Lemma noSeparator_dashRuns (inRun : bool) (s : string) :
  noSeparator s = true -> dashRuns inRun s = s.
Proof.
  revert inRun. induction s as [|c s IH]; intros inRun; simpl; [reflexivity|].
  intros H. apply andb_true_iff in H as [Hc Hs]. apply negb_true_iff in Hc.
  now rewrite Hc, (IH _ Hs).
Qed.

Lemma dashRuns_lowercase (inRun : bool) (s : string) :
  toLowerCase (dashRuns inRun (toLowerCase s)) = dashRuns inRun (toLowerCase s).
Proof.
  revert inRun. induction s as [|c s IH]; intros inRun; simpl; [reflexivity|].
  destruct (isSeparator (toLowerChar c)).
  - destruct inRun; simpl; now rewrite IH.
  - simpl. now rewrite toLowerChar_idempotent, IH.
Qed.

(** Normalisation is idempotent. *)
Lemma normalizeModelName_idempotent (s : string) :
  normalizeModelName (normalizeModelName s) = normalizeModelName s.
Proof.
  unfold normalizeModelName, replaceSeparators, trim.
  set (n := dashRuns false (toLowerCase (trimEnd (trimStart s)))).
  assert (Hn : noSeparator n = true) by apply dashRuns_noSeparator.
  rewrite (noSeparator_trimStart _ Hn), (noSeparator_trimEnd _ Hn).
  unfold n at 1. rewrite dashRuns_lowercase. fold n.
  now apply noSeparator_dashRuns.
Qed.

(** Names that differ by letter case only have one normal form. *)
Lemma normalizeModelName_case (s t : string) :
  toLowerCase s = toLowerCase t -> normalizeModelName s = normalizeModelName t.
Proof.
  intros H. unfold normalizeModelName. now rewrite !trim_toLowerCase, H.
Qed.

Lemma trimStart_append_char (a : string) (c : ascii) (x : string) :
  isWhiteSpace c = false ->
  trimStart (a ++ String c x) = trimStart (a ++ String c "") ++ x.
Proof.
  intros Hc. induction a as [|d a IH]; simpl.
  - now rewrite Hc.
  - destruct (isWhiteSpace d); [exact IH|].
    simpl. f_equal. clear IH. induction a as [|e a IH]; simpl; [reflexivity|].
    now rewrite IH.
Qed.

Lemma trimStart_ends (a : string) (c : ascii) :
  isWhiteSpace c = false ->
  exists a', trimStart (a ++ String c "") = a' ++ String c "".
Proof.
  intros Hc. induction a as [|d a IH]; simpl.
  - rewrite Hc. now exists "".
  - destruct (isWhiteSpace d); [exact IH|]. now exists (String d a).
Qed.

Lemma trimEnd_head (c : ascii) (x : string) :
  isWhiteSpace c = false -> exists x', trimEnd (String c x) = String c x'.
Proof.
  intros Hc. simpl. destruct (trimEnd x) as [|d r].
  - rewrite Hc. now exists "".
  - now exists (String d r).
Qed.

Lemma trimEnd_cons (d : ascii) (r : string) :
  trimEnd r <> "" -> trimEnd (String d r) = String d (trimEnd r).
Proof. intros H. simpl. destruct (trimEnd r); [congruence | reflexivity]. Qed.

Lemma trimEnd_append_char (y : string) (c : ascii) (x : string) :
  isWhiteSpace c = false ->
  trimEnd (y ++ String c x) = y ++ trimEnd (String c x).
Proof.
  intros Hc. induction y as [|d y IH]; [reflexivity|].
  cbn [append]. rewrite trimEnd_cons; rewrite IH; [reflexivity|].
  destruct (trimEnd_head c x Hc) as [x' ->]. destruct y; discriminate.
Qed.

Lemma dashRuns_append_char (inRun : bool) (a : string) (c : ascii) (x : string) :
  isSeparator c = false ->
  dashRuns inRun (a ++ String c x) = dashRuns inRun (a ++ String c "") ++ dashRuns false x.
Proof.
  intros Hc. revert inRun. induction a as [|d a IH]; intros inRun; simpl.
  - now rewrite Hc.
  - destruct (isSeparator d).
    + destruct inRun; simpl; now rewrite IH.
    + simpl. now rewrite IH.
Qed.

Lemma dashRuns_skip (w x : string) :
  allSeparators w = true -> dashRuns true (w ++ x) = dashRuns true x.
Proof.
  induction w as [|c w IH]; simpl; [reflexivity|].
  intros H. apply andb_true_iff in H as [Hc Hw]. now rewrite Hc, IH.
Qed.

Lemma dashRuns_run (w : string) (c : ascii) (x : string) :
  w <> "" -> allSeparators w = true -> isSeparator c = false ->
  dashRuns false (w ++ String c x) = dashRuns false (String "-" (String c x)).
Proof.
  intros Hne Hw Hc. destruct w as [|d w]; [congruence|].
  simpl in Hw. apply andb_true_iff in Hw as [Hd Hw].
  simpl. rewrite Hd, (dashRuns_skip _ _ Hw). simpl. now rewrite Hc.
Qed.

Lemma allSeparators_toLowerCase (w : string) :
  allSeparators (toLowerCase w) = allSeparators w.
Proof.
  induction w as [|c w IH]; simpl; [reflexivity|].
  now rewrite isSeparator_toLowerChar, IH.
Qed.

(** A dash between two name characters may be written as any non-empty
    run of white space and underscores. *)
Lemma normalizeModelName_separator (a : string) (c1 : ascii) (w : string)
    (c2 : ascii) (b : string) :
  isSeparator c1 = false -> isSeparator c2 = false ->
  w <> "" -> allSeparators w = true ->
  normalizeModelName (a ++ String c1 (w ++ String c2 b))
  = normalizeModelName (a ++ String c1 (String "-" (String c2 b))).
Proof.
  intros H1 H2 Hne Hw.
  pose proof (isWhiteSpace_isSeparator _ H1) as W1.
  pose proof (isWhiteSpace_isSeparator _ H2) as W2.
  assert (T : forall m, trim (a ++ String c1 (m ++ String c2 b))
              = (trimStart (a ++ String c1 "") ++ m) ++ trimEnd (String c2 b)).
  { intros m. unfold trim. rewrite (trimStart_append_char a c1 _ W1).
    rewrite <- append_assoc. now rewrite (trimEnd_append_char _ c2 b W2). }
  unfold normalizeModelName.
  rewrite (T w). change (String "-" (String c2 b)) with ("-" ++ String c2 b).
  rewrite (T "-").
  destruct (trimStart_ends a c1 W1) as [a' ->].
  destruct (trimEnd_head c2 b W2) as [b' ->].
  rewrite !append_assoc. simpl. rewrite !toLowerCase_append. simpl.
  rewrite toLowerCase_append. simpl.
  unfold replaceSeparators.
  change (toLowerChar "-") with "-"%char.
  assert (L1 : isSeparator (toLowerChar c1) = false)
    by now rewrite isSeparator_toLowerChar.
  rewrite (dashRuns_append_char false (toLowerCase a') (toLowerChar c1)
             (toLowerCase w ++ String (toLowerChar c2) (toLowerCase b')) L1).
  rewrite (dashRuns_append_char false (toLowerCase a') (toLowerChar c1)
             (String "-" (String (toLowerChar c2) (toLowerCase b'))) L1).
  f_equal. apply dashRuns_run.
  - intros E. apply toLowerCase_empty in E. contradiction.
  - now rewrite allSeparators_toLowerCase.
  - now rewrite isSeparator_toLowerChar.
Qed.

Lemma lookup_absent {V : Type} (k : string) (m : list (string * V)) :
  existsb (String.eqb k) (map fst m) = false -> lookup k m = None.
Proof.
  induction m as [|[k' v] m IH]; simpl; [reflexivity|].
  intros H. apply orb_false_iff in H as [Hk Hm].
  rewrite String.eqb_sym, Hk. now apply IH.
Qed.

Lemma startsWith_empty (t : string) : startsWith "" t = true -> t = "".
Proof. destruct t; simpl; [reflexivity | discriminate]. Qed.

End StringFacts.

(** ** Runs of the methods *)

Section Runs.

Variable drv : Driver.
Variable self : ChatGPT.

Lemma bind_ok {A B : Type} (m : M A) (f : A -> M B) w b w' :
  bind m f w = (Ok b, w') ->
  exists a w0, m w = (Ok a, w0) /\ f a w0 = (Ok b, w').
Proof.
  unfold bind. destruct (m w) as [[a|e|] w0]; intros H; try discriminate.
  now exists a, w0.
Qed.

Lemma call_ok {T : Type} (c : Call T) w v w' :
  call drv c w = (Ok v, w') ->
  respond drv c (history w) (clock w) = Done v /\
  w' = mkWorld (clock w + requestedWait c
                + Z.of_N (latency drv c (history w) (clock w)))
               (Called c :: history w) (console w).
Proof.
  unfold call. destruct (respond drv c (history w) (clock w)); intros H;
    inversion H; subst; auto.
Qed.

Lemma requestedWait_nonneg {T : Type} (c : Call T) : (0 <= requestedWait c)%Z.
Proof. destruct c; simpl; lia. Qed.

Lemma call_clock {T : Type} (c : Call T) w :
  (clock w + requestedWait c <= clock (snd (call drv c w)))%Z.
Proof.
  unfold call. destruct (respond drv c (history w) (clock w)); simpl; lia.
Qed.

Section Obeys.

Variable sufficient : Prop.
Variable allowed : Error -> Prop.

Lemma obeys_ret {A : Type} (post : A -> Prop) (a : A) w :
  post a -> obeys sufficient allowed post (ret a) w.
Proof. intros H. split; simpl; [lia | exact H]. Qed.

Lemma obeys_throw {A : Type} (post : A -> Prop) (e : Error) w :
  allowed e -> obeys sufficient allowed post (throw e) w.
Proof. intros H. split; simpl; [lia | exact H]. Qed.

Lemma obeys_now (post : Z -> Prop) w :
  post (clock w) -> obeys sufficient allowed post now w.
Proof. intros H. split; simpl; [lia | exact H]. Qed.

Lemma obeys_print (post : unit -> Prop) p msg w :
  post tt -> obeys sufficient allowed post (print p msg) w.
Proof. intros H. split; simpl; [lia | exact H]. Qed.

Lemma obeys_log (post : unit -> Prop) msg level w :
  post tt -> obeys sufficient allowed post (log self msg level) w.
Proof.
  intros H. unfold log.
  destruct (negb (verbose self) && _); [apply obeys_ret | apply obeys_print]; exact H.
Qed.

Lemma obeys_debug (post : unit -> Prop) msg w :
  post tt -> obeys sufficient allowed post (debug self msg) w.
Proof.
  intros H. unfold debug.
  destruct (verbose self); [apply obeys_print | apply obeys_ret]; exact H.
Qed.

Lemma obeys_call {T : Type} (post : T -> Prop) (c : Call T) w :
  (forall v, post v) -> tolerates drv allowed ->
  obeys sufficient allowed post (call drv c) w.
Proof.
  intros Hpost Htol. split.
  - pose proof (call_clock c w). pose proof (requestedWait_nonneg c). lia.
  - unfold call. destruct (respond drv c (history w) (clock w)) eqn:E; simpl.
    + apply Hpost.
    + destruct Htol as [Hrel | Hall]; [|apply Hall].
      destruct (Hrel T c (history w) (clock w)) as [v Hv]. congruence.
Qed.

Lemma obeys_bind {A B : Type} (post : B -> Prop) (m : M A) (f : A -> M B) w :
  obeys sufficient allowed any m w ->
  (forall a w0, m w = (Ok a, w0) -> (clock w <= clock w0)%Z ->
                obeys sufficient allowed post (f a) w0) ->
  obeys sufficient allowed post (bind m f) w.
Proof.
  unfold obeys, bind. intros [Hc Hr] Hf.
  destruct (m w) as [[a|e|] w0] eqn:E; simpl in *.
  - destruct (Hf a w0 eq_refl Hc) as [Hc' Hr']. split; [lia | exact Hr'].
  - split; assumption.
  - split; assumption.
Qed.

Lemma obeys_bind_post {A B : Type} (mid : A -> Prop) (post : B -> Prop)
    (m : M A) (f : A -> M B) w :
  obeys sufficient allowed mid m w ->
  (forall a w0, m w = (Ok a, w0) -> (clock w <= clock w0)%Z -> mid a ->
                obeys sufficient allowed post (f a) w0) ->
  obeys sufficient allowed post (bind m f) w.
Proof.
  unfold obeys, bind. intros [Hc Hr] Hf.
  destruct (m w) as [[a|e|] w0] eqn:E; simpl in *.
  - destruct (Hf a w0 eq_refl Hc Hr) as [Hc' Hr']. split; [lia | exact Hr'].
  - split; assumption.
  - split; assumption.
Qed.

Lemma obeys_weaken {A : Type} (post post' : A -> Prop) (m : M A) w :
  (forall a, post a -> post' a) ->
  obeys sufficient allowed post m w -> obeys sufficient allowed post' m w.
Proof.
  unfold obeys. intros H [Hc Hr]. split; [exact Hc|].
  destruct (fst (m w)); auto.
Qed.

Lemma obeys_forOf {X R : Type} (xs : list X) (body : X -> M (option R)) w :
  (forall x w0, obeys sufficient allowed any (body x) w0) ->
  obeys sufficient allowed any (forOf xs body) w.
Proof.
  intros Hbody. revert w. induction xs as [|x xs IH]; intros w; simpl.
  - now apply obeys_ret.
  - apply obeys_bind; [apply Hbody|].
    intros [v|] w0 _ _; [now apply obeys_ret | apply IH].
Qed.

End Obeys.

(** A [catch] that answers with a value lets no exception through. *)
Lemma obeys_tryCatch {A : Type} (sufficient : Prop) (allowed : Error -> Prop)
    (post : A -> Prop) (m : M A) (handler : Error -> M A) w :
  obeys sufficient any post m w ->
  (forall e w0, obeys sufficient allowed post (handler e) w0) ->
  obeys sufficient allowed post (tryCatch m handler) w.
Proof.
  unfold obeys, tryCatch. intros [Hc Hr] Hh.
  destruct (m w) as [[a|e|] w0] eqn:E; simpl in *.
  - split; assumption.
  - destruct (Hh e w0) as [Hc' Hr']. split; [lia | exact Hr'].
  - split; assumption.
Qed.

Lemma tolerates_any : tolerates drv any.
Proof. right. intros; exact I. Qed.

Lemma obeys_orCatch {A : Type} (sufficient : Prop) (allowed : Error -> Prop)
    (m : M A) (fallback : A) w :
  obeys sufficient any any m w ->
  obeys sufficient allowed any (orCatch m fallback) w.
Proof.
  intros H. apply obeys_tryCatch; [exact H|].
  intros e w0. now apply obeys_ret.
Qed.

Lemma obeys_before {St : Type} (sufficient : Prop) (allowed : Error -> Prop)
    (deadline : Z) (s : St) w :
  obeys sufficient allowed any (before deadline s) w.
Proof.
  unfold before. apply obeys_bind; [now apply obeys_now|].
  intros; now apply obeys_ret.
Qed.

Lemma while_before {St R : Type} (fuel : nat) (deadline : Z)
    (body : St -> M (Flow St R)) s w :
  while (S fuel) (before deadline) body s w
  = if (clock w <? deadline)%Z
    then bind (body s) (fun f =>
           match f with
           | Next s' => while fuel (before deadline) body s'
           | Break s' => ret (inl s')
           | Return r => ret (inr r)
           end) w
    else (Ok (inl s), w).
Proof.
  simpl. unfold before at 1. unfold bind at 1. simpl.
  destruct (clock w <? deadline)%Z; reflexivity.
Qed.

(** A polling loop each of whose rounds takes [step] or more finishes
    within [n + 1] rounds when its deadline is [step * n] away at most. *)
Lemma obeys_polling {St R : Type} (sufficient : Prop) (allowed : Error -> Prop)
    (post : R -> Prop) (deadline step : Z) (body : St -> M (Flow St R)) :
  (0 < step)%Z ->
  (forall s0 w0, obeys sufficient allowed (flowPost post) (body s0) w0) ->
  (forall s0 w0 s1 w1, body s0 w0 = (Ok (Next s1), w1) ->
                       (clock w0 + step <= clock w1)%Z) ->
  forall (fuel n : nat) s w,
    (sufficient -> (n < fuel)%nat /\ (deadline - clock w <= step * Z.of_nat n)%Z) ->
    obeys sufficient allowed (loopPost post) (while fuel (before deadline) body s) w.
Proof.
  intros Hstep Hbody Hadv.
  induction fuel as [|fuel IH]; intros n s w Hn.
  - split; simpl; [lia|]. intros HP. destruct (Hn HP). lia.
  - unfold obeys. rewrite while_before.
    destruct (clock w <? deadline)%Z eqn:E; [|now apply obeys_ret].
    apply obeys_bind.
    + eapply obeys_weaken; [|apply Hbody]. intros; exact I.
    + intros f w1 Hf Hc. pose proof (Hbody s w) as [_ Hb].
      rewrite Hf in Hb. simpl in Hb.
      destruct f as [s'|s'|r]; [|now apply obeys_ret..].
      apply Z.ltb_lt in E. pose proof (Hadv _ _ _ _ Hf) as Ha.
      apply (IH (Nat.pred n)). intros HP. destruct (Hn HP) as [Hlt Hd].
      destruct n as [|n]; [lia|]. simpl.
      rewrite Nat2Z.inj_succ, Z.mul_succ_r in Hd. lia.
Qed.

Lemma obeys_bind_now {B : Type} (sufficient : Prop) (allowed : Error -> Prop)
    (post : B -> Prop) (f : Z -> M B) w :
  obeys sufficient allowed post (f (clock w)) w ->
  obeys sufficient allowed post (bind now f) w.
Proof. intros H. exact H. Qed.

Lemma call_advance {T : Type} (c : Call T) w r w' :
  call drv c w = (r, w') -> (clock w + requestedWait c <= clock w')%Z.
Proof. intros E. pose proof (call_clock c w) as H. now rewrite E in H. Qed.

End Runs.

Lemma trimEnd_idempotent (s : string) : trimEnd (trimEnd s) = trimEnd s.
Proof.
  induction s as [|c s IH]; simpl; [reflexivity|].
  destruct (trimEnd s) as [|d r] eqn:E.
  - destruct (isWhiteSpace c) eqn:W; simpl; [reflexivity | now rewrite W].
  - rewrite trimEnd_cons; rewrite IH; [reflexivity | discriminate].
Qed.

Lemma trimStart_length (s : string) : (length (trimStart s) <= length s)%nat.
Proof.
  induction s as [|c s IH]; simpl; [lia|].
  destruct (isWhiteSpace c); simpl; lia.
Qed.

Lemma trimStart_trimEnd (s : string) :
  trimStart s = s -> trimStart (trimEnd s) = trimEnd s.
Proof.
  destruct s as [|c s]; [reflexivity|]. intros H.
  assert (W : isWhiteSpace c = false).
  { simpl in H. destruct (isWhiteSpace c) eqn:W; [|reflexivity].
    pose proof (trimStart_length s) as Hl. rewrite H in Hl. simpl in Hl. lia. }
  destruct (trimEnd_head c s W) as [x' ->]. simpl. now rewrite W.
Qed.

Lemma trimStart_idempotent (s : string) : trimStart (trimStart s) = trimStart s.
Proof.
  induction s as [|c s IH]; simpl; [reflexivity|].
  destruct (isWhiteSpace c) eqn:W; [exact IH | simpl; now rewrite W].
Qed.

Lemma trim_idempotent (s : string) : trim (trim s) = trim s.
Proof.
  unfold trim.
  rewrite (trimStart_trimEnd (trimStart s) (trimStart_idempotent s)).
  apply trimEnd_idempotent.
Qed.

Ltac obey_step :=
  lazymatch goal with
  | |- obeys _ _ _ (ret _) _ => apply obeys_ret
  | |- obeys _ _ _ (throw _) _ => apply obeys_throw
  | |- obeys _ _ _ (log _ _ _) _ => apply obeys_log
  | |- obeys _ _ _ (debug _ _) _ => apply obeys_debug
  | |- obeys _ _ _ (print _ _) _ => apply obeys_print
  | |- obeys _ _ _ now _ => apply obeys_now
  | |- obeys _ _ _ (call _ _) _ => apply obeys_call; [intros ? |]
  | |- obeys _ _ _ (orCatch _ _) _ => apply obeys_orCatch
  | |- obeys _ _ _ (before _ _) _ => apply obeys_before
  | |- obeys _ _ _ (tryCatch _ _) _ => apply obeys_tryCatch; [ | intros ? ? ]
  | |- obeys _ _ _ (bind now _) _ => apply obeys_bind_now
  | |- obeys _ _ _ (bind _ _) _ => apply obeys_bind; [ | intros ? ? _ _ ]
  | |- obeys _ _ _ (forOf _ _) _ => apply obeys_forOf; intros ? ?
  | |- obeys _ _ _ (if ?b then _ else _) _ => destruct b eqn:?
  | |- obeys _ _ _ (match ?x with _ => _ end) _ => destruct x eqn:?
  | |- any _ => exact I
  | |- True => exact I
  | |- flowPost _ _ => progress simpl
  | |- loopPost _ _ => progress simpl
  | |- tolerates _ any => apply tolerates_any
  | |- tolerates _ _ => assumption
  | |- _ => assumption
  end.

Ltac obey := repeat first [ progress cbv beta iota zeta | obey_step ].

Section MethodFacts.

Variable drv : Driver.
Variable self : ChatGPT.
Variable sufficient : Prop.
Variable allowed : Error -> Prop.

Hypothesis driver_tolerated : tolerates drv allowed.

Lemma isModelAlreadySelected_obeys trigger definition w :
  obeys sufficient allowed any (isModelAlreadySelected drv trigger definition) w.
Proof. unfold isModelAlreadySelected. obey. Qed.

Lemma ensureComposerReady_obeys w :
  obeys sufficient allowed any (ensureComposerReady drv self) w.
Proof. unfold ensureComposerReady. obey. Qed.

Lemma tryClickable_obeys locator w :
  obeys sufficient allowed any (tryClickable drv self locator) w.
Proof. unfold tryClickable. obey. Qed.

Lemma applyModelSelection_obeys definition w :
  obeys sufficient allowed any (applyModelSelection drv self definition) w.
Proof.
  unfold applyModelSelection.
  repeat first [ apply tryClickable_obeys | progress obey ].
Qed.

Hypothesis initialized : page self = true \/ allowed BrowserNotInitialized.

Lemma selectModel_obeys modelName w :
  obeys sufficient allowed any (selectModel drv self modelName) w.
Proof.
  unfold selectModel. pose proof initialized as [Hpage | Hthrow].
  - rewrite Hpage. cbn [negb].
    repeat first
      [ apply isModelAlreadySelected_obeys | apply ensureComposerReady_obeys
      | apply applyModelSelection_obeys | progress obey ].
  - repeat first
      [ apply isModelAlreadySelected_obeys | apply ensureComposerReady_obeys
      | apply applyModelSelection_obeys | progress obey ].
Qed.

Lemma submitPrompt_obeys prompt w :
  obeys sufficient allowed any (submitPrompt drv self prompt) w.
Proof.
  unfold submitPrompt. pose proof initialized as [Hpage | Hthrow].
  - rewrite Hpage. cbn [negb].
    repeat first [ apply selectModel_obeys | progress obey ].
  - repeat first [ apply selectModel_obeys | progress obey ].
Qed.

End MethodFacts.

Lemma obeys_clock {A : Type} (sufficient : Prop) (allowed : Error -> Prop)
    (post : A -> Prop) (m : M A) w r w' :
  m w = (r, w') -> obeys sufficient allowed post m w -> (clock w <= clock w')%Z.
Proof. intros E [Hc _]. now rewrite E in Hc. Qed.

Section QueryFacts.

Variable drv : Driver.
Variable self : ChatGPT.
Variable sufficient : Prop.
Variable allowed : Error -> Prop.
Variable fuel rounds : nat.

Hypothesis driver_tolerated : tolerates drv allowed.
Hypothesis initialized : page self = true \/ allowed BrowserNotInitialized.
Hypothesis timeout_allowed : allowed (ResponseTimeout (getResponseTimeout self)).
Hypothesis enough :
  sufficient ->
  (20 < fuel)%nat /\ (rounds < fuel)%nat
  /\ (getResponseTimeout self <= 2000 * Z.of_nat rounds)%Z.

Lemma copyAssistantResponse_obeys message w :
  obeys sufficient allowed any (copyAssistantResponse drv self fuel message) w.
Proof.
  unfold copyAssistantResponse.
  repeat first
    [ progress obey
    | match goal with
      | |- obeys _ _ _ (while _ _ _ _) _ =>
          eapply obeys_weaken;
          [ | apply (obeys_polling sufficient any any _ 150) with (n := 20);
              [ lia | intros ? ? | intros ? ? ? ? Hrun | intros Hs ] ]
      end ].
  - intros; exact I.
  - apply bind_ok in Hrun as (clip & u & Hread & Hrun).
    apply call_advance in Hread. simpl in Hread.
    destruct (negb (isBlank clip) && _); [discriminate|].
    apply bind_ok in Hrun as ([] & u' & Hwait & Hrun).
    apply call_advance in Hwait. simpl in Hwait.
    inversion Hrun; subst. lia.
  - destruct (enough Hs) as (Hf & _). split; [exact Hf | simpl; lia].
Qed.

Lemma awaitArrival_obeys initialMessages pollIntervalMs u w :
  obeys sufficient allowed (flowPost any)
    (awaitArrival drv self initialMessages pollIntervalMs u) w.
Proof. unfold awaitArrival. obey. Qed.

Lemma awaitArrival_advance initialMessages pollIntervalMs u w s1 w1 :
  awaitArrival drv self initialMessages pollIntervalMs u w = (Ok (Next s1), w1) ->
  (clock w + Z.max 0 pollIntervalMs <= clock w1)%Z.
Proof.
  unfold awaitArrival. intros Hrun.
  apply bind_ok in Hrun as (count & u1 & Hcount & Hrun).
  apply call_advance in Hcount. simpl in Hcount.
  destruct (initialMessages <? count)%nat.
  - apply bind_ok in Hrun as (? & ? & _ & Hrun). discriminate.
  - apply bind_ok in Hrun as (? & u2 & Hthink & Hrun).
    eapply (obeys_clock False any any) in Hthink; [|solve [obey]].
    apply bind_ok in Hrun as (? & u3 & Hwait & Hrun).
    apply call_advance in Hwait. simpl in Hwait.
    inversion Hrun; subst. lia.
Qed.

Lemma awaitStable_run vars w :
  obeys sufficient allowed (flowPost nonBlank) (awaitStable drv self fuel vars) w
  /\ forall s1 w1, awaitStable drv self fuel vars w = (Ok (Next s1), w1) ->
                   (clock w + 2000 <= clock w1)%Z.
Proof.
  unfold awaitStable. destruct vars as [previousLength stableCount].
  match goal with
  | |- context [bind (call drv (WaitForTimeout 2000)) ?k] => set (rest := k)
  end.
  assert (Hrest : forall w0,
             obeys sufficient allowed (flowPost nonBlank) (rest tt) w0).
  { intros w0. subst rest.
    repeat first [ apply copyAssistantResponse_obeys | progress obey ];
      unfold nonBlank; rewrite trim_idempotent;
      match goal with
      | H : negb _ && (0 <? _)%nat = true |- _ =>
          apply andb_true_iff in H as [_ H]; now apply Nat.ltb_lt in H
      | H : (length (trim ?t) =? 0)%nat = false |- (0 < length (trim ?t))%nat =>
          apply Nat.eqb_neq in H; lia
      end. }
  split.
  - apply obeys_bind; [obey|]. intros [] w0 _ _. apply Hrest.
  - intros s1 w1 Hrun. apply bind_ok in Hrun as ([] & u & Hwait & Hrun).
    apply call_advance in Hwait. simpl in Hwait.
    eapply obeys_clock in Hrun; [|apply Hrest]. lia.
Qed.

Lemma awaitResponse_obeys initialMessages w :
  obeys sufficient allowed nonBlank (awaitResponse drv self fuel initialMessages) w.
Proof.
  unfold awaitResponse. cbv zeta. apply obeys_bind_now.
  apply obeys_bind.
  { eapply obeys_weaken;
      [ | apply (obeys_polling sufficient allowed any _ 2000) with (n := rounds) ].
    - intros; exact I.
    - lia.
    - intros; apply awaitArrival_obeys.
    - intros s0 w0 s1 w1 Hrun. apply awaitArrival_advance in Hrun. lia.
    - intros Hs. destruct (enough Hs) as (_ & Hr & Hd). split; [exact Hr | lia]. }
  intros r w1 _ Hc1. apply obeys_bind; [obey|].
  intros confirmedCount w2 _ Hc2.
  destruct (confirmedCount <=? initialMessages)%nat;
    [apply obeys_throw; exact timeout_allowed|].
  apply (obeys_bind_post _ _ (loopPost nonBlank)).
  { apply (obeys_polling sufficient allowed nonBlank _ 2000) with (n := rounds).
    - lia.
    - intros; apply awaitStable_run.
    - intros s0 w0 s1 w3 Hrun. now apply awaitStable_run in Hrun.
    - intros Hs. destruct (enough Hs) as (_ & Hr & Hd). split; [exact Hr | lia]. }
  intros [vars | response] w3 _ _ Hpost.
  - apply obeys_throw. exact timeout_allowed.
  - apply obeys_ret. exact Hpost.
Qed.

Lemma query_obeys prompt w :
  obeys sufficient allowed nonBlank (query drv self fuel prompt) w.
Proof.
  unfold query. apply obeys_bind.
  - now apply submitPrompt_obeys.
  - intros; apply awaitResponse_obeys.
Qed.

End QueryFacts.

Lemma getResponseTimeout_max (self : ChatGPT) :
  getResponseTimeout self = Z.max (timeout self) (longRunningFloor (model self)).
Proof.
  unfold getResponseTimeout, longRunningFloor.
  destruct (existsb _ longRunningModels); reflexivity.
Qed.

Lemma getResponseTimeout_nonneg (self : ChatGPT) : (0 <= getResponseTimeout self)%Z.
Proof.
  rewrite getResponseTimeout_max. unfold longRunningFloor.
  destruct (existsb _ longRunningModels); lia.
Qed.

Lemma rounds_cover (rt : Z) :
  (rt <= 2000 * Z.of_nat (Z.to_nat (rt / 2000) + 1))%Z.
Proof.
  destruct (Z.le_gt_cases 0 rt) as [Hpos | Hneg].
  - pose proof (Z.mul_succ_div_gt rt 2000 ltac:(lia)) as H.
    assert (0 <= rt / 2000)%Z by (apply Z.div_pos; lia).
    rewrite Nat2Z.inj_add, Z2Nat.id by assumption. lia.
  - lia.
Qed.

(** With an empty text at every poll no iteration returns, and the
    counters are reset (or, with no message to read, kept). *)
Lemma awaitStable_blank (drv : Driver) (self : ChatGPT) (fuel : nat)
    (vars : nat * nat) w f w' :
  (forall l h t text, respond drv (InnerText l) h t = Done text ->
                      length (trim text) = 0%nat) ->
  awaitStable drv self fuel vars w = (Ok f, w') ->
  f = Next (0, 0)%nat \/ f = Next vars.
Proof.
  intros Hblank. unfold awaitStable. destruct vars as [previousLength stableCount].
  intros Hrun.
  apply bind_ok in Hrun as ([] & u1 & _ & Hrun).
  apply bind_ok in Hrun as (messages & u2 & _ & Hrun).
  destruct (messages =? 0)%nat.
  - apply bind_ok in Hrun as ([] & u3 & _ & Hrun). inversion Hrun. now right.
  - apply bind_ok in Hrun as (text & u3 & Htext & Hrun).
    apply call_ok in Htext as [Htext _]. apply Hblank in Htext.
    rewrite Htext in Hrun. simpl in Hrun.
    apply bind_ok in Hrun as ([] & u4 & _ & Hrun). inversion Hrun. now left.
Qed.

(** ** The stabilisation phase never finalises an empty response *)

(** C9. For every driver, whatever it shows poll after poll: a string
    returned by [query] is non-empty after trimming and the error
    "Empty response received" is never thrown; an observation with empty
    trimmed text returns nothing and resets the counters; and when the
    driver answers every call, [query] returns a non-empty text or throws
    the response-timeout error. *)
Theorem query_response_never_blank (drv : Driver) (self : ChatGPT) (fuel : nat)
    (prompt : string) (w : World) :
  match fst (query drv self fuel prompt w) with
  | Ok response => nonBlank response
  | Throw e => e <> EmptyResponse
  | OutOfFuel => True
  end
  /\ (forall vars u f u',
        (forall l h t text, respond drv (InnerText l) h t = Done text ->
                            length (trim text) = 0%nat) ->
        awaitStable drv self fuel vars u = (Ok f, u') ->
        f = Next (0, 0)%nat \/ f = Next vars)
  /\ (Reliable drv -> page self = true ->
      (Z.to_nat (getResponseTimeout self / 2000) + 21 < fuel)%nat ->
      (exists response,
          fst (query drv self fuel prompt w) = Ok response /\ nonBlank response)
      \/ fst (query drv self fuel prompt w)
         = Throw (ResponseTimeout (getResponseTimeout self))).
Proof.
  split; [|split].
  - assert (Htol : tolerates drv (fun e => e <> EmptyResponse))
      by (right; intros; discriminate).
    assert (Hinit : page self = true \/ BrowserNotInitialized <> EmptyResponse)
      by (right; discriminate).
    assert (Htime : ResponseTimeout (getResponseTimeout self) <> EmptyResponse)
      by discriminate.
    assert (Hfuel : False ->
              (20 < fuel)%nat /\ (0 < fuel)%nat
              /\ (getResponseTimeout self <= 2000 * Z.of_nat 0)%Z)
      by (intros []).
    destruct (query_obeys drv self False (fun e => e <> EmptyResponse) fuel 0
                Htol Hinit Htime Hfuel prompt w) as [_ Hr].
    destruct (fst (query drv self fuel prompt w)); auto.
  - intros vars u f u' Hblank Hrun.
    exact (awaitStable_blank drv self fuel vars u f u' Hblank Hrun).
  - intros Hrel Hpage Hfuel.
    set (rt := getResponseTimeout self) in *.
    assert (Htol : tolerates drv (fun e => e = ResponseTimeout rt))
      by (left; exact Hrel).
    assert (Hinit : page self = true \/ BrowserNotInitialized = ResponseTimeout rt)
      by (left; exact Hpage).
    assert (Henough : True ->
              (20 < fuel)%nat /\ (Z.to_nat (rt / 2000) + 1 < fuel)%nat
              /\ (rt <= 2000 * Z.of_nat (Z.to_nat (rt / 2000) + 1))%Z).
    { intros _. split; [lia|]. split; [lia|]. apply rounds_cover. }
    destruct (query_obeys drv self True (fun e => e = ResponseTimeout rt) fuel
                (Z.to_nat (rt / 2000) + 1) Htol Hinit eq_refl Henough prompt w)
      as [_ Hr].
    destruct (fst (query drv self fuel prompt w)) as [response|e|].
    + left. now exists response.
    + right. now subst e.
    + exfalso. now apply Hr.
Qed.

(** ** The arrival phase without a reply *)

Section NoReply.

Variable drv : Driver.
Variable self : ChatGPT.
Variable initialMessages : nat.
Variable bound : Z.

(** The count of assistant messages never exceeds the baseline. *)
Hypothesis no_reply :
  forall h t, exists n,
    respond drv (Count assistantMessages) h t = Done n
    /\ (n <= initialMessages)%nat.
Hypothesis waits : forall ms h t, respond drv (WaitForTimeout ms) h t = Done tt.
Hypothesis evaluates : forall h t, exists snap, respond drv Evaluate h t = Done snap.
Hypothesis latency_bound : LatencyWithin drv bound.

Lemma call_done {T : Type} (c : Call T) (v : T) w :
  respond drv c (history w) (clock w) = Done v ->
  call drv c w
  = (Ok v, mkWorld (clock w + requestedWait c
                    + Z.of_N (latency drv c (history w) (clock w)))
                   (Called c :: history w) (console w)).
Proof. unfold call. now intros ->. Qed.

Lemma bound_nonneg : (0 <= bound)%Z.
Proof.
  pose proof (latency_bound _ Evaluate [] 0%Z). lia.
Qed.

Lemma bind_call_done {T B : Type} (c : Call T) (v : T) (f : T -> M B) w :
  respond drv c (history w) (clock w) = Done v ->
  bind (call drv c) f w = f v (after drv c w).
Proof. intros H. unfold bind. now rewrite (call_done c v w H). Qed.

Lemma after_clock {T : Type} (c : Call T) w :
  (clock w + requestedWait c <= clock (after drv c w)
   <= clock w + requestedWait c + bound)%Z.
Proof.
  unfold after. simpl. pose proof (latency_bound _ c (history w) (clock w)). lia.
Qed.

(** The part of a round that only narrates, when [verbose] is set. *)
Lemma thinking_probe w :
  exists w',
    (if verbose self
     then snap <- call drv Evaluate ;;
          (if includes (bodyInnerText snap) "Pro thinking"
              || includes (bodyInnerText snap) "Thinking"
           then log self "Assistant is still thinking..." Info
           else ret tt)
     else ret tt) w = (Ok tt, w')
    /\ (clock w <= clock w' <= clock w + bound)%Z.
Proof.
  pose proof bound_nonneg as Hb.
  destruct (verbose self) eqn:V.
  - destruct (evaluates (history w) (clock w)) as (snap & Hs).
    rewrite (bind_call_done _ _ _ _ Hs).
    pose proof (after_clock Evaluate w) as Hc. simpl requestedWait in Hc.
    destruct (includes (bodyInnerText snap) "Pro thinking"
              || includes (bodyInnerText snap) "Thinking").
    + unfold log. rewrite V. cbn [negb andb]. unfold print.
      eexists. split; [reflexivity|]. cbn [clock]. lia.
    + eexists. split; [reflexivity|]. lia.
  - exists w. split; [reflexivity | lia].
Qed.

(** One round of the first loop: nothing has arrived, wait and go on. *)
Lemma awaitArrival_waiting w :
  exists w',
    awaitArrival drv self initialMessages 2000 tt w = (Ok (Next tt), w')
    /\ (clock w + 2000 <= clock w' <= clock w + 2000 + 3 * bound)%Z.
Proof.
  unfold awaitArrival.
  destruct (no_reply (history w) (clock w)) as (n & Hn & Hle).
  rewrite (bind_call_done _ _ _ _ Hn).
  pose proof (after_clock (Count assistantMessages) w) as Hc1. simpl requestedWait in Hc1.
  assert (Hlt : (initialMessages <? n)%nat = false) by (apply Nat.ltb_ge; lia).
  rewrite Hlt.
  destruct (thinking_probe (after drv (Count assistantMessages) w))
    as (u & Hrun & Hc2).
  unfold bind at 1. rewrite Hrun.
  rewrite (bind_call_done _ _ _ _ (waits 2000 (history u) (clock u))).
  pose proof (after_clock (WaitForTimeout 2000) u) as Hc3. simpl requestedWait in Hc3.
  eexists. split; [reflexivity|]. lia.
Qed.

(** The first loop is left at the deadline, within one round of it. *)
Lemma arrival_loop_times_out (deadline : Z) (fuel rounds : nat) w :
  (rounds < fuel)%nat -> (deadline - clock w <= 2000 * Z.of_nat rounds)%Z ->
  exists w',
    while fuel (before deadline) (awaitArrival drv self initialMessages 2000) tt w
    = (Ok (inl tt), w')
    /\ (Z.max deadline (clock w) <= clock w')%Z
    /\ (clock w' < Z.max (clock w + 1) (deadline + 2000 + 3 * bound))%Z.
Proof.
  pose proof bound_nonneg as Hb.
  revert rounds w. induction fuel as [|fuel IH]; intros rounds w Hr Hd; [lia|].
  rewrite while_before. destruct (clock w <? deadline)%Z eqn:E.
  - apply Z.ltb_lt in E.
    destruct (awaitArrival_waiting w) as (w1 & Hrun & Hc).
    unfold bind. rewrite Hrun.
    destruct rounds as [|rounds]; [lia|].
    destruct (IH rounds w1) as (w' & Hloop & Hlo & Hhi); [lia | |].
    { rewrite Nat2Z.inj_succ, Z.mul_succ_r in Hd. lia. }
    exists w'. split; [exact Hloop | lia].
  - apply Z.ltb_ge in E. exists w. split; [reflexivity | lia].
Qed.

(** [awaitResponse] throws the timeout error once the deadline has
    passed, within one round and one more call of it. *)
Lemma awaitResponse_times_out (fuel : nat) w :
  (Z.to_nat (getResponseTimeout self / 2000) + 1 < fuel)%nat ->
  exists w',
    awaitResponse drv self fuel initialMessages w
    = (Throw (ResponseTimeout (getResponseTimeout self)), w')
    /\ (clock w + getResponseTimeout self <= clock w')%Z
    /\ (clock w' < clock w + getResponseTimeout self + 2000 + 4 * bound)%Z.
Proof.
  intros Hfuel. pose proof bound_nonneg as Hb.
  pose proof (getResponseTimeout_nonneg self) as Hrt.
  unfold awaitResponse. cbv zeta.
  unfold bind at 1. unfold now. cbv beta iota.
  destruct (arrival_loop_times_out (clock w + getResponseTimeout self) fuel
              (Z.to_nat (getResponseTimeout self / 2000) + 1) w)
    as (w1 & Hloop & Hlo & Hhi); [lia | |].
  { pose proof (rounds_cover (getResponseTimeout self)). lia. }
  unfold bind at 1. rewrite Hloop.
  destruct (no_reply (history w1) (clock w1)) as (n & Hn & Hle).
  rewrite (bind_call_done _ _ _ _ Hn).
  pose proof (after_clock (Count assistantMessages) w1) as Hc. simpl requestedWait in Hc.
  assert (Hcmp : (n <=? initialMessages)%nat = true) by (apply Nat.leb_le; lia).
  rewrite Hcmp. eexists; split; [reflexivity|]. lia.
Qed.

End NoReply.

Lemma startsWith_append (s b : string) : startsWith (s ++ b) s = true.
Proof.
  induction s as [|c s IH]; simpl; [now destruct b|].
  now rewrite Ascii.eqb_refl, IH.
Qed.

Lemma includes_startsWith (x t : string) :
  startsWith x t = true -> includes x t = true.
Proof. intros H. destruct x; cbn [includes]; now rewrite H. Qed.

Lemma includes_append (a s b : string) : includes (a ++ s ++ b) s = true.
Proof.
  induction a as [|c a IH].
  - change ("" ++ s ++ b) with (s ++ b).
    apply includes_startsWith, startsWith_append.
  - cbn [append includes]. rewrite IH. apply orb_true_r.
Qed.

(** ** Deadline enforcement *)


Lemma scripted_latency (sc : Scenario) : LatencyWithin (scripted sc) 0.
Proof. intros T c h t. simpl. lia. Qed.



(** ** Stabilisation on a scripted reply *)

Section ScriptedReply.

Variable sc : Scenario.
Variable self : ChatGPT.

Hypothesis quiet_log : verbose self = false.
Hypothesis has_page : page self = true.
Hypothesis arrives : replyArrives sc = true.

Lemma awaitStable_scripted (fuel previousLength stableCount : nat) w :
  let trimmedText := trim (nth (samplesTaken (history w)) (samples sc) "") in
  awaitStable (scripted sc) self fuel (previousLength, stableCount) w
  = if (length trimmedText =? 0)%nat then (Ok (Next (0, 0)%nat), polled w)
    else if (length trimmedText =? previousLength)%nat then
      if (3 <=? S stableCount)%nat
      then finalize (scripted sc) self fuel trimmedText (polled w)
      else (Ok (Next (previousLength, S stableCount)), polled w)
    else (Ok (Next (length trimmedText, 0%nat)), polled w).
Proof.
  intros trimmedText. unfold awaitStable, finalize.
  unfold bind at 1. unfold call at 1. cbn [respond scripted scriptedRespond quiet].
  unfold bind at 1. unfold call at 1.
  cbn [respond scripted scriptedRespond quiet history clock console latency
       requestedWait].
  rewrite arrives. cbn [Nat.eqb Nat.sub].
  unfold bind at 1. unfold call at 1.
  cbn [respond scripted scriptedRespond quiet history clock console latency
       requestedWait].
  change (samplesTaken (Called (All assistantMessages)
                        :: Called (WaitForTimeout 2000) :: history w))
    with (samplesTaken (history w)).
  fold trimmedText.
  replace (mkWorld (clock w + Z.max 0 2000 + Z.of_N 0 + 0 + Z.of_N 0 + 0 + Z.of_N 0)
             (Called (InnerText (Nth assistantMessages 0))
              :: Called (All assistantMessages)
              :: Called (WaitForTimeout 2000) :: history w) (console w))
    with (polled w) by (unfold polled, lastMessage; f_equal; lia).
  destruct (length trimmedText =? 0)%nat eqn:E0.
  - rewrite quiet_log. reflexivity.
  - unfold debug. rewrite quiet_log.
    unfold requiredStableChecks.
    destruct (length trimmedText =? previousLength)%nat eqn:E1;
      cbv beta iota delta [bind ret].
    + destruct (3 <=? S stableCount)%nat; reflexivity.
    + reflexivity.
Qed.

End ScriptedReply.

(** A polling loop none of whose rounds breaks or returns is left at its
    deadline; the rounds here read no text of a message. *)
Lemma polling_runs_out {St R : Type} (deadline step : Z)
    (body : St -> M (Flow St R)) (inv : St -> Prop) :
  (0 < step)%Z ->
  (forall s w, inv s ->
     exists s' w',
       body s w = (Ok (Next s'), w') /\ inv s'
       /\ (clock w + step <= clock w')%Z
       /\ samplesTaken (history w') = samplesTaken (history w)) ->
  forall (fuel n : nat) s w,
    (n < fuel)%nat -> (deadline - clock w <= step * Z.of_nat n)%Z -> inv s ->
    exists s' w',
      while fuel (before deadline) body s w = (Ok (inl s'), w') /\ inv s'
      /\ samplesTaken (history w') = samplesTaken (history w).
Proof.
  intros Hstep Hbody.
  induction fuel as [|fuel IH]; intros n s w Hn Hd Hinv; [lia|].
  rewrite while_before. destruct (clock w <? deadline)%Z eqn:E.
  - apply Z.ltb_lt in E.
    destruct (Hbody s w Hinv) as (s1 & w1 & Hrun & Hinv1 & Hc & Hs).
    unfold bind. rewrite Hrun.
    destruct n as [|n]; [lia|].
    destruct (IH n s1 w1) as (s' & w' & Hloop & Hinv' & Hs'); [lia | | exact Hinv1 |].
    { rewrite Nat2Z.inj_succ, Z.mul_succ_r in Hd. lia. }
    exists s', w'. split; [exact Hloop|]. split; [exact Hinv'|]. now rewrite Hs'.
  - exists s, w. now split.
Qed.

Section ScriptedCopy.

Variable sc : Scenario.
Variable self : ChatGPT.

Hypothesis quiet_log : verbose self = false.
Hypothesis has_page : page self = true.

Ltac run_script :=
  cbn [respond scripted scriptedRespond quiet history clock console latency
       requestedWait negb andb orb isFalsy Nat.eqb ret existsb isClick
       optionEqb nullish].

(** Without a copy button the rendered text is kept. *)
Lemma finalize_without_copy (fuel : nat) (trimmedText : string) w :
  clipboard sc = None ->
  exists w',
    finalize (scripted sc) self fuel trimmedText w = (Ok (Return trimmedText), w')
    /\ samplesTaken (history w') = samplesTaken (history w).
Proof.
  intros Hclip. unfold finalize, copyAssistantResponse. rewrite has_page.
  unfold debug. rewrite quiet_log.
  unfold bind, tryCatch, orCatch, tryCatch, call.
  repeat first [ progress run_script | rewrite Hclip ].
  eexists. split; reflexivity.
Qed.

(** With a copy button the text it puts on the clipboard is returned. *)
Lemma finalize_with_copy (fuel : nat) (trimmedText copied : string) w :
  clipboard sc = Some copied -> isBlank (Some copied) = false ->
  existsb isClick (history w) = false ->
  exists w',
    finalize (scripted sc) self (S fuel) trimmedText w = (Ok (Return (trim copied)), w')
    /\ samplesTaken (history w') = samplesTaken (history w).
Proof.
  intros Hclip Hblank Hclick.
  assert (Hne : negb (isEmpty copied) && (0 <? length (trim copied))%nat = true).
  { unfold isBlank in Hblank. apply orb_false_iff in Hblank as [He Hl].
    rewrite He. apply Nat.eqb_neq in Hl. simpl. apply Nat.ltb_lt. lia. }
  unfold finalize, copyAssistantResponse. rewrite has_page.
  unfold debug. rewrite quiet_log.
  unfold bind, tryCatch, orCatch, tryCatch, call.
  repeat first [ progress run_script | rewrite Hclip | rewrite Hclick ].
  unfold now. cbv beta iota.
  rewrite while_before.
  match goal with
  | |- context [(?a <? ?b)%Z] =>
      replace (a <? b)%Z with true by (symmetry; apply Z.ltb_lt; cbn [clock]; lia)
  end.
  unfold bind.
  repeat first [ progress run_script | rewrite Hblank | rewrite Hne ].
  eexists. split; reflexivity.
Qed.

(** With a copy button that leaves the clipboard blank the rendered text
    is kept, after the three seconds the clipboard is watched. *)
Lemma finalize_with_blank_copy (fuel : nat) (trimmedText copied : string) w :
  clipboard sc = Some copied -> isBlank (Some copied) = true ->
  (20 < fuel)%nat ->
  exists w',
    finalize (scripted sc) self fuel trimmedText w = (Ok (Return trimmedText), w')
    /\ samplesTaken (history w') = samplesTaken (history w).
Proof.
  intros Hclip Hblank Hfuel.
  unfold finalize, copyAssistantResponse. rewrite has_page.
  unfold debug. rewrite quiet_log.
  unfold bind, tryCatch, orCatch, tryCatch, call.
  repeat first [ progress run_script | rewrite Hclip ].
  unfold now. cbv beta iota.
  match goal with
  | |- context [while fuel (before ?d) ?body ?s0 ?u] =>
      destruct (polling_runs_out d 150 body (fun clip => isBlank clip = true)
                  ltac:(lia)) with (fuel := fuel) (n := 20%nat) (s := s0) (w := u)
        as (clip & w' & Hloop & Hinv & Hs)
  end.
  - intros clip u Hinv. eexists. eexists. split; [|split; [|split]].
    + run_script.
      assert (B : isBlank (if existsb isClick (history u)
                           then Some copied else None) = true)
        by (destruct (existsb isClick (history u)); [exact Hblank | reflexivity]).
      rewrite B. cbn [negb andb]. reflexivity.
    + destruct (existsb isClick (history u)); [exact Hblank | reflexivity].
    + cbn [clock]. lia.
    + reflexivity.
  - exact Hfuel.
  - cbn [clock]. lia.
  - reflexivity.
  - rewrite Hloop. cbv beta iota. rewrite Hinv. cbn [ret].
    eexists. split; [reflexivity|]. rewrite Hs. reflexivity.
Qed.

End ScriptedCopy.

(** ** Query stabilisation on the lengths 0, 5, 5, 5, 8, 8, 8, 8 *)

Ltac poll H :=
  rewrite while_before;
  match goal with
  | |- context [(?a <? ?b)%Z] =>
      replace (a <? b)%Z with true by (vm_compute; reflexivity)
  end;
  unfold bind at 1;
  rewrite awaitStable_scripted by reflexivity;
  match goal with
  | |- context [samplesTaken ?h] =>
      let n := eval vm_compute in (samplesTaken h) in
      change (samplesTaken h) with n
  end;
  cbn [nth samples replying app];
  rewrite H; cbn [Nat.eqb Nat.leb]; cbv beta iota.

(** C1 (amended). On a reply whose trimmed lengths, poll after poll, are
    0, 5, 5, 5, 8, 8, 8, 8, [query] finalises at the eighth sample, of
    length 8: the first at which the length has been found unchanged three
    times in a row.  It returns the content of that message: the trimmed
    text its copy button puts on the clipboard when that is not blank, and
    otherwise the trimmed text of that eighth sample. *)
Theorem query_finalizes_at_eighth_sample (ss more : list string)
    (clip : option string) (fuel : nat) :
  map (fun s => length (trim s)) ss = [0; 5; 5; 5; 8; 8; 8; 8]%nat ->
  (21 <= fuel)%nat ->
  exists w',
    query (scripted (replying (ss ++ more) clip)) defaultChatGPT fuel "ping" initialWorld
    = (Ok (if isBlank clip then trim (nth 7 ss "") else trim (nullish clip "")), w')
    /\ samplesTaken (history w') = 8%nat
    /\ length (trim (nth 7 ss "")) = 8%nat.
Proof.
  intros Hlen Hfuel.
  destruct ss as [|s1 [|s2 [|s3 [|s4 [|s5 [|s6 [|s7 [|s8 [|]]]]]]]]];
    try discriminate.
  injection Hlen as H1 H2 H3 H4 H5 H6 H7 H8.
  do 8 (destruct fuel as [|fuel]; [lia|]).
  unfold query. unfold bind at 1.
  match goal with
  | |- context [submitPrompt ?d ?s ?p ?w] =>
      set (r := submitPrompt d s p w); vm_compute in r; subst r
  end.
  cbv beta iota. unfold awaitResponse. cbv zeta.
  change (getResponseTimeout defaultChatGPT) with 1800000%Z.
  unfold bind at 1. unfold now. cbv beta iota. cbn [clock].
  unfold bind at 1. rewrite while_before.
  match goal with
  | |- context [(?a <? ?b)%Z] =>
      replace (a <? b)%Z with true by (vm_compute; reflexivity)
  end.
  unfold bind at 1.
  match goal with
  | |- context [awaitArrival ?d ?s ?n ?p ?u ?w] =>
      set (r := awaitArrival d s n p u w); vm_compute in r; subst r
  end.
  cbv beta iota. unfold ret at 1. cbv beta iota.
  unfold bind at 1.
  match goal with
  | |- context [call ?d ?c ?w] =>
      set (r := call d c w); vm_compute in r; subst r
  end.
  cbv beta iota. cbn [Nat.leb].
  unfold bind at 1.
  poll H1. poll H2. poll H3. poll H4. poll H5. poll H6. poll H7. poll H8.
  cbn [nth nullish].
  destruct clip as [copied|]; [destruct (isBlank (Some copied)) eqn:Hblank|].
  - match goal with
    | |- context [finalize (scripted ?c) ?s ?f ?t ?u] =>
        destruct (finalize_with_blank_copy c s eq_refl eq_refl f t copied u eq_refl
                    Hblank ltac:(lia))
          as (w' & Hfin & Hs)
    end.
    rewrite Hfin. cbv beta iota. exists w'.
    split; [reflexivity | split; [rewrite Hs; vm_compute; reflexivity | reflexivity]].
  - match goal with
    | |- context [finalize (scripted ?c) ?s (S ?f) ?t ?u] =>
        destruct (finalize_with_copy c s eq_refl eq_refl f t copied u eq_refl Hblank)
          as (w' & Hfin & Hs); [vm_compute; reflexivity|]
    end.
    rewrite Hfin. cbv beta iota. exists w'.
    split; [reflexivity | split; [rewrite Hs; vm_compute; reflexivity | reflexivity]].
  - match goal with
    | |- context [finalize (scripted ?c) ?s ?f ?t ?u] =>
        destruct (finalize_without_copy c s eq_refl eq_refl f t u eq_refl)
          as (w' & Hfin & Hs)
    end.
    rewrite Hfin. cbv beta iota. exists w'.
    split; [reflexivity | split; [rewrite Hs; vm_compute; reflexivity | reflexivity]].
Qed.

(** C1, as stated, fails: on the lengths 0, 5, 5, 5, 8, 8, 8, 8 the
    response is final at the eighth sample, not the seventh; and when the
    length changes at the eighth sample, the text of length 8 seen three
    times is not returned. *)
Lemma query_not_final_at_seventh_sample :
  map (fun s => length (trim s)) (firstn 8 streamingReply)
  = [0; 5; 5; 5; 8; 8; 8; 8]%nat
  /\ fst (query (scripted streaming) defaultChatGPT 1000 "ping" initialWorld)
     = Ok (repeatChar 8)
  /\ samplesTaken
       (history (snd (query (scripted streaming) defaultChatGPT 1000 "ping"
                        initialWorld))) <> 7%nat
  /\ map (fun s => length (trim s)) (firstn 7 (samples stalling))
     = [0; 5; 5; 5; 8; 8; 8]%nat
  /\ fst (query (scripted stalling) defaultChatGPT 1000 "ping" initialWorld)
     = Ok (repeatChar 9).
Proof.
  split; [vm_compute; reflexivity|].
  split; [vm_compute; reflexivity|].
  split; [vm_compute; discriminate|].
  split; vm_compute; reflexivity.
Qed.

Lemma query_finalizes_at_eighth_sample_witness :
  exists w',
    query (scripted (replying (firstn 8 streamingReply ++ skipn 8 streamingReply) None))
      defaultChatGPT 1000 "ping" initialWorld
    = (Ok (trim (nth 7 (firstn 8 streamingReply) "")), w')
    /\ samplesTaken (history w') = 8%nat
    /\ length (trim (nth 7 (firstn 8 streamingReply) "")) = 8%nat.
Proof.
  apply (query_finalizes_at_eighth_sample (firstn 8 streamingReply)
           (skipn 8 streamingReply) None 1000).
  - vm_compute. reflexivity.
  - lia.
Defined.

Lemma scripted_reliable (sc : Scenario) :
  opSignedIn sc = true -> stateFile sc <> Corrupt -> Reliable (scripted sc).
Proof.
  intros Hop Hfile T c h t. destruct c; simpl; try (eexists; reflexivity).
  - rewrite Hop. eexists; reflexivity.
  - destruct storageState; [|eexists; reflexivity].
    destruct (stateFile sc); try (eexists; reflexivity). congruence.
  - destruct l; eexists; reflexivity.
Qed.

Lemma query_response_never_blank_witness :
  ((exists response,
       fst (query (scripted streaming) defaultChatGPT 1000 "ping" initialWorld)
       = Ok response /\ nonBlank response)
   \/ fst (query (scripted streaming) defaultChatGPT 1000 "ping" initialWorld)
      = Throw (ResponseTimeout (getResponseTimeout defaultChatGPT)))
  /\ (@Next (nat * nat) string (0, 0)%nat = Next (0, 0)%nat
      \/ @Next (nat * nat) string (0, 0)%nat = Next (5, 2)%nat).
Proof.
  pose proof (query_response_never_blank (scripted streaming) defaultChatGPT 1000
                "ping" initialWorld) as (_ & Hblank & Hquery).
  split.
  - apply Hquery.
    + apply scripted_reliable; [reflexivity | discriminate].
    + reflexivity.
    + vm_compute. lia.
  - apply (query_response_never_blank (scripted (replying [] None)) defaultChatGPT
             1000 "ping" initialWorld)
      with (u := initialWorld)
           (u' := snd (awaitStable (scripted (replying [] None)) defaultChatGPT
                         1000 (5, 2)%nat initialWorld)).
    + intros l h t text Htext. simpl in Htext. inversion Htext.
      now destruct (samplesTaken h).
    + vm_compute. reflexivity.
Defined.

(** ** The response deadline *)




(** ** Model names *)

Lemma resolveModelDefinition_normalized (s t : string) :
  normalizeModelName s = normalizeModelName t ->
  resolveModelDefinition s = resolveModelDefinition t.
Proof. unfold resolveModelDefinition. now intros ->. Qed.

(** C3. Spellings of a model name that differ by letter case, by a run
    of white space (or underscores) where the other has a dash between two
    name characters, or by a known alias resolve to the same catalog
    entry; so does a name and its normal form, and a catalog key resolves
    to its own entry. *)
Theorem resolveModelDefinition_spellings :
  (forall s t, toLowerCase s = toLowerCase t ->
               resolveModelDefinition s = resolveModelDefinition t)
  /\ (forall a c1 w c2 b,
         isSeparator c1 = false -> isSeparator c2 = false ->
         w <> "" -> allSeparators w = true ->
         resolveModelDefinition (a ++ String c1 (w ++ String c2 b))
         = resolveModelDefinition (a ++ String c1 (String "-" (String c2 b))))
  /\ (forall alias canonical,
         In (alias, canonical) aliasMap ->
         exists definition,
           lookup canonical modelDefinitions = Some definition
           /\ key definition = canonical
           /\ resolveModelDefinition alias = Some definition
           /\ resolveModelDefinition canonical = Some definition)
  /\ (forall canonical definition,
         In (canonical, definition) modelDefinitions ->
         key definition = canonical
         /\ resolveModelDefinition canonical = Some definition)
  /\ (forall s, resolveModelDefinition (normalizeModelName s)
                = resolveModelDefinition s).
Proof.
  split; [|split; [|split; [|split]]].
  - intros s t H. now apply resolveModelDefinition_normalized, normalizeModelName_case.
  - intros a c1 w c2 b H1 H2 Hne Hw.
    now apply resolveModelDefinition_normalized, normalizeModelName_separator.
  - intros alias canonical Hin. simpl in Hin.
    repeat (destruct Hin as [Hin | Hin];
            [inversion Hin; subst; eexists; repeat split; reflexivity|]).
    contradiction.
  - intros canonical definition Hin. simpl in Hin.
    repeat (destruct Hin as [Hin | Hin];
            [inversion Hin; subst; split; reflexivity|]).
    contradiction.
  - intros s. apply resolveModelDefinition_normalized, normalizeModelName_idempotent.
Qed.

Lemma resolveModelDefinition_spellings_witness :
  resolveModelDefinition "GPT-5 PRO" = resolveModelDefinition "gpt-5 pro"
  /\ resolveModelDefinition "gpt-5 _ pro" = resolveModelDefinition "gpt-5-pro"
  /\ (exists definition,
         lookup "gpt-5-pro" modelDefinitions = Some definition
         /\ key definition = "gpt-5-pro"
         /\ resolveModelDefinition "gpt5-pro" = Some definition
         /\ resolveModelDefinition "gpt-5-pro" = Some definition).
Proof.
  destruct resolveModelDefinition_spellings as (Hcase & Hsep & Halias & _ & _).
  split; [|split].
  - apply Hcase. reflexivity.
  - apply (Hsep "gpt-" "5"%char " _ " "p"%char "ro"); try reflexivity.
    discriminate.
  - apply Halias. simpl. auto.
Defined.

(** C7. A name whose normal form is neither an alias nor a catalog key
    resolves to no definition, and [selectModel] on it (on an initialised
    page) returns normally after a warning: no call reaches the browser,
    so the model picker is not touched. *)
Theorem unrecognized_model_is_skipped (drv : Driver) (self : ChatGPT)
    (modelName : string) (w : World) :
  isRecognized (normalizeModelName modelName) = false ->
  resolveModelDefinition modelName = None
  /\ (page self = true ->
      exists w',
        selectModel drv self modelName w = (Ok tt, w')
        /\ history w' = history w
        /\ clock w' = clock w
        /\ hd_error (console w')
           = Some (WarningSign,
                   "Model " ++ q modelName ++ " is not recognized; skipping model switch")).
Proof.
  intros Hun. unfold isRecognized in Hun. rewrite existsb_app in Hun.
  apply orb_false_iff in Hun as [Halias Hkey].
  assert (Hres : resolveModelDefinition modelName = None).
  { unfold resolveModelDefinition.
    rewrite (lookup_absent _ _ Halias). cbn [nullish]. now apply lookup_absent. }
  split; [exact Hres|].
  intros Hpage. unfold selectModel. rewrite Hpage, Hres. cbn [negb].
  unfold bind, log. destruct (verbose self); simpl;
    eexists; repeat split; reflexivity.
Qed.

Lemma unrecognized_model_is_skipped_witness :
  resolveModelDefinition "claude" = None
  /\ exists w',
       selectModel (scripted streaming) defaultChatGPT "claude" initialWorld = (Ok tt, w')
       /\ history w' = history initialWorld
       /\ clock w' = clock initialWorld
       /\ hd_error (console w')
          = Some (WarningSign,
                  "Model " ++ q "claude" ++ " is not recognized; skipping model switch").
Proof.
  destruct (unrecognized_model_is_skipped (scripted streaming) defaultChatGPT
              "claude" initialWorld) as [Hres Hsel].
  - vm_compute. reflexivity.
  - split; [exact Hres|]. apply Hsel. reflexivity.
Defined.

(** Every catalog entry has non-empty lower-case verification substrings. *)
Lemma catalog_tokens_lowercase :
  forallb (fun entry => lowercaseTokens (snd entry)) modelDefinitions = true.
Proof. vm_compute. reflexivity. Qed.

(** C8. For every label of the model switcher and every definition whose
    verification substrings are non-empty and in lower case, as those of
    every catalog entry are, the "already selected" check returns normally,
    with [true] exactly when there is a label and it contains one of the
    substrings, letter case ignored. *)
Theorem isModelAlreadySelected_iff (drv : Driver) (trigger : Locator)
    (definition : ModelDefinition) (w : World) :
  (In definition (map snd modelDefinitions) -> lowercaseTokens definition = true)
  /\ (lowercaseTokens definition = true ->
      exists selected w',
        isModelAlreadySelected drv trigger definition w = (Ok selected, w')
        /\ (selected = true <->
            exists label token,
              respond drv (TextContent trigger) (history w) (clock w)
              = Done (Some label)
              /\ In token (verifyTokens definition)
              /\ containsIgnoringCase label token = true)).
Proof.
  split.
  { intros Hin. apply in_map_iff in Hin as (entry & <- & Hin).
    pose proof catalog_tokens_lowercase as H. rewrite forallb_forall in H.
    now apply H. }
  intros Hwf. unfold lowercaseTokens in Hwf.
  rewrite forallb_forall in Hwf.
  assert (Htok : forall token, In token (verifyTokens definition) ->
                               token <> "" /\ toLowerCase token = token).
  { intros token Hin. apply Hwf in Hin. apply andb_true_iff in Hin as [Hne Hlow].
    split; [|now apply String.eqb_eq].
    intros ->. discriminate. }
  unfold isModelAlreadySelected, tryCatch, bind, call, containsIgnoringCase.
  destruct (respond drv (TextContent trigger) (history w) (clock w))
    as [[label|]|name msg] eqn:E; simpl.
  - destruct (isEmpty label) eqn:Hempty; simpl.
    + eexists. eexists. split; [reflexivity|]. split; [discriminate|].
      intros (label' & token & Hl & Hin & Hinc). inversion Hl; subst label'.
      apply String.eqb_eq in Hempty. subst label. simpl in Hinc.
      rewrite orb_false_r in Hinc. apply startsWith_empty in Hinc.
      apply toLowerCase_empty in Hinc. now destruct (Htok token Hin).
    + eexists. eexists. split; [reflexivity|]. rewrite existsb_exists. split.
      * intros (token & Hin & Hinc). exists label, token.
        destruct (Htok token Hin) as [_ Hlow]. rewrite Hlow. auto.
      * intros (label' & token & Hl & Hin & Hinc). inversion Hl; subst label'.
        exists token. destruct (Htok token Hin) as [_ Hlow].
        rewrite Hlow in Hinc. auto.
  - eexists. eexists. split; [reflexivity|]. split; [discriminate|].
    intros (label & token & Hl & _). discriminate.
  - eexists. eexists. split; [reflexivity|]. split; [discriminate|].
    intros (label & token & Hl & _). discriminate.
Qed.

Lemma isModelAlreadySelected_iff_witness :
  exists selected w',
    isModelAlreadySelected (scripted streaming) modelSwitcher
      (mkModelDefinition "gpt-5-pro" "GPT-5 Pro" ["pro"]
         ["model-switcher-gpt-5-pro"] ["Pro"] None) initialWorld
    = (Ok selected, w')
    /\ (selected = true <->
        exists label token,
          respond (scripted streaming) (TextContent modelSwitcher)
            (history initialWorld) (clock initialWorld) = Done (Some label)
          /\ In token ["pro"]
          /\ containsIgnoringCase label token = true).
Proof.
  destruct (isModelAlreadySelected_iff (scripted streaming) modelSwitcher
              (mkModelDefinition "gpt-5-pro" "GPT-5 Pro" ["pro"]
                 ["model-switcher-gpt-5-pro"] ["Pro"] None) initialWorld)
    as [Hcatalog Hiff].
  apply Hiff, Hcatalog. simpl. auto 10.
Defined.

(** ** The calls a run makes *)

Lemma since_app (w w' : World) (events : list Event) :
  history w' = (events ++ history w)%list -> since w w' = events.
Proof.
  intros H. unfold since. rewrite H, length_app, Nat.add_sub. clear H.
  induction events as [|e events IH]; simpl; [reflexivity | now rewrite IH].
Qed.

Section Emits.

Variable drv : Driver.
Variable self : ChatGPT.
Variable permitted : Event -> bool.

Lemma emits_nothing {A : Type} (m : M A) w :
  history (snd (m w)) = history w -> emits permitted m w.
Proof. intros H. exists []. now split. Qed.

Lemma emits_ret {A : Type} (a : A) w : emits permitted (ret a) w.
Proof. now apply emits_nothing. Qed.

Lemma emits_throw {A : Type} (e : Error) w : emits permitted (@throw A e) w.
Proof. now apply emits_nothing. Qed.

Lemma emits_log msg level w : emits permitted (log self msg level) w.
Proof.
  apply emits_nothing. unfold log.
  destruct (negb (verbose self) && _); reflexivity.
Qed.

Lemma emits_debug msg w : emits permitted (debug self msg) w.
Proof. apply emits_nothing. unfold debug. destruct (verbose self); reflexivity. Qed.

Lemma emits_call {T : Type} (c : Call T) w :
  permitted (Called c) = true -> emits permitted (call drv c) w.
Proof.
  intros H. exists [Called c]. split; [|simpl; now rewrite H].
  unfold call. destruct (respond drv c (history w) (clock w)); reflexivity.
Qed.

Lemma emits_bind {A B : Type} (m : M A) (f : A -> M B) w :
  emits permitted m w -> (forall a w0, emits permitted (f a) w0) ->
  emits permitted (bind m f) w.
Proof.
  intros (ev1 & H1 & P1) Hf. unfold emits, bind.
  destruct (m w) as [[a|e|] w0]; cbn [fst snd] in *; try (exists ev1; now split).
  destruct (Hf a w0) as (ev2 & H2 & P2).
  exists (ev2 ++ ev1)%list. split.
  - now rewrite H2, H1, app_assoc.
  - rewrite forallb_app. now rewrite P1, P2.
Qed.

Lemma emits_tryCatch {A : Type} (m : M A) (handler : Error -> M A) w :
  emits permitted m w -> (forall e w0, emits permitted (handler e) w0) ->
  emits permitted (tryCatch m handler) w.
Proof.
  intros (ev1 & H1 & P1) Hh. unfold emits, tryCatch.
  destruct (m w) as [[a|e|] w0]; cbn [fst snd] in *; try (exists ev1; now split).
  destruct (Hh e w0) as (ev2 & H2 & P2).
  exists (ev2 ++ ev1)%list. split.
  - now rewrite H2, H1, app_assoc.
  - rewrite forallb_app. now rewrite P1, P2.
Qed.

End Emits.

Ltac emit :=
  repeat first
    [ progress cbv beta iota zeta
    | lazymatch goal with
      | |- emits _ (ret _) _ => apply emits_ret
      | |- emits _ (throw _) _ => apply emits_throw
      | |- emits _ (log _ _ _) _ => apply emits_log
      | |- emits _ (debug _ _) _ => apply emits_debug
      | |- emits _ (call _ _) _ => apply emits_call; reflexivity
      | |- emits _ (tryCatch _ _) _ => apply emits_tryCatch; [ | intros ? ? ]
      | |- emits _ (bind _ _) _ => apply emits_bind; [ | intros ? ? ]
      | |- emits _ (if ?b then _ else _) _ => destruct b
      | |- emits _ (match ?x with _ => _ end) _ => destruct x
      end ].

Lemma getCredentials_emits (drv : Driver) (permitted : Event -> bool) w :
  (forall command, permitted (Called (ExecSync command)) = true) ->
  emits permitted (getCredentials drv) w.
Proof.
  intros Hexec. unfold getCredentials. cbv zeta.
  apply emits_tryCatch; [|intros; apply emits_throw].
  apply emits_bind; [apply emits_call, Hexec|]. intros emailOut w0.
  apply emits_bind; [apply emits_call, Hexec|]. intros passwordOut w1.
  destruct (isEmpty _ || isEmpty _); [apply emits_throw | apply emits_ret].
Qed.

Lemma openLandingPage_emits (drv : Driver) (self : ChatGPT) w :
  emits notInput (openLandingPage drv self) w.
Proof.
  unfold openLandingPage.
  repeat first [ apply getCredentials_emits; reflexivity | progress emit ].
Qed.

Lemma checkIfLoggedIn_emits (drv : Driver) (self : ChatGPT) w :
  emits notInput (checkIfLoggedIn drv self) w.
Proof. unfold checkIfLoggedIn. emit. Qed.

(** ** Interactive login *)

(** C6. When the probe for an existing session, run after the landing
    page is loaded, is positive (and the write of the session state
    succeeds), [loginInteractive] returns normally with the session state
    saved to the file of the profile, and no call since its start has
    simulated input: no click, no typing, no key press. *)
Theorem login_skips_credentials_when_authenticated (drv : Driver) (self : ChatGPT)
    (fuel : nat) (w : World) (credentials : Credentials) (w1 w2 : World) :
  context self = true ->
  openLandingPage drv self w = (Ok credentials, w1) ->
  checkIfLoggedIn drv self w1 = (Ok true, w2) ->
  (forall h t, respond drv (StorageState (statePathOf self)) h t = Done tt) ->
  exists w3,
    loginInteractive drv self fuel w = (Ok tt, w3)
    /\ hd_error (since w w3) = Some (Called (StorageState (statePathOf self)))
    /\ forallb notInput (since w w3) = true.
Proof.
  intros Hcontext Hland Hprobe Hsave.
  destruct (openLandingPage_emits drv self w) as (ev1 & H1 & P1).
  destruct (checkIfLoggedIn_emits drv self w1) as (ev2 & H2 & P2).
  rewrite Hland in H1. rewrite Hprobe in H2. simpl in H1, H2.
  unfold loginInteractive. unfold bind at 1. rewrite Hland.
  unfold bind at 1. rewrite Hprobe.
  unfold saveSession. rewrite Hcontext. cbn [negb].
  unfold bind, log, call. fold (statePathOf self).
  destruct (verbose self); cbn [negb andb]; unfold print, ret; cbn [history clock];
    rewrite Hsave; cbn [history clock];
    (eexists; split; [reflexivity|]);
    (rewrite (since_app _ _
                (Called (StorageState (statePathOf self)) :: ev2 ++ ev1)%list);
     [ split; [reflexivity | simpl; rewrite forallb_app; now rewrite P1, P2]
     | cbn [history app]; now rewrite H2, H1, app_assoc ]).
Qed.

Lemma login_skips_credentials_when_authenticated_witness :
  exists w3,
    loginInteractive (scripted streaming) defaultChatGPT 100 initialWorld = (Ok tt, w3)
    /\ hd_error (since initialWorld w3)
       = Some (Called (StorageState (statePathOf defaultChatGPT)))
    /\ forallb notInput (since initialWorld w3) = true.
Proof.
  apply (login_skips_credentials_when_authenticated (scripted streaming)
           defaultChatGPT 100 initialWorld
           (fst (match fst (openLandingPage (scripted streaming) defaultChatGPT
                              initialWorld) with
                 | Ok c => (c, tt)
                 | _ => (mkCredentials "" "", tt)
                 end))
           (snd (openLandingPage (scripted streaming) defaultChatGPT initialWorld))
           (snd (checkIfLoggedIn (scripted streaming) defaultChatGPT
                   (snd (openLandingPage (scripted streaming) defaultChatGPT
                           initialWorld))))).
  - reflexivity.
  - vm_compute. reflexivity.
  - vm_compute. reflexivity.
  - reflexivity.
Defined.

(** C10. [loginInteractive] asks for the credentials first: when
    [getCredentials] throws, interactive login fails, on an initialised
    page with that same error and in the world [getCredentials] left, in
    which no navigation and no probe of the page has taken place,
    whatever the page would have shown. *)
Theorem login_fails_when_credentials_unavailable (drv : Driver) (self : ChatGPT)
    (fuel : nat) (w : World) (e : Error) (w1 : World) :
  getCredentials drv w = (Throw e, w1) ->
  (exists e', fst (loginInteractive drv self fuel w) = Throw e')
  /\ (page self = true -> loginInteractive drv self fuel w = (Throw e, w1))
  /\ forallb notNavigation (since w w1) = true.
Proof.
  intros Hcred.
  assert (Hrun : page self = true ->
                 loginInteractive drv self fuel w = (Throw e, w1)).
  { intros Hpage. unfold loginInteractive, openLandingPage. rewrite Hpage.
    cbn [negb]. unfold bind. now rewrite Hcred. }
  split; [|split; [exact Hrun|]].
  - destruct (page self) eqn:Hpage.
    + exists e. now rewrite Hrun.
    + exists BrowserNotInitialized. unfold loginInteractive, openLandingPage.
      rewrite Hpage. reflexivity.
  - destruct (getCredentials_emits drv notNavigation w) as (events & H & P);
      [reflexivity|].
    rewrite Hcred in H. simpl in H. now rewrite (since_app _ _ _ H).
Qed.

Lemma login_fails_when_credentials_unavailable_witness :
  sessionProbe (mkSnapshot (sessionLive signedOut) (sessionLive signedOut) "") = true
  /\ (exists e', fst (loginInteractive (scripted signedOut) defaultChatGPT 100
                        initialWorld) = Throw e')
  /\ forallb notNavigation
       (since initialWorld
          (snd (getCredentials (scripted signedOut) initialWorld))) = true.
Proof.
  split; [reflexivity|].
  destruct (login_fails_when_credentials_unavailable (scripted signedOut)
              defaultChatGPT 100 initialWorld
              (CredentialsUnavailable "op://Private/OpenAI/username"
                 "Error: Command failed: op read")
              (snd (getCredentials (scripted signedOut) initialWorld)))
    as (Hfail & _ & Hquiet).
  - vm_compute. reflexivity.
  - split; [exact Hfail | exact Hquiet].
Defined.

(** ** Driver initialisation and the saved session *)

(** C5 (amended). When the profile has no session-state file, that is not
    fatal: [initialize] asks for a context without saved state (a fresh
    login follows), logs no "Loading saved session...", and the lookup
    raises nothing; with a browser that has been launched and creates the
    context and the page, [initialize] returns normally, whatever the
    profile is called.  The content of a file that exists is not read by
    [initialize]: its path goes to the context creation of the browser. *)
Theorem initialize_without_saved_session (drv : Driver) (self : ChatGPT)
    (w w1 : World) :
  launchBrowser drv self w = (Ok tt, w1) ->
  respond drv (ExistsSync (statePathOf self)) (history w1) (clock w1) = Done false ->
  (forall h t, respond drv (NewContext None) h t = Done tt) ->
  (forall h t, respond drv NewPage h t = Done tt) ->
  (forall h t, respond drv AddInitScript h t = Done tt) ->
  exists self' w',
    initialize drv self w = (Ok self', w')
    /\ page self' = true /\ context self' = true /\ browser self' = true
    /\ history w'
       = ([ Called AddInitScript; Called NewPage; Called (NewContext None);
            Called (ExistsSync (statePathOf self)) ] ++ history w1)%list
    /\ console w' = console w1.
Proof.
  intros Hlaunch Hmissing Hcontext Hpage Hscript.
  unfold initialize. unfold bind at 1. rewrite Hlaunch.
  unfold openContext. cbv zeta. fold (statePathOf self).
  unfold bind, call. rewrite Hmissing. cbn [ret history clock console].
  rewrite Hcontext. cbn [history clock console].
  rewrite Hpage. cbn [history clock console].
  rewrite Hscript. cbn [history clock console].
  eexists. eexists. split; [reflexivity|]. repeat split.
Qed.

Lemma initialize_without_saved_session_witness :
  exists self' w',
    initialize (scripted freshProfile) newDefault initialWorld = (Ok self', w')
    /\ page self' = true /\ context self' = true /\ browser self' = true
    /\ history w'
       = ([ Called AddInitScript; Called NewPage; Called (NewContext None);
            Called (ExistsSync (statePathOf newDefault)) ]
          ++ history (snd (launchBrowser (scripted freshProfile) newDefault
                             initialWorld)))%list
    /\ console w'
       = console (snd (launchBrowser (scripted freshProfile) newDefault initialWorld)).
Proof.
  apply (initialize_without_saved_session (scripted freshProfile) newDefault
           initialWorld
           (snd (launchBrowser (scripted freshProfile) newDefault initialWorld))).
  - vm_compute. reflexivity.
  - vm_compute. reflexivity.
  - reflexivity.
  - reflexivity.
  - reflexivity.
Defined.

(** C5, as stated, fails for a corrupt file: the browser is launched, a
    context without saved state could be created, and yet [initialize]
    throws, because the existing file is handed to the context creation,
    whose error nothing catches. *)
Lemma initialize_throws_on_corrupt_state_file :
  fst (launchBrowser (scripted corrupted) newDefault initialWorld) = Ok tt
  /\ (forall h t, respond (scripted corrupted) (NewContext None) h t = Done tt)
  /\ exists name msg w',
       initialize (scripted corrupted) newDefault initialWorld
       = (Throw (DriverError name msg), w').
Proof.
  split; [vm_compute; reflexivity|]. split; [reflexivity|].
  eexists. eexists. eexists. vm_compute. reflexivity.
Qed.

(** ** Credentials *)

Lemma append_empty_r (s : string) : s ++ "" = s.
Proof. induction s as [|c s IH]; simpl; [reflexivity | now rewrite IH]. Qed.

Lemma stripTrailingNewline_line (value ending : string) :
  noLineBreak value = true ->
  stripTrailingNewline ending = "" ->
  stripTrailingNewline (value ++ ending) = value.
Proof.
  intros Hv He. induction value as [|c r IH]; [exact He|].
  simpl in Hv. apply andb_true_iff in Hv as [Hc Hr].
  apply negb_true_iff, orb_false_iff in Hc as [Hlf Hcr].
  simpl. rewrite Hlf, Hcr. simpl. now rewrite IH.
Qed.

Lemma stripTrailingNewline_last (value : string) :
  stripTrailingNewline (value ++ newline ++ newline) = value ++ newline.
Proof.
  induction value as [|c r IH]; [reflexivity|].
  cbn [append stripTrailingNewline].
  replace ((r ++ newline ++ newline) =? newline)%string with false.
  - replace ((r ++ newline ++ newline) =? "")%string with false.
    + rewrite !andb_false_r. cbn [orb]. now rewrite IH.
    + symmetry. apply String.eqb_neq. now destruct r.
  - symmetry. apply String.eqb_neq. destruct r as [|d [|d' r]]; discriminate.
Qed.

(** X1. [stripTrailingNewline] undoes the line ending a command prints after
    a value: for a value without line breaks, the value followed by LF or
    by CR LF gives the value back, and the value alone is left as it is.
    Only the last line break goes: of two trailing LF one is kept. *)
Theorem stripTrailingNewline_round_trip (value : string) :
  noLineBreak value = true ->
  stripTrailingNewline (value ++ newline) = value
  /\ stripTrailingNewline (value ++ carriageReturn ++ newline) = value
  /\ stripTrailingNewline value = value
  /\ forall other, stripTrailingNewline (other ++ newline ++ newline) = other ++ newline.
Proof.
  intros Hv. split; [|split; [|split]].
  - now apply stripTrailingNewline_line.
  - now apply stripTrailingNewline_line.
  - pose proof (stripTrailingNewline_line value "" Hv eq_refl) as H.
    now rewrite append_empty_r in H.
  - apply stripTrailingNewline_last.
Qed.

Lemma stripTrailingNewline_round_trip_witness :
  stripTrailingNewline ("operator@example.com" ++ newline) = "operator@example.com"
  /\ stripTrailingNewline ("operator@example.com" ++ carriageReturn ++ newline)
     = "operator@example.com"
  /\ stripTrailingNewline "operator@example.com" = "operator@example.com"
  /\ forall other, stripTrailingNewline (other ++ newline ++ newline) = other ++ newline.
Proof. apply (stripTrailingNewline_round_trip "operator@example.com"). reflexivity. Defined.

(** X2. Whatever the 1Password CLI answers, [getCredentials] either
    returns an email and a password that are both non-empty, or throws the
    one error "Failed to read credentials from 1Password", which names the
    email reference (also when it was the password that could not be
    read). *)
Theorem getCredentials_outcome (drv : Driver) (w : World) :
  match fst (getCredentials drv w) with
  | Ok credentials => email credentials <> "" /\ password credentials <> ""
  | Throw e => exists cause, e = CredentialsUnavailable (emailRefOf drv) cause
  | OutOfFuel => False
  end.
Proof.
  unfold getCredentials, tryCatch, bind, call. fold (emailRefOf drv).
  destruct (respond drv (ExecSync _) (history w) (clock w)) as [emailOut|name msg];
    [|eexists; reflexivity].
  cbn [history clock console].
  match goal with
  | |- context [respond drv ?c ?h ?t] =>
      destruct (respond drv c h t) as [passwordOut|name msg]
  end; [|eexists; reflexivity].
  destruct (isEmpty (stripTrailingNewline emailOut)) eqn:He;
    [eexists; reflexivity|].
  destruct (isEmpty (stripTrailingNewline passwordOut)) eqn:Hp;
    [eexists; reflexivity|].
  simpl. split; intros E; rewrite E in *; discriminate.
Qed.

(** X3. When the read of the email fails, [getCredentials] does not go on
    to read the password: the failed command is its only call, and the
    error it throws ends with the text of the failure. *)
Theorem getCredentials_stops_at_first_failure (drv : Driver) (w : World)
    (name msg : string) :
  respond drv (opRead (emailRefOf drv)) (history w) (clock w) = Fail name msg ->
  exists w',
    getCredentials drv w
    = (Throw (CredentialsUnavailable (emailRefOf drv) (name ++ ": " ++ msg)), w')
    /\ since w w' = [Called (opRead (emailRefOf drv))].
Proof.
  intros Hfail. unfold getCredentials, tryCatch, bind, call.
  fold (emailRefOf drv). fold (opRead (emailRefOf drv)). rewrite Hfail.
  eexists. split; [reflexivity|].
  now apply (since_app _ _ [Called (opRead (emailRefOf drv))]).
Qed.

Lemma getCredentials_stops_at_first_failure_witness :
  exists w',
    getCredentials (scripted signedOut) initialWorld
    = (Throw (CredentialsUnavailable "op://Private/OpenAI/username"
                ("Error" ++ ": " ++ "Command failed: op read")), w')
    /\ since initialWorld w' = [Called (opRead "op://Private/OpenAI/username")].
Proof.
  apply (getCredentials_stops_at_first_failure (scripted signedOut) initialWorld
           "Error" "Command failed: op read").
  reflexivity.
Defined.

(** X4. When the 1Password CLI prints each value followed by a line
    break, [getCredentials] returns the two values without it, after
    reading the email first and the password second. *)
Theorem getCredentials_reads_both (drv : Driver) (w : World) (e p : string) :
  noLineBreak e = true -> noLineBreak p = true -> e <> "" -> p <> "" ->
  (forall h t, respond drv (opRead (emailRefOf drv)) h t = Done (e ++ newline)) ->
  (forall h t, respond drv (opRead (passwordRefOf drv)) h t = Done (p ++ newline)) ->
  exists w',
    getCredentials drv w = (Ok (mkCredentials e p), w')
    /\ since w w'
       = [Called (opRead (passwordRefOf drv)); Called (opRead (emailRefOf drv))].
Proof.
  intros He Hp Hne Hnp Hemail Hpassword.
  unfold getCredentials, tryCatch, bind, call.
  fold (emailRefOf drv). fold (passwordRefOf drv).
  fold (opRead (emailRefOf drv)). fold (opRead (passwordRefOf drv)).
  rewrite Hemail. cbn [history clock console]. rewrite Hpassword.
  rewrite !stripTrailingNewline_line by (assumption || reflexivity).
  replace (isEmpty e) with false
    by (symmetry; now apply String.eqb_neq).
  replace (isEmpty p) with false
    by (symmetry; now apply String.eqb_neq).
  eexists. split; [reflexivity|].
  now apply (since_app _ _ [Called (opRead (passwordRefOf drv));
                            Called (opRead (emailRefOf drv))]).
Qed.

Lemma getCredentials_reads_both_witness :
  exists w',
    getCredentials (scripted streaming) initialWorld
    = (Ok (mkCredentials "operator@example.com" "operator@example.com"), w')
    /\ since initialWorld w'
       = [Called (opRead "op://Private/OpenAI/password");
          Called (opRead "op://Private/OpenAI/username")].
Proof.
  apply (getCredentials_reads_both (scripted streaming) initialWorld
           "operator@example.com" "operator@example.com");
    try reflexivity; discriminate.
Defined.

(** ** Model names, further *)

Lemma startsWith_split (s t : string) :
  startsWith s t = true -> exists b, s = t ++ b.
Proof.
  revert s. induction t as [|a t IH]; intros s H; [now exists s|].
  destruct s as [|b s]; [discriminate|]. simpl in H.
  apply andb_true_iff in H as [Hc Hs]. apply Ascii.eqb_eq in Hc. subst b.
  destruct (IH s Hs) as [r ->]. now exists r.
Qed.

Lemma includes_split (s t : string) :
  includes s t = true -> exists a b, s = a ++ t ++ b.
Proof.
  induction s as [|c s IH]; cbn [includes]; intros H;
    apply orb_true_iff in H as [H | H]; try discriminate.
  - apply startsWith_split in H as [b ->]. now exists "", b.
  - apply startsWith_split in H as [b ->]. now exists "", b.
  - destruct (IH H) as (a & b & ->). now exists (String c a), b.
Qed.

Lemma includes_trans (s t u : string) :
  includes s t = true -> includes t u = true -> includes s u = true.
Proof.
  intros Hst Htu.
  apply includes_split in Hst as (a & b & ->).
  apply includes_split in Htu as (a' & b' & ->).
  replace (a ++ (a' ++ u ++ b') ++ b) with ((a ++ a') ++ u ++ (b' ++ b)).
  - apply includes_append.
  - now rewrite !append_assoc.
Qed.

(** X5. The names [resolveModelDefinition] accepts are exactly those
    whose normal form is an alias or a catalog key; the entry found is the
    entry the catalog holds under its own key. *)
Theorem resolveModelDefinition_recognized (modelName : string) :
  (exists definition,
      resolveModelDefinition modelName = Some definition
      /\ lookup (key definition) modelDefinitions = Some definition)
  <-> isRecognized (normalizeModelName modelName) = true.
Proof.
  unfold resolveModelDefinition, isRecognized. cbv zeta.
  generalize (normalizeModelName modelName). intros n. split.
  - intros (definition & Hres & _).
    destruct (existsb (String.eqb n) (map fst aliasMap ++ map fst modelDefinitions))
      eqn:E; [reflexivity|].
    rewrite existsb_app in E. apply orb_false_iff in E as [Halias Hkey].
    rewrite (lookup_absent _ _ Halias) in Hres. cbn [nullish] in Hres.
    rewrite (lookup_absent _ _ Hkey) in Hres. discriminate.
  - intros H. cbn [map fst aliasMap modelDefinitions buildModelDefinitions app existsb] in H.
    repeat (apply orb_true_iff in H as [H | H];
            [apply String.eqb_eq in H; subst n; eexists; split; reflexivity|]).
    discriminate.
Qed.

(** X6. The half-hour floor of [getResponseTimeout] applies exactly to
    the model names that, in lower case and with dashes for separator
    runs, contain "gpt-5" or "gpt5": the four longer names of the list add
    nothing, and every GPT-5 variant is covered, "gpt-5-instant" too. *)
Theorem getResponseTimeout_gpt5_family (self : ChatGPT) :
  let name := replaceSeparators (toLowerCase (model self)) in
  getResponseTimeout self
  = Z.max (timeout self)
      (if includes name "gpt-5" || includes name "gpt5" then 1800000 else 0).
Proof.
  intros name. unfold getResponseTimeout. cbv zeta. fold name.
  f_equal. cbn [existsb longRunningModels].
  destruct (includes name "gpt-5") eqn:E1; [reflexivity|].
  destruct (includes name "gpt5") eqn:E2; [reflexivity|].
  assert (H1 : forall t, includes t "gpt-5" = true -> includes name t = false).
  { intros t Ht. destruct (includes name t) eqn:E; [|reflexivity].
    rewrite (includes_trans _ _ _ E Ht) in E1. discriminate. }
  assert (H2 : forall t, includes t "gpt5" = true -> includes name t = false).
  { intros t Ht. destruct (includes name t) eqn:E; [|reflexivity].
    rewrite (includes_trans _ _ _ E Ht) in E2. discriminate. }
  rewrite (H1 "gpt-5-pro"), (H2 "gpt5-pro"), (H1 "gpt-5-thinking"),
    (H2 "gpt5-thinking") by reflexivity.
  reflexivity.
Qed.

(** ** What a run that returns has been through *)

Lemma tryCatch_ok {A : Type} (m : M A) (handler : Error -> M A) w a w' :
  tryCatch m handler w = (Ok a, w') ->
  m w = (Ok a, w')
  \/ exists e w0, m w = (Throw e, w0) /\ handler e w0 = (Ok a, w').
Proof.
  unfold tryCatch. destruct (m w) as [[x|e|] w0]; intros H.
  - now left.
  - right. now exists e, w0.
  - discriminate.
Qed.

Lemma forOf_ok {X R : Type} (xs : list X) (body : X -> M (option R)) w r w' :
  forOf xs body w = (Ok (Some r), w') ->
  exists x w0, In x xs /\ body x w0 = (Ok (Some r), w').
Proof.
  revert w. induction xs as [|x xs IH]; intros w H; [discriminate|].
  simpl in H. apply bind_ok in H as ([v|] & w0 & Hbody & H).
  - inversion H; subst. exists x, w. split; [now left | exact Hbody].
  - destruct (IH _ H) as (x' & w1 & Hin & Hx). exists x', w1.
    split; [now right | exact Hx].
Qed.

Lemma log_run (self : ChatGPT) msg level w :
  exists w',
    log self msg level w = (Ok tt, w')
    /\ history w' = history w /\ clock w' = clock w.
Proof.
  unfold log. destruct (negb (verbose self) && _); eexists; repeat split.
Qed.

Lemma debug_run (self : ChatGPT) msg w :
  exists w',
    debug self msg w = (Ok tt, w')
    /\ history w' = history w /\ clock w' = clock w.
Proof. unfold debug. destruct (verbose self); eexists; repeat split. Qed.

(** ** Model selection, further *)

Lemma isModelAlreadySelected_true (drv : Driver) (trigger : Locator)
    (definition : ModelDefinition) (label token : string) (w : World) :
  respond drv (TextContent trigger) (history w) (clock w) = Done (Some label) ->
  label <> "" ->
  In token (verifyTokens definition) ->
  includes (toLowerCase label) token = true ->
  isModelAlreadySelected drv trigger definition w
  = (Ok true, after drv (TextContent trigger) w).
Proof.
  intros Hlabel Hne Hin Hinc.
  unfold isModelAlreadySelected, tryCatch, bind, call. rewrite Hlabel.
  replace (isEmpty label) with false by (symmetry; now apply String.eqb_neq).
  replace (existsb _ (verifyTokens definition)) with true; [reflexivity|].
  symmetry. apply existsb_exists. now exists token.
Qed.

(** X7. When the label of the model switcher already shows the requested
    model, [selectModel] leaves the picker alone: the read of the label is
    its only call. *)
Theorem selectModel_keeps_selected_model (drv : Driver) (self : ChatGPT)
    (modelName : string) (definition : ModelDefinition) (label token : string)
    (w : World) :
  page self = true ->
  resolveModelDefinition modelName = Some definition ->
  respond drv (TextContent modelSwitcher) (history w) (clock w) = Done (Some label) ->
  label <> "" ->
  In token (verifyTokens definition) ->
  includes (toLowerCase label) token = true ->
  exists w',
    selectModel drv self modelName w = (Ok tt, w')
    /\ since w w' = [Called (TextContent modelSwitcher)].
Proof.
  intros Hpage Hres Hlabel Hne Hin Hinc.
  unfold selectModel. rewrite Hpage, Hres. cbn [negb].
  destruct (log_run self ("Selecting model: " ++ modelName) Info w)
    as (w0 & Hlog & Hh0 & Hc0).
  unfold bind at 1. rewrite Hlog.
  rewrite <- Hh0, <- Hc0 in Hlabel.
  unfold bind. rewrite (isModelAlreadySelected_true _ _ _ _ _ _ Hlabel Hne Hin Hinc).
  destruct (debug_run self ("Already using " ++ modelName)
              (after drv (TextContent modelSwitcher) w0)) as (w3 & Hdbg & Hh3 & _).
  rewrite Hdbg. exists w3. split; [reflexivity|].
  apply since_app. simpl. now rewrite Hh3, <- Hh0.
Qed.

Lemma selectModel_keeps_selected_model_witness :
  exists w',
    selectModel (scripted streaming) defaultChatGPT "GPT-5 Pro" initialWorld = (Ok tt, w')
    /\ since initialWorld w' = [Called (TextContent modelSwitcher)].
Proof.
  apply (selectModel_keeps_selected_model (scripted streaming) defaultChatGPT
           "GPT-5 Pro" gpt5Pro "ChatGPT 5 Pro" "pro" initialWorld);
    try reflexivity.
  - discriminate.
  - now left.
Defined.

(** ** The calls a run makes, further *)

Section EmitsMore.

Variable drv : Driver.
Variable self : ChatGPT.
Variable permitted : Event -> bool.

Lemma emits_now w : emits permitted now w.
Proof. now apply emits_nothing. Qed.

Lemma emits_print p msg w : emits permitted (print p msg) w.
Proof. now apply emits_nothing. Qed.

Lemma emits_before {St : Type} (deadline : Z) (s : St) w :
  emits permitted (before deadline s) w.
Proof. now apply emits_nothing. Qed.

Lemma emits_orCatch {A : Type} (m : M A) (fallback : A) w :
  emits permitted m w -> emits permitted (orCatch m fallback) w.
Proof. intros H. apply emits_tryCatch; [exact H|]. intros; apply emits_ret. Qed.

Lemma emits_forOf {X R : Type} (xs : list X) (body : X -> M (option R)) w :
  (forall x w0, In x xs -> emits permitted (body x) w0) ->
  emits permitted (forOf xs body) w.
Proof.
  revert w. induction xs as [|x xs IH]; intros w Hbody; simpl; [apply emits_ret|].
  apply emits_bind; [apply Hbody; now left|].
  intros [v|] w0; [apply emits_ret|]. apply IH. intros; apply Hbody; now right.
Qed.

Lemma emits_while {St R : Type} (fuel : nat) (cond : St -> M bool)
    (body : St -> M (Flow St R)) s w :
  (forall s0 w0, emits permitted (cond s0) w0) ->
  (forall s0 w0, emits permitted (body s0) w0) ->
  emits permitted (while fuel cond body s) w.
Proof.
  intros Hcond Hbody. revert s w.
  induction fuel as [|fuel IH]; intros s w; simpl; [now apply emits_nothing|].
  apply emits_bind; [apply Hcond|]. intros [|] w0; [|apply emits_ret].
  apply emits_bind; [apply Hbody|].
  intros [s'|s'|r] w1; [apply IH | apply emits_ret | apply emits_ret].
Qed.

End EmitsMore.

Lemma emits_weaken {A : Type} (permitted permitted' : Event -> bool) (m : M A) w :
  (forall e, permitted e = true -> permitted' e = true) ->
  emits permitted m w -> emits permitted' m w.
Proof.
  intros Himp (events & H & P). exists events. split; [exact H|].
  rewrite forallb_forall in *. auto.
Qed.

Lemma emits_since {A : Type} (permitted : Event -> bool) (m : M A) w :
  emits permitted m w -> forallb permitted (since w (snd (m w))) = true.
Proof. intros (events & H & P). now rewrite (since_app _ _ _ H). Qed.

Ltac emit_step :=
  lazymatch goal with
  | |- emits _ (forOf _ _) _ => apply emits_forOf; intros ? ? ?
  | |- emits _ (while _ _ _ _) _ => apply emits_while; intros ? ?
  | |- emits _ (before _ _) _ => apply emits_before
  | |- emits _ (orCatch _ _) _ => apply emits_orCatch
  | |- emits _ now _ => apply emits_now
  | |- emits _ (print _ _) _ => apply emits_print
  | |- emits _ (call _ _) _ =>
      apply emits_call; cbn; rewrite ?String.eqb_refl; reflexivity
  end.

Ltac emit_all := repeat first [ progress emit | emit_step ].

Lemma isModelAlreadySelected_emits (drv : Driver) trigger definition w :
  emits leavesPageAlone (isModelAlreadySelected drv trigger definition) w.
Proof. unfold isModelAlreadySelected. emit_all. Qed.

Lemma tryClickable_emits (drv : Driver) (self : ChatGPT) locator w :
  emits leavesPageAlone (tryClickable drv self locator) w.
Proof. unfold tryClickable. emit_all. Qed.

Lemma applyModelSelection_emits (drv : Driver) (self : ChatGPT) definition w :
  emits leavesPageAlone (applyModelSelection drv self definition) w.
Proof.
  unfold applyModelSelection.
  repeat first [ apply tryClickable_emits | progress emit_all ].
Qed.

Lemma selectModel_emits (drv : Driver) (self : ChatGPT) modelName w :
  emits leavesPageAlone (selectModel drv self modelName) w.
Proof.
  unfold selectModel, ensureComposerReady.
  repeat first
    [ apply isModelAlreadySelected_emits | apply applyModelSelection_emits
    | progress emit_all ].
Qed.

(** X8. Selecting a model writes nothing into the page and does not
    navigate: whatever the browser answers, [selectModel] fills no field,
    types no text, and presses no key but Escape. *)
Theorem selectModel_leaves_page_alone (drv : Driver) (self : ChatGPT)
    (modelName : string) (w : World) :
  forallb leavesPageAlone (since w (snd (selectModel drv self modelName w))) = true.
Proof. apply emits_since, selectModel_emits. Qed.

Lemma leavesPageAlone_submitsOnly (prompt : string) (e : Event) :
  leavesPageAlone e = true -> submitsOnly prompt e = true.
Proof.
  destruct e as [T c]. destruct c; simpl; try (intros; reflexivity || discriminate).
  intros ->. apply orb_true_r.
Qed.

Lemma copyAssistantResponse_emits (drv : Driver) (self : ChatGPT) (prompt : string)
    fuel message w :
  emits (submitsOnly prompt) (copyAssistantResponse drv self fuel message) w.
Proof. unfold copyAssistantResponse. emit_all. Qed.

Lemma query_emits (drv : Driver) (self : ChatGPT) fuel prompt w :
  emits (submitsOnly prompt) (query drv self fuel prompt) w.
Proof.
  unfold query, submitPrompt, awaitResponse, awaitArrival, awaitStable.
  repeat first
    [ apply copyAssistantResponse_emits
    | match goal with
      | |- emits _ (selectModel _ _ _) _ =>
          eapply emits_weaken; [apply leavesPageAlone_submitsOnly | apply selectModel_emits]
      end
    | progress emit_all ].
Qed.

(** X9. The only text [query] writes into the page is the prompt, into
    the composer; it presses no key but Enter and Escape and never
    navigates, whatever the browser answers and however long it polls. *)
Theorem query_types_only_the_prompt (drv : Driver) (self : ChatGPT) (fuel : nat)
    (prompt : string) (w : World) :
  forallb (submitsOnly prompt) (since w (snd (query drv self fuel prompt w))) = true.
Proof. apply emits_since, query_emits. Qed.

(** ** Runs that cannot fail *)

Lemma obeys_returns {A : Type} (sufficient : Prop) (post : A -> Prop) (m : M A) w :
  sufficient ->
  obeys sufficient (fun _ => False) post m w ->
  exists a w', m w = (Ok a, w') /\ post a.
Proof.
  intros Hs [_ H]. destruct (m w) as [[a|e|] w'] eqn:E; simpl in H.
  - now exists a, w'.
  - contradiction.
  - contradiction.
Qed.

Lemma ensureComposerReady_emits (drv : Driver) (self : ChatGPT) w :
  emits isComposerWait (ensureComposerReady drv self) w.
Proof.
  unfold ensureComposerReady. destruct (negb (page self)); [apply emits_ret|].
  apply emits_bind; [|intros [[]|] w0; [apply emits_ret | apply emits_debug]].
  apply emits_forOf. intros selector w0 Hin.
  apply emits_tryCatch; [|intros; apply emits_ret].
  apply emits_bind; [|intros; apply emits_ret].
  apply emits_call. unfold isComposerWait. rewrite Z.eqb_refl, andb_true_r.
  apply existsb_exists. exists selector. split; [exact Hin | apply String.eqb_refl].
Qed.

(** X10. [ensureComposerReady] cannot fail: whatever the browser answers,
    it returns normally, and all it does is wait, five seconds at most
    each time, for the selectors of the composer. *)
Theorem ensureComposerReady_never_throws (drv : Driver) (self : ChatGPT) (w : World) :
  exists w',
    ensureComposerReady drv self w = (Ok tt, w')
    /\ forallb isComposerWait (since w w') = true.
Proof.
  destruct (obeys_returns True any (ensureComposerReady drv self) w I
              (ensureComposerReady_obeys drv self True (fun _ => False) w))
    as ([] & w' & Hrun & _).
  exists w'. split; [exact Hrun|].
  pose proof (emits_since _ _ _ (ensureComposerReady_emits drv self w)) as H.
  now rewrite Hrun in H.
Qed.

Lemma tryClickable_clicked (drv : Driver) (self : ChatGPT) (locator : Locator) w w' :
  tryClickable drv self locator w = (Ok true, w') ->
  exists h t,
    history w' = Called (Click locator (Some 3000%Z) false) :: h
    /\ respond drv (Click locator (Some 3000%Z) false) h t = Done tt.
Proof.
  unfold tryClickable. intros H.
  apply bind_ok in H as (n & w0 & _ & H).
  destruct (n =? 0)%nat; [discriminate|].
  apply tryCatch_ok in H as [H | (e & w1 & _ & H)].
  - apply bind_ok in H as ([] & w1 & _ & H).
    apply bind_ok in H as ([] & w2 & Hclick & H).
    apply call_ok in Hclick as [Hdone ->]. inversion H; subst w'.
    exists (history w1), (clock w1). split; [reflexivity | exact Hdone].
  - apply bind_ok in H as ([] & w2 & _ & H). discriminate.
Qed.

(** X11. [applyModelSelection] answers [true] only after a click that
    succeeded on one of the option locators of the definition, by test id
    or by text; that click is the last thing it has done. *)
Theorem applyModelSelection_true (drv : Driver) (self : ChatGPT)
    (definition : ModelDefinition) (w w' : World) :
  applyModelSelection drv self definition w = (Ok true, w') ->
  exists option h t,
    In option (optionLocators definition)
    /\ history w' = Called (Click option (Some 3000%Z) false) :: h
    /\ respond drv (Click option (Some 3000%Z) false) h t = Done tt.
Proof.
  unfold applyModelSelection. intros H.
  destruct (negb (page self)); [discriminate|].
  apply bind_ok in H as (steps & w0 & _ & H).
  apply bind_ok in H as (byTestId & w1 & Hid & H).
  destruct byTestId as [r|].
  - inversion H; subst r w1.
    apply forOf_ok in Hid as (testId & w2 & Hin & Hbody).
    apply bind_ok in Hbody as ([|] & w3 & Hclick & Hret); [|discriminate].
    inversion Hret; subst w3.
    apply tryClickable_clicked in Hclick as (h & t & Hh & Hdone).
    eexists. exists h, t. split; [|split; [exact Hh | exact Hdone]].
    unfold optionLocators. apply in_or_app. left.
    apply in_map_iff. now exists testId.
  - apply bind_ok in H as (byText & w2 & Htext & H).
    destruct byText as [r|]; [|discriminate].
    inversion H; subst r w2.
    apply forOf_ok in Htext as (text & w3 & Hin & Hbody).
    apply bind_ok in Hbody as ([|] & w4 & Hclick & Hret); [|discriminate].
    inversion Hret; subst w4.
    apply tryClickable_clicked in Hclick as (h & t & Hh & Hdone).
    eexists. exists h, t. split; [|split; [exact Hh | exact Hdone]].
    unfold optionLocators. apply in_or_app. right.
    apply in_map_iff. now exists text.
Qed.

Lemma applyModelSelection_true_witness :
  exists option h t,
    In option (optionLocators gpt5Pro)
    /\ history (snd (applyModelSelection (scripted clickable) defaultChatGPT gpt5Pro
                       initialWorld))
       = Called (Click option (Some 3000%Z) false) :: h
    /\ respond (scripted clickable) (Click option (Some 3000%Z) false) h t = Done tt.
Proof.
  apply (applyModelSelection_true (scripted clickable) defaultChatGPT gpt5Pro
           initialWorld).
  vm_compute. reflexivity.
Defined.

(** X12. [copyAssistantResponse] cannot fail either: every exception is
    caught, the wait for the clipboard ends within twenty-one rounds, and
    what it returns is [null] or a text that is not blank. *)
Theorem copyAssistantResponse_outcome (drv : Driver) (self : ChatGPT) (fuel : nat)
    (message : Locator) (w : World) :
  match fst (copyAssistantResponse drv self fuel message w) with
  | Ok copied => copied = None \/ isBlank copied = false
  | Throw _ => False
  | OutOfFuel => (fuel <= 20)%nat
  end.
Proof.
  assert (H : obeys (20 < fuel)%nat (fun _ => False)
                (fun copied => copied = None \/ isBlank copied = false)
                (copyAssistantResponse drv self fuel message) w).
  { unfold copyAssistantResponse.
    repeat first
      [ progress obey
      | match goal with
        | |- obeys _ _ _ (while _ _ _ _) _ =>
            eapply obeys_weaken;
            [ | apply (obeys_polling (20 < fuel)%nat any any _ 150) with (n := 20%nat);
                [ lia | intros ? ? | intros ? ? ? ? Hrun | intros Hs ] ]
        end ]; auto.
    - intros; exact I.
    - apply bind_ok in Hrun as (clip & u & Hread & Hrun).
      apply call_advance in Hread. simpl in Hread.
      destruct (negb (isBlank clip) && _); [discriminate|].
      apply bind_ok in Hrun as ([] & u' & Hwait & Hrun).
      apply call_advance in Hwait. simpl in Hwait.
      inversion Hrun; subst. lia.
    - split; [exact Hs | simpl; lia]. }
  destruct H as [_ H].
  destruct (fst (copyAssistantResponse drv self fuel message w)); [exact H | exact H | lia].
Qed.

(** ** Runs on a browser that answers *)

Lemma call_run (drv : Driver) {T : Type} (c : Call T) (v : T) w :
  respond drv c (history w) (clock w) = Done v ->
  call drv c w = (Ok v, after drv c w).
Proof. intros H. unfold call, after. now rewrite H. Qed.

Lemma bind_run {A B : Type} (m : M A) (f : A -> M B) w a w0 :
  m w = (Ok a, w0) -> bind m f w = f a w0.
Proof. intros H. unfold bind. now rewrite H. Qed.

Lemma orCatch_call_run (drv : Driver) {T : Type} (c : Call T) (fallback : T) w :
  exists v, orCatch (call drv c) fallback w = (Ok v, after drv c w).
Proof.
  unfold orCatch, tryCatch, call, after.
  destruct (respond drv c (history w) (clock w)); eexists; reflexivity.
Qed.

Lemma after_wait (drv : Driver) (ms : Z) w :
  (clock w + Z.max 0 ms <= clock (after drv (WaitForTimeout ms) w))%Z.
Proof. unfold after. simpl. lia. Qed.

Lemma after_later (drv : Driver) {T : Type} (c : Call T) w :
  (clock w <= clock (after drv c w))%Z.
Proof. unfold after. pose proof (requestedWait_nonneg c). simpl. lia. Qed.

(** X13. The copy is not checked against what the clipboard held before:
    when the clipboard keeps one and the same non-blank text, whether or
    not the copy button is clicked, [copyAssistantResponse] returns that
    text once its three seconds of waiting for a change are over. *)
Theorem copyAssistantResponse_returns_unchanged_clipboard (drv : Driver)
    (self : ChatGPT) (fuel : nat) (message : Locator) (clip : string) (w : World) :
  page self = true ->
  (20 < fuel)%nat ->
  isBlank (Some clip) = false ->
  (forall h t, respond drv ClipboardRead h t = Done (Some clip)) ->
  (forall l h t, exists n, respond drv (Count l) h t = Done (S n)) ->
  (forall l h t, respond drv (ScrollIntoViewIfNeeded l) h t = Done tt) ->
  (forall ms h t, respond drv (WaitForTimeout ms) h t = Done tt) ->
  (forall l timeout force h t, respond drv (Click l timeout force) h t = Done tt) ->
  fst (copyAssistantResponse drv self fuel message w) = Ok (Some clip).
Proof.
  intros Hpage Hfuel Hclip Hread Hcount Hscroll Hwait Hclick.
  unfold copyAssistantResponse. rewrite Hpage. cbn [negb].
  match goal with
  | |- fst (tryCatch ?m ?h w) = _ =>
      enough (E : exists w', m w = (Ok (Some clip), w'))
        by (destruct E as [w' E]; unfold tryCatch; now rewrite E)
  end.
  rewrite (bind_run _ _ _ _ _ (call_run drv _ _ _ (Hscroll _ _ _))).
  match goal with
  | |- context [bind (orCatch (call drv ?c) tt) _ ?u] =>
      destruct (orCatch_call_run drv c tt u) as [[] E]
  end.
  rewrite (bind_run _ _ _ _ _ E). clear E.
  rewrite (bind_run _ _ _ _ _ (call_run drv _ _ _ (Hwait _ _ _))).
  match goal with
  | |- context [bind (call drv (Count ?l)) _ ?u] =>
      destruct (Hcount l (history u) (clock u)) as [n E]
  end.
  rewrite (bind_run _ _ _ _ _ (call_run drv _ _ _ E)). clear E.
  cbn [Nat.eqb]. rewrite (bind_run (ret _) _ _ _ _ eq_refl).
  match goal with
  | |- context [bind (call drv (Count ?l)) _ ?u] =>
      destruct (Hcount l (history u) (clock u)) as [n' E]
  end.
  rewrite (bind_run _ _ _ _ _ (call_run drv _ _ _ E)). clear E.
  cbn [Nat.eqb].
  match goal with
  | |- context [bind (call drv (Count ?l)) _ ?u] =>
      destruct (Hcount l (history u) (clock u)) as [n'' E]
  end.
  rewrite (bind_run _ _ _ _ _ (call_run drv _ _ _ E)). clear E.
  cbn [Nat.eqb].
  match goal with
  | |- context [bind (orCatch (call drv ?c) tt) _ ?u] =>
      destruct (orCatch_call_run drv c tt u) as [[] E]
  end.
  rewrite (bind_run _ _ _ _ _ E). clear E.
  rewrite (bind_run _ _ _ _ _ (call_run drv _ _ _ (Hread _ _))).
  match goal with
  | |- context [bind (orCatch (call drv ?c) tt) _ ?u] =>
      destruct (orCatch_call_run drv c tt u) as [[] E]
  end.
  rewrite (bind_run _ _ _ _ _ E). clear E.
  rewrite (bind_run _ _ _ _ _ (call_run drv _ _ _ (Hclick _ _ _ _ _))).
  match goal with
  | |- context [bind now _ ?v] => generalize v
  end.
  intros u.
  unfold bind at 1. unfold now. cbv beta iota.
  destruct fuel as [|fuel]; [lia|].
  match goal with
  | |- context [while _ _ ?b _] => set (body := b)
  end.
  assert (Hbody : forall s v,
             body s v
             = (Ok (Next (Some clip)),
                after drv (WaitForTimeout 150) (after drv ClipboardRead v))).
  { intros s v. subst body. cbv beta.
    rewrite (bind_run _ _ _ _ _ (call_run drv _ _ _ (Hread _ _))).
    rewrite Hclip. cbn [negb optionEqb]. rewrite String.eqb_refl. cbn [negb andb].
    now rewrite (bind_run _ _ _ _ _ (call_run drv _ _ _ (Hwait _ _ _))). }
  unfold bind at 1. rewrite while_before.
  replace (clock u <? clock u + 3000)%Z with true by (symmetry; apply Z.ltb_lt; lia).
  unfold bind at 1. rewrite Hbody.
  destruct (polling_runs_out (clock u + 3000) 150 body (fun s => s = Some clip)
              ltac:(lia)) with
    (fuel := fuel) (n := 19%nat) (s := Some clip)
    (w := after drv (WaitForTimeout 150) (after drv ClipboardRead u))
    as (s' & w' & Hloop & Hs & _).
  - intros s v _. eexists. eexists. split; [apply Hbody|].
    split; [reflexivity|]. split; [|reflexivity].
    pose proof (after_wait drv 150 (after drv ClipboardRead v)).
    pose proof (after_later drv ClipboardRead v). lia.
  - lia.
  - pose proof (after_wait drv 150 (after drv ClipboardRead u)).
    pose proof (after_later drv ClipboardRead u). lia.
  - reflexivity.
  - rewrite Hloop. cbv beta iota. subst s'. rewrite Hclip.
    now exists w'.
Qed.

Lemma copyAssistantResponse_returns_unchanged_clipboard_witness :
  fst (copyAssistantResponse (staleClipboard "previous") defaultChatGPT 100
         lastMessage initialWorld)
  = Ok (Some "previous").
Proof.
  apply (copyAssistantResponse_returns_unchanged_clipboard
           (staleClipboard "previous") defaultChatGPT 100 lastMessage "previous"
           initialWorld);
    try reflexivity.
  - lia.
  - intros. now exists 0%nat.
Defined.

(** ** What a query that returns has waited for *)

Lemma log_ok (self : ChatGPT) msg level w r w' :
  log self msg level w = (r, w') -> clock w' = clock w /\ history w' = history w.
Proof.
  unfold log. destruct (negb (verbose self) && _); intros H; inversion H; now split.
Qed.

Lemma debug_ok (self : ChatGPT) msg w r w' :
  debug self msg w = (r, w') -> clock w' = clock w /\ history w' = history w.
Proof. unfold debug. destruct (verbose self); intros H; inversion H; now split. Qed.

Lemma before_ok {St : Type} (deadline : Z) (s : St) w b w' :
  before deadline s w = (Ok b, w') -> w' = w.
Proof. unfold before, bind, now, ret. intros H. now inversion H. Qed.

(** A property of the variables and the world that the condition and the
    body of a loop keep holds when the loop is left. *)
Lemma while_invariant {St R : Type} (cond : St -> M bool)
    (body : St -> M (Flow St R)) (inv : St -> World -> Prop)
    (post : R -> World -> Prop) :
  (forall s w b w', inv s w -> cond s w = (Ok b, w') -> inv s w') ->
  (forall s w f w', inv s w -> body s w = (Ok f, w') ->
     match f with
     | Next s' | Break s' => inv s' w'
     | Return r => post r w'
     end) ->
  forall fuel s w x w',
    inv s w -> while fuel cond body s w = (Ok x, w') ->
    match x with
    | inl s' => inv s' w'
    | inr r => post r w'
    end.
Proof.
  intros Hcond Hbody. induction fuel as [|fuel IH]; intros s w x w' Hinv H;
    [discriminate|].
  simpl in H. apply bind_ok in H as (b & w0 & Hc & H).
  apply (Hcond _ _ _ _ Hinv) in Hc. destruct b.
  - apply bind_ok in H as (f & w1 & Hb & H).
    apply (Hbody _ _ _ _ Hc) in Hb.
    destruct f as [s'|s'|r]; [now apply (IH s' w1) | |]; inversion H; now subst.
  - inversion H. now subst.
Qed.

Lemma awaitArrival_later (drv : Driver) (self : ChatGPT) initialMessages
    pollIntervalMs u w f w' :
  awaitArrival drv self initialMessages pollIntervalMs u w = (f, w') ->
  (clock w <= clock w')%Z.
Proof.
  intros H. eapply (obeys_clock False any any); [exact H|].
  unfold awaitArrival. obey.
Qed.

Lemma arrival_loop_later (drv : Driver) (self : ChatGPT) initialMessages
    pollIntervalMs deadline fuel w x w' :
  while fuel (before deadline) (awaitArrival drv self initialMessages pollIntervalMs)
    tt w = (Ok x, w') ->
  (clock w <= clock w')%Z.
Proof.
  intros H.
  assert (Hinv : match x with
                 | inl _ => (clock w <= clock w')%Z
                 | inr _ => (clock w <= clock w')%Z
                 end).
  { apply (while_invariant (before deadline)
             (awaitArrival drv self initialMessages pollIntervalMs)
             (fun _ v => (clock w <= clock v)%Z)
             (fun _ v => (clock w <= clock v)%Z)) with (fuel := fuel) (s := tt) (w := w).
    - intros s v b v' Hv Hc. apply before_ok in Hc. now subst.
    - intros s v f v' Hv Hb. apply awaitArrival_later in Hb.
      destruct f; cbv beta in *; lia.
    - cbv beta. lia.
    - exact H. }
  destruct x; exact Hinv.
Qed.

Lemma emits_run {A : Type} (permitted : Event -> bool) (m : M A) w r w' :
  emits permitted m w -> m w = (r, w') ->
  exists events, history w' = (events ++ history w)%list.
Proof. intros (events & H & _) E. rewrite E in H. now exists events. Qed.

Lemma selectModel_history (drv : Driver) (self : ChatGPT) modelName w r w' :
  selectModel drv self modelName w = (r, w') ->
  exists events, history w' = (events ++ history w)%list.
Proof. apply emits_run with (permitted := leavesPageAlone), selectModel_emits. Qed.

Lemma arrival_loop_history (drv : Driver) (self : ChatGPT) initialMessages
    pollIntervalMs deadline fuel w r w' :
  while fuel (before deadline) (awaitArrival drv self initialMessages pollIntervalMs)
    tt w = (r, w') ->
  exists events, history w' = (events ++ history w)%list.
Proof.
  apply emits_run with (permitted := anyEvent).
  unfold awaitArrival. emit_all.
Qed.

Lemma stable_loop_history (drv : Driver) (self : ChatGPT) deadline fuel vars w r w' :
  while fuel (before deadline) (awaitStable drv self fuel) vars w = (r, w') ->
  exists events, history w' = (events ++ history w)%list.
Proof.
  apply emits_run with (permitted := anyEvent).
  unfold awaitStable, copyAssistantResponse. emit_all.
Qed.

Lemma submitPrompt_ok (drv : Driver) (self : ChatGPT) prompt w initialMessages w' :
  submitPrompt drv self prompt w = (Ok initialMessages, w') ->
  exists w0 earlier,
    history w0 = (earlier ++ history w)%list
    /\ respond drv (Count assistantMessages) (history w0) (clock w0) = Done initialMessages
    /\ history w'
       = ([ Called (KeyboardPress "Enter"); Called (WaitForTimeout 500);
            Called (PageFill inputSelector prompt);
            Called (Count assistantMessages) ] ++ history w0)%list
    /\ (clock w <= clock w0)%Z /\ (clock w0 + 500 <= clock w')%Z.
Proof.
  unfold submitPrompt. intros H.
  destruct (page self) eqn:Hpage; [|discriminate]. cbn [negb] in H.
  apply bind_ok in H as ([] & w1 & Hsel & H).
  destruct (selectModel_history _ _ _ _ _ _ Hsel) as (events & Hh1).
  eapply (obeys_clock False any any) in Hsel;
    [|apply selectModel_obeys; [apply tolerates_any | now left]].
  apply bind_ok in H as ([] & w2 & Hlog & H). apply log_ok in Hlog as [Hc2 Hh2].
  apply bind_ok in H as ([] & w3 & Hwait & H).
  pose proof (call_advance _ _ _ _ _ Hwait) as Hc3.
  apply call_ok in Hwait as [_ Hw3].
  apply bind_ok in H as (n & w4 & Hcount & H).
  pose proof (call_advance _ _ _ _ _ Hcount) as Hc4.
  apply call_ok in Hcount as [Hcount Hw4].
  apply bind_ok in H as ([] & w5 & Hdbg & H). apply debug_ok in Hdbg as [Hc5 Hh5].
  apply bind_ok in H as ([] & w6 & Hfill & H).
  pose proof (call_advance _ _ _ _ _ Hfill) as Hc6.
  apply call_ok in Hfill as [_ Hw6].
  apply bind_ok in H as ([] & w7 & Hpause & H).
  pose proof (call_advance _ _ _ _ _ Hpause) as Hc7.
  apply call_ok in Hpause as [_ Hw7].
  apply bind_ok in H as ([] & w8 & Hkey & H).
  pose proof (call_advance _ _ _ _ _ Hkey) as Hc8.
  apply call_ok in Hkey as [_ Hw8].
  apply bind_ok in H as ([] & w9 & Hlog' & H). apply log_ok in Hlog' as [Hc9 Hh9].
  inversion H; subst initialMessages w9.
  exists w3, (Called (WaitForSelector inputSelector 10000) :: events).
  split; [rewrite Hw3; cbn [history app]; now rewrite Hh2, Hh1|].
  split; [exact Hcount|]. split.
  - rewrite Hh9, Hw8. cbn [history]. rewrite Hw7. cbn [history]. rewrite Hw6.
    cbn [history]. rewrite Hh5, Hw4. reflexivity.
  - simpl in *. lia.
Qed.

(** X14. [query] returns a response only if the number of assistant
    messages, read again after the prompt was filled in and Enter pressed,
    was found larger than the number read just before the prompt was
    filled in. *)
Theorem query_returns_only_after_new_message (drv : Driver) (self : ChatGPT)
    (fuel : nat) (prompt : string) (w : World) (response : string) (w' : World) :
  query drv self fuel prompt w = (Ok response, w') ->
  exists initialMessages confirmedCount w0 w1 earlier polls later,
    history w0 = (earlier ++ history w)%list
    /\ respond drv (Count assistantMessages) (history w0) (clock w0) = Done initialMessages
    /\ history w1
       = (polls ++ [ Called (KeyboardPress "Enter"); Called (WaitForTimeout 500);
                     Called (PageFill inputSelector prompt);
                     Called (Count assistantMessages) ] ++ history w0)%list
    /\ respond drv (Count assistantMessages) (history w1) (clock w1)
       = Done confirmedCount
    /\ history w' = (later ++ Called (Count assistantMessages) :: history w1)%list
    /\ (initialMessages < confirmedCount)%nat
    /\ (clock w0 + 500 <= clock w1)%Z.
Proof.
  unfold query. intros H.
  apply bind_ok in H as (initialMessages & wA & Hsubmit & H).
  apply submitPrompt_ok in Hsubmit as (w0 & earlier & Hh0 & Hinitial & HhA & _ & Hc0).
  unfold awaitResponse in H. cbv zeta in H. unfold bind at 1, now at 1 in H.
  apply bind_ok in H as (x & w1 & Hloop & H).
  destruct (arrival_loop_history _ _ _ _ _ _ _ _ _ Hloop) as (polls & Hh1).
  apply arrival_loop_later in Hloop.
  apply bind_ok in H as (confirmedCount & w2 & Hcount & H).
  apply call_ok in Hcount as [Hcount Hw2].
  destruct (confirmedCount <=? initialMessages)%nat eqn:E; [discriminate|].
  apply Nat.leb_gt in E.
  apply bind_ok in H as (r & w3 & Hstable & H).
  destruct (stable_loop_history _ _ _ _ _ _ _ _ Hstable) as (later & Hh3).
  destruct r as [vars|r]; [discriminate|]. inversion H; subst r w3.
  exists initialMessages, confirmedCount, w0, w1, earlier, polls, later.
  split; [exact Hh0|]. split; [exact Hinitial|].
  split; [now rewrite Hh1, HhA|]. split; [exact Hcount|].
  split; [rewrite Hh3, Hw2; reflexivity|]. split; [exact E | lia].
Qed.

Lemma query_returns_only_after_new_message_witness :
  exists initialMessages confirmedCount w0 w1 earlier polls later,
    history w0 = (earlier ++ history initialWorld)%list
    /\ respond (scripted streaming) (Count assistantMessages) (history w0) (clock w0)
       = Done initialMessages
    /\ history w1
       = (polls ++ [ Called (KeyboardPress "Enter"); Called (WaitForTimeout 500);
                     Called (PageFill inputSelector "ping");
                     Called (Count assistantMessages) ] ++ history w0)%list
    /\ respond (scripted streaming) (Count assistantMessages) (history w1) (clock w1)
       = Done confirmedCount
    /\ history (snd (query (scripted streaming) defaultChatGPT 1000 "ping" initialWorld))
       = (later ++ Called (Count assistantMessages) :: history w1)%list
    /\ (initialMessages < confirmedCount)%nat
    /\ (clock w0 + 500 <= clock w1)%Z.
Proof.
  apply (query_returns_only_after_new_message (scripted streaming) defaultChatGPT
           1000 "ping" initialWorld (repeatChar 8)
           (snd (query (scripted streaming) defaultChatGPT 1000 "ping" initialWorld))).
  vm_compute. reflexivity.
Defined.

Lemma copyAssistantResponse_later (drv : Driver) (self : ChatGPT) fuel message w r w' :
  copyAssistantResponse drv self fuel message w = (r, w') -> (clock w <= clock w')%Z.
Proof.
  intros H. eapply (obeys_clock False any any); [exact H|].
  apply (copyAssistantResponse_obeys drv self False any fuel 0). intros [].
Qed.

Lemma awaitStable_paced (drv : Driver) (self : ChatGPT) (fuel : nat) (start : Z)
    vars w f w' :
  paced start vars w ->
  awaitStable drv self fuel vars w = (Ok f, w') ->
  match f with
  | Next vars' | Break vars' => paced start vars' w'
  | Return _ => (start + 8000 <= clock w')%Z
  end.
Proof.
  destruct vars as [previousLength stableCount]. intros [Hstart Hpace].
  cbn [fst snd] in Hpace. unfold awaitStable. intros H.
  apply bind_ok in H as ([] & w1 & Hwait & H).
  apply call_advance in Hwait. simpl in Hwait.
  apply bind_ok in H as (messages & w2 & Hall & H). apply call_advance in Hall.
  simpl in Hall.
  destruct (messages =? 0)%nat.
  { apply bind_ok in H as ([] & w3 & Hdbg & H). apply debug_ok in Hdbg as [Hc _].
    inversion H; subst. split; cbn [fst snd]; [lia|]. intros Hp.
    specialize (Hpace Hp). lia. }
  apply bind_ok in H as (currentText & w3 & Htext & H). apply call_advance in Htext.
  simpl in Htext.
  destruct (length (trim currentText) =? 0)%nat eqn:E0.
  { apply bind_ok in H as ([] & w4 & Hlog & H).
    assert (Hc : clock w4 = clock w3).
    { destruct (verbose self); [now apply log_ok in Hlog | now inversion Hlog]. }
    inversion H; subst. split; cbn [fst snd]; [lia | congruence]. }
  apply Nat.eqb_neq in E0.
  apply bind_ok in H as ([previousLength' stableCount'] & w4 & Hvars & H).
  assert (Hnew : (clock w4 = clock w3)
                 /\ (2000 * (Z.of_nat stableCount' + 1) <= clock w3 - start)%Z
                 /\ (previousLength' <> 0)%nat).
  { destruct (length (trim currentText) =? previousLength)%nat eqn:E1.
    - apply Nat.eqb_eq in E1.
      apply bind_ok in Hvars as ([] & w5 & Hdbg & Hvars).
      apply debug_ok in Hdbg as [Hc _].
      assert (Hp : previousLength <> 0%nat) by congruence.
      specialize (Hpace Hp). inversion Hvars; subst.
      split; [lia|]. split; [lia | assumption].
    - apply bind_ok in Hvars as ([] & w5 & Hdbg & Hvars).
      apply debug_ok in Hdbg as [Hc _]. inversion Hvars; subst.
      split; [lia|]. split; [simpl; lia | assumption]. }
  destruct Hnew as (Hc4 & Hpace' & Hne).
  destruct (requiredStableChecks <=? stableCount')%nat eqn:E3.
  - apply Nat.leb_le in E3. unfold requiredStableChecks in E3.
    apply bind_ok in H as (copied & w5 & Hcopy & H).
    apply copyAssistantResponse_later in Hcopy.
    assert (Hlate : (start + 8000 <= clock w5)%Z) by lia.
    destruct copied as [copied|];
      [destruct (negb (isEmpty copied) && _)|]; inversion H; now subst.
  - inversion H; subst. split; cbn [fst snd]; [lia|]. intros _. lia.
Qed.

(** X15. A response is never returned sooner than 8.5 seconds after
    [query] was called: half a second passes before Enter is pressed, and
    the text of the reply is read four times, two seconds apart, before it
    counts as final. *)
Theorem query_takes_four_polls (drv : Driver) (self : ChatGPT) (fuel : nat)
    (prompt : string) (w : World) (response : string) (w' : World) :
  query drv self fuel prompt w = (Ok response, w') ->
  (clock w + 8500 <= clock w')%Z.
Proof.
  unfold query. intros H.
  apply bind_ok in H as (initialMessages & wA & Hsubmit & H).
  apply submitPrompt_ok in Hsubmit as (w0 & earlier & _ & _ & _ & Hc & Hc0).
  unfold awaitResponse in H. cbv zeta in H. unfold bind at 1, now at 1 in H.
  apply bind_ok in H as (x & w1 & Hloop & H). apply arrival_loop_later in Hloop.
  apply bind_ok in H as (confirmedCount & w2 & Hcount & H).
  apply call_advance in Hcount. simpl in Hcount.
  destruct (confirmedCount <=? initialMessages)%nat; [discriminate|].
  apply bind_ok in H as (r & w3 & Hstable & H).
  destruct r as [vars|r]; [discriminate|]. inversion H; subst r w3.
  assert (Hlate : (clock w2 + 8000 <= clock w')%Z).
  { apply (while_invariant (before (clock wA + getResponseTimeout self))
             (awaitStable drv self fuel) (paced (clock w2))
             (fun _ v => (clock w2 + 8000 <= clock v)%Z))
      with (fuel := fuel) (s := (0, 0)%nat) (w := w2) (x := inr response).
    - intros s v b v' Hv Hb. apply before_ok in Hb. now subst.
    - intros s v f v' Hv Hb. exact (awaitStable_paced _ _ _ _ _ _ _ _ Hv Hb).
    - split; cbn [fst snd]; [lia | congruence].
    - exact Hstable. }
  lia.
Qed.

Lemma query_takes_four_polls_witness :
  (clock initialWorld + 8500
   <= clock (snd (query (scripted streaming) defaultChatGPT 1000 "ping" initialWorld)))%Z.
Proof.
  apply (query_takes_four_polls (scripted streaming) defaultChatGPT 1000 "ping"
           initialWorld (repeatChar 8)).
  vm_compute. reflexivity.
Defined.

(** ** Session probes *)

(** X16. What [checkIfLoggedIn] answers on an initialised page: [true]
    when the in-page probe is positive or, that failing, the context holds
    a session cookie; [false] when both are negative.  An evaluation that
    fails counts as a negative probe; the only exception that can escape
    is that of the cookie read. *)
Theorem checkIfLoggedIn_decides (drv : Driver) (self : ChatGPT) (w : World) :
  page self = true ->
  let w1 := after drv Evaluate w in
  let cookieRead := respond drv (Cookies "https://chatgpt.com") (history w1) (clock w1) in
  match fst (checkIfLoggedIn drv self w) with
  | Ok true =>
      (exists snap,
          respond drv Evaluate (history w) (clock w) = Done snap
          /\ sessionProbe snap = true)
      \/ (probeNegative drv w /\ context self = true
          /\ exists cookies, cookieRead = Done cookies /\ hasSessionCookie cookies = true)
  | Ok false =>
      probeNegative drv w
      /\ (context self = true ->
          exists cookies, cookieRead = Done cookies /\ hasSessionCookie cookies = false)
  | Throw e =>
      probeNegative drv w /\ context self = true
      /\ exists name msg, cookieRead = Fail name msg /\ e = DriverError name msg
  | OutOfFuel => False
  end.
Proof.
  intros Hpage w1 cookieRead. subst cookieRead w1.
  unfold checkIfLoggedIn, probeNegative. rewrite Hpage. cbn [negb].
  unfold tryCatch, bind, call, debug, print, ret, after.
  destruct (respond drv Evaluate (history w) (clock w)) as [snap|name msg] eqn:E.
  - destruct (sessionProbe snap) eqn:P.
    + destruct (verbose self); simpl; left; now exists snap.
    + assert (N : forall s, Done snap = Done s -> sessionProbe s = false)
        by (intros s Hs; inversion Hs; now subst).
      cbn [history clock console requestedWait].
      destruct (context self); [|simpl; split; [exact N | discriminate]].
      destruct (respond drv (Cookies "https://chatgpt.com") _ _)
        as [cookies|name msg] eqn:C; cbn [fst history clock console].
      * destruct (hasSessionCookie cookies) eqn:S; destruct (verbose self); simpl;
          try (right; split; [exact N|]; split; [reflexivity|]; now exists cookies);
          (split; [exact N|]; intros _; now exists cookies).
      * split; [exact N|]. split; [reflexivity|]. now exists name, msg.
  - assert (N : forall s, @Fail PageSnapshot name msg = Done s -> sessionProbe s = false)
      by (intros s Hs; discriminate).
    destruct (verbose self); cbn [history clock console requestedWait fst snd];
      (destruct (context self); [|simpl; split; [exact N | discriminate]]);
      (destruct (respond drv (Cookies "https://chatgpt.com") _ _)
         as [cookies|name' msg'] eqn:C; cbn [fst history clock console];
       [ destruct (hasSessionCookie cookies) eqn:S; simpl;
         try (right; split; [exact N|]; split; [reflexivity|]; now exists cookies);
         (split; [exact N|]; intros _; now exists cookies)
       | split; [exact N|]; split; [reflexivity|]; now exists name', msg' ]).
Qed.

Lemma checkIfLoggedIn_decides_witness :
  match fst (checkIfLoggedIn (scripted streaming) defaultChatGPT initialWorld) with
  | Ok true =>
      (exists snap,
          respond (scripted streaming) Evaluate (history initialWorld)
            (clock initialWorld) = Done snap
          /\ sessionProbe snap = true)
      \/ (probeNegative (scripted streaming) initialWorld
          /\ context defaultChatGPT = true
          /\ exists cookies,
               respond (scripted streaming) (Cookies "https://chatgpt.com")
                 (history (after (scripted streaming) Evaluate initialWorld))
                 (clock (after (scripted streaming) Evaluate initialWorld))
               = Done cookies
               /\ hasSessionCookie cookies = true)
  | Ok false =>
      probeNegative (scripted streaming) initialWorld
      /\ (context defaultChatGPT = true ->
          exists cookies,
            respond (scripted streaming) (Cookies "https://chatgpt.com")
              (history (after (scripted streaming) Evaluate initialWorld))
              (clock (after (scripted streaming) Evaluate initialWorld))
            = Done cookies
            /\ hasSessionCookie cookies = false)
  | Throw e =>
      probeNegative (scripted streaming) initialWorld
      /\ context defaultChatGPT = true
      /\ exists name msg,
           respond (scripted streaming) (Cookies "https://chatgpt.com")
             (history (after (scripted streaming) Evaluate initialWorld))
             (clock (after (scripted streaming) Evaluate initialWorld))
           = Fail name msg
           /\ e = DriverError name msg
  | OutOfFuel => False
  end.
Proof.
  apply (checkIfLoggedIn_decides (scripted streaming) defaultChatGPT initialWorld).
  reflexivity.
Defined.

(** ** The waits of the login flow *)

Lemma while_cond_ext {St R : Type} (cond cond' : St -> M bool)
    (body : St -> M (Flow St R)) :
  (forall s w, cond s w = cond' s w) ->
  forall fuel s w, while fuel cond body s w = while fuel cond' body s w.
Proof.
  intros Hc. induction fuel as [|fuel IH]; intros s w; simpl; [reflexivity|].
  unfold bind. rewrite Hc. destruct (cond' s w) as [[[|]|e|] w0]; try reflexivity.
  destruct (body s w0) as [[[s'|s'|r]|e|] w1]; try reflexivity. apply IH.
Qed.

Lemma elapsed_before {St : Type} (start maxWaitMs : Z) (s : St) w :
  (t <- now ;; ret (t - start <? maxWaitMs)%Z) w = before (start + maxWaitMs) s w.
Proof.
  unfold before, bind, now, ret. do 2 f_equal.
  destruct (Z.ltb_spec (clock w - start) maxWaitMs);
    destruct (Z.ltb_spec (clock w) (start + maxWaitMs)); (reflexivity || lia).
Qed.

Lemma obeys_ext {A : Type} (sufficient : Prop) (allowed : Error -> Prop)
    (post : A -> Prop) (m m' : M A) w :
  m w = m' w -> obeys sufficient allowed post m' w -> obeys sufficient allowed post m w.
Proof. unfold obeys. now intros ->. Qed.

Lemma rounds_cover_step (step rt : Z) :
  (0 < step)%Z -> (rt <= step * Z.of_nat (Z.to_nat (rt / step) + 1))%Z.
Proof.
  intros Hstep. destruct (Z.le_gt_cases 0 rt) as [Hpos | Hneg].
  - pose proof (Z.mul_succ_div_gt rt step Hstep) as H.
    assert (0 <= rt / step)%Z by (apply Z.div_pos; lia).
    rewrite Nat2Z.inj_add, Z2Nat.id by assumption. lia.
  - nia.
Qed.

Lemma waitForAuthenticatedSession_obeys (drv : Driver) (self : ChatGPT)
    (fuel : nat) (maxWaitMs : Z) (allowed : Error -> Prop) w :
  obeys (Z.to_nat (maxWaitMs / 1000) + 1 < fuel)%nat allowed any
    (waitForAuthenticatedSession drv self fuel maxWaitMs) w.
Proof.
  unfold waitForAuthenticatedSession.
  repeat first
    [ progress obey
    | match goal with
      | |- obeys _ _ _ (while ?f _ ?b ?s) ?v =>
          eapply obeys_weaken;
          [ | apply (obeys_ext _ _ _ _ (while f (before (clock v + maxWaitMs)) b s));
              [ apply while_cond_ext; intros; apply elapsed_before
              | apply (obeys_polling _ any any _ 1000)
                  with (n := (Z.to_nat (maxWaitMs / 1000) + 1)%nat);
                [ lia | intros ? ? | intros s0 v0 s1 v1 Hrun | intros Hs ] ] ]
      end ].
  - intros; exact I.
  - apply bind_ok in Hrun as (cookieFound & u1 & Hcookie & Hrun).
    assert (Hc1 : (clock v0 <= clock u1)%Z).
    { eapply (obeys_clock False any any); [exact Hcookie | obey]. }
    apply bind_ok in Hrun as (snap & u2 & Hsnap & Hrun).
    apply call_advance in Hsnap. simpl in Hsnap.
    destruct (cookieFound || confirmationProbe snap).
    + unfold bind at 1, now at 1 in Hrun.
      apply bind_ok in Hrun as (? & ? & _ & Hrun). discriminate.
    + apply bind_ok in Hrun as ([] & u3 & Hwait & Hrun).
      apply call_advance in Hwait. simpl in Hwait.
      inversion Hrun; subst. lia.
  - split; [exact Hs|].
    pose proof (rounds_cover_step 1000 maxWaitMs ltac:(lia)). lia.
Qed.

Lemma waitForAuthenticatedSession_emits (drv : Driver) (self : ChatGPT)
    (fuel : nat) (maxWaitMs : Z) w :
  emits notInput (waitForAuthenticatedSession drv self fuel maxWaitMs) w.
Proof. unfold waitForAuthenticatedSession. emit_all. Qed.

(** X17. The wait for the confirmation of a login cannot fail: every
    exception is caught, the loop is left after one round per second of
    [maxWaitMs] and one more at most, and the wait only reads cookies and
    the page, simulating no input. *)
Theorem waitForAuthenticatedSession_never_throws (drv : Driver) (self : ChatGPT)
    (fuel : nat) (maxWaitMs : Z) (w : World) :
  match fst (waitForAuthenticatedSession drv self fuel maxWaitMs w) with
  | Ok _ => True
  | Throw _ => False
  | OutOfFuel => (fuel <= Z.to_nat (maxWaitMs / 1000) + 1)%nat
  end
  /\ forallb notInput
       (since w (snd (waitForAuthenticatedSession drv self fuel maxWaitMs w))) = true.
Proof.
  split; [|apply emits_since, waitForAuthenticatedSession_emits].
  destruct (waitForAuthenticatedSession_obeys drv self fuel maxWaitMs
              (fun _ => False) w) as [_ H].
  destruct (fst (waitForAuthenticatedSession drv self fuel maxWaitMs w));
    [exact I | exact H | lia].
Qed.

Lemma tolerates_driver_errors (drv : Driver) : tolerates drv isDriverError.
Proof. right. intros name msg. now exists name, msg. Qed.

Lemma tryTriggerVerificationStep_obeys (drv : Driver) (self : ChatGPT)
    (sufficient : Prop) (allowed : Error -> Prop) attempt w :
  tolerates drv allowed ->
  obeys sufficient allowed any (tryTriggerVerificationStep drv self attempt) w.
Proof. intros Htol. unfold tryTriggerVerificationStep. obey. Qed.

Lemma obeys_sufficient {A : Type} (sufficient sufficient' : Prop)
    (allowed : Error -> Prop) (post : A -> Prop) (m : M A) w :
  (sufficient' -> sufficient) ->
  obeys sufficient allowed post m w -> obeys sufficient' allowed post m w.
Proof.
  unfold obeys. intros Himp [Hc Hr]. split; [exact Hc|].
  destruct (fst (m w)); auto.
Qed.

Lemma waitForOtpInputs_obeys (drv : Driver) (self : ChatGPT) (sufficient : Prop)
    (allowed : Error -> Prop) (fuel : nat) (selectors : list string) w :
  (sufficient -> (90 < fuel)%nat) ->
  tolerates drv allowed ->
  page self = true ->
  obeys sufficient allowed
    (fun found => found = None \/ found = Some (Css (otpSelectorOf selectors)))
    (waitForOtpInputs drv self fuel selectors) w.
Proof.
  intros Hfuel Htol Hpage.
  unfold waitForOtpInputs. rewrite Hpage. cbn [negb]. cbv zeta.
  fold (otpSelectorOf selectors).
  destruct (isEmpty (trim (otpSelectorOf selectors))); [apply obeys_ret; now left|].
  apply obeys_bind_now.
  apply (obeys_bind_post _ _
           (loopPost (fun l => l = Css (otpSelectorOf selectors)))).
  - apply (obeys_polling _ _ _ _ 500) with (n := 90%nat).
    + lia.
    + intros attempt v.
      repeat first
        [ apply tryTriggerVerificationStep_obeys; exact Htol
        | progress obey ]; reflexivity.
    + intros attempt v attempt' v' Hrun.
      apply bind_ok in Hrun as (count & u1 & Hcount & Hrun).
      assert (Hc1 : (clock v <= clock u1)%Z).
      { eapply (obeys_clock False any any); [exact Hcount | obey]. }
      destruct (0 <? count)%nat.
      * apply bind_ok in Hrun as (? & ? & _ & Hrun). discriminate.
      * apply bind_ok in Hrun as ([] & u2 & Htrigger & Hrun).
        eapply (obeys_clock False any any) in Htrigger;
          [|apply tryTriggerVerificationStep_obeys, tolerates_any].
        apply bind_ok in Hrun as ([] & u3 & Hwait & Hrun).
        apply call_advance in Hwait. simpl in Hwait.
        inversion Hrun; subst. lia.
    + intros Hs. split; [exact (Hfuel Hs) | simpl; lia].
  - intros [attempt|locator] v _ _ Hpost.
    + obey. now left.
    + simpl in Hpost. subst locator. apply obeys_ret. now right.
Qed.

(** X18. On an initialised page the wait for the one-time-code inputs
    ends within ninety-one rounds of half a second; it answers [null] or
    the one locator that combines all the selectors given, each restricted
    to visible elements; and only an exception of the driver can escape
    it. *)
Theorem waitForOtpInputs_outcome (drv : Driver) (self : ChatGPT) (fuel : nat)
    (selectors : list string) (w : World) :
  page self = true ->
  match fst (waitForOtpInputs drv self fuel selectors w) with
  | Ok found => found = None \/ found = Some (Css (otpSelectorOf selectors))
  | Throw e => isDriverError e
  | OutOfFuel => (fuel <= 90)%nat
  end.
Proof.
  intros Hpage.
  destruct (waitForOtpInputs_obeys drv self (90 < fuel)%nat isDriverError fuel
              selectors w (fun H => H) (tolerates_driver_errors drv) Hpage) as [_ H].
  destruct (fst (waitForOtpInputs drv self fuel selectors w)); [exact H | exact H | lia].
Qed.

Lemma waitForOtpInputs_outcome_witness :
  match fst (waitForOtpInputs (scripted silent) defaultChatGPT 100 otpSelectors
               initialWorld) with
  | Ok found => found = None \/ found = Some (Css (otpSelectorOf otpSelectors))
  | Throw e => isDriverError e
  | OutOfFuel => (100 <= 90)%nat
  end.
Proof.
  apply (waitForOtpInputs_outcome (scripted silent) defaultChatGPT 100 otpSelectors
           initialWorld).
  reflexivity.
Defined.

(** ** The verification code *)

Lemma call_fail (drv : Driver) {T : Type} (c : Call T) (name msg : string) w :
  respond drv c (history w) (clock w) = Fail name msg ->
  call drv c w = (Throw (DriverError name msg), after drv c w).
Proof. intros H. unfold call, after. now rewrite H. Qed.

Lemma bind_fail {A B : Type} (m : M A) (f : A -> M B) w e w0 :
  m w = (Throw e, w0) -> bind m f w = (Throw e, w0).
Proof. intros H. unfold bind. now rewrite H. Qed.

(** X19. A verification code that is empty once its white space is
    removed is refused before anything is entered: the branch throws
    "Verification code was empty" (or the driver's error, when counting
    the inputs or asking the question fails) and has simulated no input. *)
Theorem enterVerificationCode_refuses_blank_code (drv : Driver) (self : ChatGPT)
    (codeInputs : Locator) (w : World) :
  (forall prompt h t answer,
      respond drv (Question prompt) h t = Done answer ->
      removeWhiteSpace (trim answer) = "") ->
  match fst (enterVerificationCode drv self codeInputs w) with
  | Ok _ => False
  | Throw e => e = VerificationCodeEmpty \/ isDriverError e
  | OutOfFuel => False
  end
  /\ forallb notInput (since w (snd (enterVerificationCode drv self codeInputs w))) = true.
Proof.
  intros Hblank. unfold enterVerificationCode.
  destruct (respond drv (Count codeInputs) (history w) (clock w)) as [n|name msg] eqn:C.
  2:{ rewrite (bind_fail _ _ _ _ _ (call_fail drv _ _ _ _ C)).
      split; [right; now exists name, msg|].
      now rewrite (since_app _ _ [Called (Count codeInputs)]). }
  rewrite (bind_run _ _ _ _ _ (call_run drv _ _ _ C)).
  destruct (debug_run self ("Detected " ++ showNat n ++ " OTP inputs")
              (after drv (Count codeInputs) w)) as (w1 & Hdbg & Hh1 & Hc1).
  rewrite (bind_run _ _ _ _ _ Hdbg).
  destruct (log_run self "Email verification required - check your email for code"
              Info w1) as (w2 & Hlog & Hh2 & Hc2).
  rewrite (bind_run _ _ _ _ _ Hlog).
  assert (Hevents : history (after drv (Question (newline ++ "Enter your 2FA code: ")) w2)
                    = ([Called (Question (newline ++ "Enter your 2FA code: "));
                        Called (Count codeInputs)] ++ history w)%list).
  { cbn [after history app]. now rewrite Hh2, Hh1. }
  destruct (respond drv (Question (newline ++ "Enter your 2FA code: "))
              (history w2) (clock w2)) as [answer|name msg] eqn:Q.
  - assert (Hask : prompt2FA drv w2
                   = (Ok (trim answer),
                      after drv (Question (newline ++ "Enter your 2FA code: ")) w2)).
    { unfold prompt2FA. now rewrite (bind_run _ _ _ _ _ (call_run drv _ _ _ Q)). }
    rewrite (bind_run _ _ _ _ _ Hask). cbv zeta.
    rewrite (Hblank _ _ _ _ Q). cbn [isEmpty String.eqb]. unfold throw.
    split; [now left|]. cbn [snd]. now rewrite (since_app _ _ _ Hevents).
  - assert (Hask : prompt2FA drv w2
                   = (Throw (DriverError name msg),
                      after drv (Question (newline ++ "Enter your 2FA code: ")) w2)).
    { unfold prompt2FA. now rewrite (bind_fail _ _ _ _ _ (call_fail drv _ _ _ _ Q)). }
    rewrite (bind_fail _ _ _ _ _ Hask).
    split; [right; now exists name, msg|]. cbn [snd].
    now rewrite (since_app _ _ _ Hevents).
Qed.

Lemma enterVerificationCode_refuses_blank_code_witness :
  match fst (enterVerificationCode (scripted silent) defaultChatGPT
               (Css (otpSelectorOf otpSelectors)) initialWorld) with
  | Ok _ => False
  | Throw e => e = VerificationCodeEmpty \/ isDriverError e
  | OutOfFuel => False
  end
  /\ forallb notInput
       (since initialWorld
          (snd (enterVerificationCode (scripted silent) defaultChatGPT
                  (Css (otpSelectorOf otpSelectors)) initialWorld))) = true.
Proof.
  apply (enterVerificationCode_refuses_blank_code (scripted silent) defaultChatGPT
           (Css (otpSelectorOf otpSelectors)) initialWorld).
  intros prompt h t answer H. simpl in H. inversion H. reflexivity.
Defined.

Lemma typedInto_app (events earlier : list Event) :
  typedInto (events ++ earlier) = (typedInto earlier ++ typedInto events)%list.
Proof.
  induction events as [|[T c] events IH]; simpl; [now rewrite app_nil_r|].
  destruct c; try exact IH. now rewrite IH, app_assoc.
Qed.

Lemma typeDigits_run (drv : Driver) (codeInputs : Locator) :
  (forall l v h t, respond drv (Fill l v) h t = Done tt) ->
  (forall l text delay h t, respond drv (TypeInto l text delay) h t = Done tt) ->
  (forall ms h t, respond drv (WaitForTimeout ms) h t = Done tt) ->
  forall digits i w,
    exists w' events,
      typeDigits drv codeInputs i digits w = (Ok tt, w')
      /\ history w' = (events ++ history w)%list
      /\ typedInto events
         = combine (map (Nth codeInputs) (seq i (List.length digits))) digits.
Proof.
  intros Hfill Htype Hwait.
  induction digits as [|digit rest IH]; intros i w.
  - exists w, []. now split.
  - cbn [typeDigits].
    rewrite (bind_run _ _ _ _ _ (call_run drv _ _ _ (Hfill _ _ _ _))).
    rewrite (bind_run _ _ _ _ _ (call_run drv _ _ _ (Htype _ _ _ _ _))).
    rewrite (bind_run _ _ _ _ _ (call_run drv _ _ _ (Hwait _ _ _))).
    match goal with
    | |- context [typeDigits drv codeInputs (S i) rest ?u] =>
        destruct (IH (S i) u) as (w' & events & Hrun & Hh & Hty)
    end.
    exists w'.
    exists (events ++ [Called (WaitForTimeout 40);
                       Called (TypeInto (Nth codeInputs i) digit 40);
                       Called (Fill (Nth codeInputs i) "")])%list.
    split; [exact Hrun|]. split.
    + rewrite Hh. cbn [after history]. now rewrite <- app_assoc.
    + rewrite typedInto_app. cbn [typedInto app List.length seq map combine].
      now rewrite Hty.
Qed.

Lemma combine_firstn {A B : Type} (f : nat -> A) (digits : list B) :
  forall i count,
    combine (map f (seq i (List.length (firstn (Nat.min (List.length digits) count) digits))))
            (firstn (Nat.min (List.length digits) count) digits)
    = combine (map f (seq i count)) digits.
Proof.
  induction digits as [|d digits IH]; intros i count.
  - simpl. now destruct (map f (seq i count)).
  - destruct count as [|count]; [reflexivity|].
    cbn [List.length Nat.min firstn seq map combine]. now rewrite IH.
Qed.

Lemma typedInto_none (events : list Event) :
  forallb noTyping events = true -> typedInto events = [].
Proof.
  induction events as [|[T c] events IH]; [reflexivity|].
  cbn [forallb]. intros H. apply andb_true_iff in H as [Hc H].
  destruct c; try discriminate; exact (IH H).
Qed.

Lemma enterVerificationCode_tail_emits (drv : Driver) (self : ChatGPT) w :
  emits noTyping
    (call drv (WaitForTimeout 500) ;;
     submitClicked <- forOf submitSelectors (fun selector =>
       let buttonLocator := First (Css (selector ++ ":visible")) in
       n <- call drv (Count buttonLocator) ;;
       if (0 <? n)%nat then
         tryCatch
           (call drv (Click buttonLocator (Some 3000%Z) false) ;;
            debug self ("Clicked OTP submit button (" ++ selector ++ ")") ;;
            ret (Some tt))
           (fun error =>
              debug self ("Failed to click " ++ selector ++ ": " ++ toString error) ;;
              ret None)
       else ret None) ;;
     match submitClicked with
     | Some _ => ret tt
     | None =>
         debug self "No visible submit button detected for OTP, pressing Enter instead" ;;
         call drv (KeyboardPress "Enter")
     end ;;
     call drv (WaitForTimeout 5000)) w.
Proof. emit_all. Qed.

(** X20. With several code inputs, the verification branch of
    [loginInteractive] types the digits of the code the operator gave,
    white space removed, one per input and in order: digit [k] goes to
    input [k], for as many digits as there are inputs; digits beyond the
    last input are not typed, and nothing else is typed into any element,
    however the submission that follows goes. *)
Theorem enterVerificationCode_one_digit_per_input (drv : Driver) (self : ChatGPT)
    (codeInputs : Locator) (visibleOtpCount : nat) (answer : string) (w : World) :
  respond drv (Count codeInputs) (history w) (clock w) = Done visibleOtpCount ->
  (1 < visibleOtpCount)%nat ->
  (forall prompt h t, respond drv (Question prompt) h t = Done answer) ->
  removeWhiteSpace (trim answer) <> "" ->
  (forall l timeout force h t, respond drv (Click l timeout force) h t = Done tt) ->
  (forall l v h t, respond drv (Fill l v) h t = Done tt) ->
  (forall l text delay h t, respond drv (TypeInto l text delay) h t = Done tt) ->
  (forall ms h t, respond drv (WaitForTimeout ms) h t = Done tt) ->
  typedInto (since w (snd (enterVerificationCode drv self codeInputs w)))
  = combine (map (Nth codeInputs) (seq 0 visibleOtpCount))
            (splitChars (removeWhiteSpace (trim answer))).
Proof.
  intros Hcount Hmany Hanswer Hcode Hclick Hfill Htype Hwait.
  unfold enterVerificationCode.
  rewrite (bind_run _ _ _ _ _ (call_run drv _ _ _ Hcount)).
  destruct (debug_run self ("Detected " ++ showNat visibleOtpCount ++ " OTP inputs")
              (after drv (Count codeInputs) w)) as (w1 & Hdbg & Hh1 & _).
  rewrite (bind_run _ _ _ _ _ Hdbg).
  destruct (log_run self "Email verification required - check your email for code"
              Info w1) as (w2 & Hlog & Hh2 & _).
  rewrite (bind_run _ _ _ _ _ Hlog).
  assert (Hask : prompt2FA drv w2
                 = (Ok (trim answer),
                    after drv (Question (newline ++ "Enter your 2FA code: ")) w2)).
  { unfold prompt2FA.
    now rewrite (bind_run _ _ _ _ _ (call_run drv _ _ _ (Hanswer _ _ _))). }
  rewrite (bind_run _ _ _ _ _ Hask). cbv zeta.
  replace (isEmpty (removeWhiteSpace (trim answer))) with false
    by (symmetry; now apply String.eqb_neq).
  destruct (log_run self "Entering verification code..." Info
              (after drv (Question (newline ++ "Enter your 2FA code: ")) w2))
    as (w3 & Hlog3 & Hh3 & _).
  rewrite (bind_run _ _ _ _ _ Hlog3).
  rewrite (bind_run _ _ _ _ _ (call_run drv _ _ _ (Hclick _ _ _ _ _))).
  rewrite (bind_run _ _ _ _ _ (call_run drv _ _ _ (Hwait _ _ _))).
  replace (visibleOtpCount <=? 1)%nat with false
    by (symmetry; apply Nat.leb_gt; exact Hmany).
  set (code := removeWhiteSpace (trim answer)).
  set (w4 := after drv (WaitForTimeout 200)
               (after drv (Click (First codeInputs) None true) w3)).
  destruct (typeDigits_run drv codeInputs Hfill Htype Hwait
              (firstn (Nat.min (List.length (splitChars code)) visibleOtpCount)
                 (splitChars code)) 0 w4)
    as (w5 & events & Hrun & Hh5 & Hty).
  rewrite combine_firstn in Hty.
  assert (Hdigits : exists w6,
             (typeDigits drv codeInputs 0
                (firstn (Nat.min (List.length (splitChars code)) visibleOtpCount)
                   (splitChars code)) ;;
              if (visibleOtpCount <? List.length (splitChars code))%nat then
                log self ("Verification code has "
                          ++ showNat (List.length (splitChars code))
                          ++ " digits but only " ++ showNat visibleOtpCount
                          ++ " inputs were detected. Extra digits were ignored.") Warn
              else ret tt) w4 = (Ok tt, w6)
             /\ history w6 = history w5).
  { rewrite (bind_run _ _ _ _ _ Hrun).
    destruct (visibleOtpCount <? List.length (splitChars code))%nat.
    - match goal with
      | |- context [log self ?msg Warn w5] =>
          destruct (log_run self msg Warn w5) as (w6 & Hw & Hh6 & _)
      end.
      exists w6. now split.
    - exists w5. now split. }
  destruct Hdigits as (w6 & Hdigits & Hh6).
  rewrite (bind_run _ _ _ _ _ Hdigits).
  match goal with
  | |- typedInto (since w (snd (?m w6))) = _ =>
      destruct (enterVerificationCode_tail_emits drv self w6) as (tail & Hht & Hnone)
  end.
  rewrite (since_app _ _
             (tail ++ events
              ++ [Called (WaitForTimeout 200); Called (Click (First codeInputs) None true);
                  Called (Question (newline ++ "Enter your 2FA code: "));
                  Called (Count codeInputs)])%list).
  - rewrite !typedInto_app, (typedInto_none _ Hnone), Hty, app_nil_r. reflexivity.
  - transitivity (tail ++ history w6)%list; [exact Hht|].
    rewrite Hh6, Hh5. subst w4. cbn [after history].
    rewrite Hh3. cbn [after history]. rewrite Hh2, Hh1. cbn [after history].
    now rewrite <- !app_assoc.
Qed.

Lemma enterVerificationCode_one_digit_per_input_witness :
  typedInto
    (since initialWorld
       (snd (enterVerificationCode (verifying " 12 34 5678 " 6) defaultChatGPT
               (Css (otpSelectorOf otpSelectors)) initialWorld)))
  = combine (map (Nth (Css (otpSelectorOf otpSelectors))) (seq 0 6))
            (splitChars (removeWhiteSpace (trim " 12 34 5678 "))).
Proof.
  apply (enterVerificationCode_one_digit_per_input (verifying " 12 34 5678 " 6)
           defaultChatGPT (Css (otpSelectorOf otpSelectors)) 6 " 12 34 5678 "
           initialWorld); try reflexivity.
  - lia.
  - discriminate.
Defined.

(** ** Login and the saved session *)

Lemma saveSession_ok (drv : Driver) (self : ChatGPT) w w' :
  context self = true ->
  saveSession drv self w = (Ok tt, w') ->
  exists h t,
    history w' = Called (StorageState (statePathOf self)) :: h
    /\ respond drv (StorageState (statePathOf self)) h t = Done tt.
Proof.
  intros Hcontext. unfold saveSession. rewrite Hcontext. cbn [negb]. cbv zeta.
  fold (statePathOf self). intros H.
  apply bind_ok in H as ([] & w0 & Hcall & Hlog).
  apply call_ok in Hcall as [Hdone ->]. apply log_ok in Hlog as [_ Hh].
  exists (history w), (clock w). split; [exact Hh | exact Hdone].
Qed.

(** X21. Interactive login returns normally only with the session
    saved: whichever way it went, through the credentials or past them,
    the last call of a login that returns is the write of the session
    state to the file of the profile, and that write succeeded. *)
Theorem loginInteractive_saves_session (drv : Driver) (self : ChatGPT) (fuel : nat)
    (w w' : World) :
  context self = true ->
  loginInteractive drv self fuel w = (Ok tt, w') ->
  exists h t,
    history w' = Called (StorageState (statePathOf self)) :: h
    /\ respond drv (StorageState (statePathOf self)) h t = Done tt.
Proof.
  intros Hcontext. unfold loginInteractive. intros H.
  apply bind_ok in H as (credentials & w0 & _ & H).
  apply bind_ok in H as (isLoggedIn & w1 & _ & H).
  destruct isLoggedIn.
  - apply bind_ok in H as ([] & w2 & _ & H). now apply saveSession_ok in H.
  - unfold enterCredentials in H.
    repeat (apply bind_ok in H as (? & ? & _ & H)).
    match type of H with
    | (if ?b then _ else _) _ = _ => destruct b
    end.
    + apply bind_ok in H as ([] & w2 & _ & H). now apply saveSession_ok in H.
    + repeat (apply bind_ok in H as (? & ? & _ & H)). discriminate.
Qed.

Lemma loginInteractive_saves_session_witness :
  exists h t,
    history (snd (loginInteractive (scripted streaming) defaultChatGPT 100 initialWorld))
    = Called (StorageState (statePathOf defaultChatGPT)) :: h
    /\ respond (scripted streaming) (StorageState (statePathOf defaultChatGPT)) h t
       = Done tt.
Proof.
  apply (loginInteractive_saves_session (scripted streaming) defaultChatGPT 100
           initialWorld).
  - reflexivity.
  - vm_compute. reflexivity.
Defined.

Lemma checkSession_emits (drv : Driver) (self : ChatGPT) w :
  emits notInput (checkSession drv self) w.
Proof.
  unfold checkSession.
  repeat first [ apply checkIfLoggedIn_emits | progress emit_all ].
Qed.

(** X22. [checkSession] only looks: it loads the landing page, waits
    three seconds and probes the session, simulating no input; an answer
    comes no sooner than three seconds after the call; and without a page
    it throws "Browser not initialized" before any call. *)
Theorem checkSession_probes_only (drv : Driver) (self : ChatGPT) (w : World) :
  forallb notInput (since w (snd (checkSession drv self w))) = true
  /\ (forall loggedIn w',
         checkSession drv self w = (Ok loggedIn, w') -> (clock w + 3000 <= clock w')%Z)
  /\ (page self = false -> checkSession drv self w = (Throw BrowserNotInitialized, w)).
Proof.
  split; [apply emits_since, checkSession_emits|]. split.
  - intros loggedIn w'. unfold checkSession.
    destruct (negb (page self)); [discriminate|]. intros H.
    apply bind_ok in H as ([] & w0 & Hlog & H). apply log_ok in Hlog as [Hc0 _].
    apply bind_ok in H as ([] & w1 & Hgoto & H). apply call_advance in Hgoto.
    apply bind_ok in H as ([] & w2 & Hwait & H). apply call_advance in Hwait.
    eapply (obeys_clock False any any) in H; [|unfold checkIfLoggedIn; obey].
    simpl in *. lia.
  - intros Hpage. unfold checkSession. now rewrite Hpage.
Qed.

(** ** Initialisation, further *)

Lemma ensureBrowserInstalled_ok (drv : Driver) (self : ChatGPT) w w' :
  ensureBrowserInstalled drv self w = (Ok tt, w') ->
  exists executablePath h t,
    executablePath <> ""
    /\ history w' = Called (ExistsSync executablePath) :: h
    /\ respond drv (ExistsSync executablePath) h t = Done true.
Proof.
  unfold ensureBrowserInstalled. intros H.
  apply bind_ok in H as (path & w0 & _ & H).
  apply bind_ok in H as (found & w1 & Hfound & H).
  destruct found.
  - destruct (isEmpty path) eqn:E; [discriminate|].
    apply call_ok in Hfound as [Hdone ->]. apply debug_ok in H as [_ Hh].
    exists path, (history w0), (clock w0).
    split; [intros ->; discriminate|]. split; [exact Hh | exact Hdone].
  - apply bind_ok in H as ([] & w2 & _ & H).
    apply bind_ok in H as ([] & w3 & _ & H).
    apply bind_ok in H as (path' & w4 & _ & H).
    apply bind_ok in H as (installed & w5 & Hinstalled & H).
    destruct installed; [|discriminate].
    destruct (isEmpty path') eqn:E; [discriminate|].
    apply call_ok in Hinstalled as [Hdone ->].
    assert (Hh : history w' = Called (ExistsSync path') :: history w4).
    { cbn [negb] in H. destruct (negb (verbose self)).
      - unfold print in H. now inversion H.
      - now apply log_ok in H as [_ Hh]. }
    exists path', (history w4), (clock w4).
    split; [intros ->; discriminate|]. split; [exact Hh | exact Hdone].
Qed.

(** X23. [ensureBrowserInstalled] returns normally only when the
    Chromium executable has been found on disk, at once or after the
    installation, and that test is then its last call; otherwise it throws
    the "Unable to install" error or the error of a driver call, never
    anything else. *)
Theorem ensureBrowserInstalled_outcome (drv : Driver) (self : ChatGPT) (w : World) :
  match fst (ensureBrowserInstalled drv self w) with
  | Ok _ =>
      exists executablePath h t,
        executablePath <> ""
        /\ history (snd (ensureBrowserInstalled drv self w))
           = Called (ExistsSync executablePath) :: h
        /\ respond drv (ExistsSync executablePath) h t = Done true
  | Throw e => e = BrowserInstallFailed \/ isDriverError e
  | OutOfFuel => False
  end.
Proof.
  assert (H : obeys True (fun e => e = BrowserInstallFailed \/ isDriverError e) any
                (ensureBrowserInstalled drv self) w).
  { assert (Htol : tolerates drv (fun e => e = BrowserInstallFailed \/ isDriverError e)).
    { right. intros name msg. right. now exists name, msg. }
    unfold ensureBrowserInstalled. obey. now left. }
  destruct H as [_ H].
  destruct (ensureBrowserInstalled drv self w) as [[[]|e|] w'] eqn:E; cbn [fst snd] in *.
  - exact (ensureBrowserInstalled_ok drv self w w' E).
  - exact H.
  - now apply H.
Qed.

(** X24. When the Chromium executable is where Playwright says it is,
    [ensureBrowserInstalled] installs nothing: asking for the path and
    testing that it exists are its only calls, and without [verbose] it
    prints nothing. *)
Theorem ensureBrowserInstalled_skips_installation (drv : Driver) (self : ChatGPT)
    (executablePath : string) (w : World) :
  respond drv ExecutablePath (history w) (clock w) = Done executablePath ->
  executablePath <> "" ->
  respond drv (ExistsSync executablePath)
    (history (after drv ExecutablePath w)) (clock (after drv ExecutablePath w))
  = Done true ->
  exists w',
    ensureBrowserInstalled drv self w = (Ok tt, w')
    /\ since w w' = [Called (ExistsSync executablePath); Called ExecutablePath]
    /\ (verbose self = false -> console w' = console w).
Proof.
  intros Hpath Hne Hexists. unfold ensureBrowserInstalled.
  assert (Hfirst : tryCatch (call drv ExecutablePath)
                     (fun error =>
                        debug self ("chromium.executablePath() threw: " ++ toString error) ;;
                        ret "") w
                   = (Ok executablePath, after drv ExecutablePath w)).
  { unfold tryCatch. now rewrite (call_run drv _ _ _ Hpath). }
  rewrite (bind_run _ _ _ _ _ Hfirst).
  replace (isEmpty executablePath) with false by (symmetry; now apply String.eqb_neq).
  rewrite (bind_run _ _ _ _ _ (call_run drv _ _ _ Hexists)).
  destruct (debug_run self ("Chromium executable found at " ++ executablePath)
              (after drv (ExistsSync executablePath) (after drv ExecutablePath w)))
    as (w' & Hdbg & Hh & _).
  exists w'. split; [exact Hdbg|]. split.
  - apply since_app. now rewrite Hh.
  - intros Hquiet. unfold debug in Hdbg. rewrite Hquiet in Hdbg. now inversion Hdbg.
Qed.

Lemma ensureBrowserInstalled_skips_installation_witness :
  exists w',
    ensureBrowserInstalled (scripted freshProfile) newDefault initialWorld = (Ok tt, w')
    /\ since initialWorld w'
       = [Called (ExistsSync "/opt/chromium/chrome"); Called ExecutablePath]
    /\ (verbose newDefault = false -> console w' = console initialWorld).
Proof.
  apply (ensureBrowserInstalled_skips_installation (scripted freshProfile) newDefault
           "/opt/chromium/chrome" initialWorld).
  - reflexivity.
  - discriminate.
  - reflexivity.
Defined.

Lemma launchBrowser_ok (drv : Driver) (self : ChatGPT) w w' :
  launchBrowser drv self w = (Ok tt, w') ->
  exists executablePath h t,
    executablePath <> ""
    /\ history w'
       = Called (Launch (headless self) (timeout self))
         :: Called (ExistsSync executablePath) :: h
    /\ respond drv (ExistsSync executablePath) h t = Done true.
Proof.
  unfold launchBrowser. intros H.
  apply bind_ok in H as (exists_ & w0 & _ & H).
  apply bind_ok in H as ([] & w1 & _ & H).
  apply bind_ok in H as ([] & w2 & Hinstalled & H).
  apply ensureBrowserInstalled_ok in Hinstalled as (path & h & t & Hne & Hh & Hdone).
  apply bind_ok in H as ([] & w3 & Hd3 & H). apply debug_ok in Hd3 as [_ Hh3].
  apply bind_ok in H as ([] & w4 & Hd4 & H). apply debug_ok in Hd4 as [_ Hh4].
  exists path, h, t. split; [exact Hne|]. split; [|exact Hdone].
  apply tryCatch_ok in H as [H | (e & w5 & _ & H)].
  - apply bind_ok in H as ([] & w5 & Hlaunch & H).
    apply call_ok in Hlaunch as [_ ->]. apply debug_ok in H as [_ Hh5].
    rewrite Hh5. cbn [history]. now rewrite Hh4, Hh3, Hh.
  - apply bind_ok in H as ([] & w6 & _ & H). discriminate.
Qed.

(** X25. [initialize] returns only with everything in place.  Its last
    six calls, all answered, are: the test that found the Chromium
    executable, the launch, the test for the session-state file of the
    profile, the creation of the context, of the page, and of the init
    script.  The context is created from the session-state file exactly
    when the test for that file answered that it exists, and without
    saved state when it answered that it does not.  The object returned
    has its three handles assigned and its settings unchanged. *)
Theorem initialize_returns_ready (drv : Driver) (self : ChatGPT) (w : World)
    (self' : ChatGPT) (w' : World) :
  initialize drv self w = (Ok self', w') ->
  self' = mkChatGPT true true true (headless self) (stateDir self) (profile self)
            (model self) (timeout self) (retries self) (verbose self)
  /\ exists executablePath hasState earlier t t',
       history w'
       = ([ Called AddInitScript; Called NewPage;
            Called (NewContext (if hasState : bool then Some (statePathOf self) else None));
            Called (ExistsSync (statePathOf self));
            Called (Launch (headless self) (timeout self));
            Called (ExistsSync executablePath) ] ++ earlier)%list
       /\ executablePath <> ""
       /\ respond drv (ExistsSync executablePath) earlier t = Done true
       /\ respond drv (ExistsSync (statePathOf self))
            (Called (Launch (headless self) (timeout self))
             :: Called (ExistsSync executablePath) :: earlier) t'
          = Done hasState.
Proof.
  unfold initialize. intros H.
  apply bind_ok in H as ([] & w0 & Hlaunch & H).
  apply launchBrowser_ok in Hlaunch as (path & h & t & Hne & Hh0 & Hdone).
  unfold openContext in H. cbv zeta in H. fold (statePathOf self) in H.
  apply bind_ok in H as (hasState & w1 & Hexists & H).
  apply call_ok in Hexists as [Hanswer ->]. rewrite Hh0 in Hanswer.
  apply bind_ok in H as (storageState & w2 & Hstate & H).
  assert (Hs : storageState = (if hasState then Some (statePathOf self) else None)
               /\ history w2 = Called (ExistsSync (statePathOf self)) :: history w0).
  { destruct hasState.
    - apply bind_ok in Hstate as ([] & w6 & Hlog & Hstate).
      apply log_ok in Hlog as [_ Hh]. inversion Hstate; subst. now split.
    - inversion Hstate; subst. now split. }
  destruct Hs as [-> Hh2].
  apply bind_ok in H as ([] & w3 & Hcontext & H). apply call_ok in Hcontext as [_ ->].
  apply bind_ok in H as ([] & w4 & Hpage & H). apply call_ok in Hpage as [_ ->].
  apply bind_ok in H as ([] & w5 & Hscript & H). apply call_ok in Hscript as [_ ->].
  inversion H; subst self' w'. split; [reflexivity|].
  exists path, hasState, h, t, (clock w0).
  split; [|split; [exact Hne | split; [exact Hdone | exact Hanswer]]].
  cbn [history app]. now rewrite Hh2, Hh0.
Qed.

Lemma initialize_returns_ready_witness :
  exists executablePath hasState earlier t t',
    history (snd (initialize (scripted streaming) newDefault initialWorld))
    = ([ Called AddInitScript; Called NewPage;
         Called (NewContext (if hasState : bool then Some (statePathOf newDefault)
                             else None));
         Called (ExistsSync (statePathOf newDefault));
         Called (Launch (headless newDefault) (timeout newDefault));
         Called (ExistsSync executablePath) ] ++ earlier)%list
    /\ executablePath <> ""
    /\ respond (scripted streaming) (ExistsSync executablePath) earlier t = Done true
    /\ respond (scripted streaming) (ExistsSync (statePathOf newDefault))
         (Called (Launch (headless newDefault) (timeout newDefault))
          :: Called (ExistsSync executablePath) :: earlier) t'
       = Done hasState.
Proof.
  destruct (initialize_returns_ready (scripted streaming) newDefault initialWorld
              defaultChatGPT
              (snd (initialize (scripted streaming) newDefault initialWorld)))
    as [_ Hcalls].
  - vm_compute. reflexivity.
  - exact Hcalls.
Defined.

(** X26. When the profile has a session-state file, [initialize] hands
    its path to the context creation, so that the saved session is
    restored; with a browser that creates the context and the page it
    returns normally, and in verbose mode it has announced "Loading saved
    session...". *)
Theorem initialize_restores_saved_session (drv : Driver) (self : ChatGPT)
    (w w1 : World) :
  launchBrowser drv self w = (Ok tt, w1) ->
  respond drv (ExistsSync (statePathOf self)) (history w1) (clock w1) = Done true ->
  (forall h t, respond drv (NewContext (Some (statePathOf self))) h t = Done tt) ->
  (forall h t, respond drv NewPage h t = Done tt) ->
  (forall h t, respond drv AddInitScript h t = Done tt) ->
  exists self' w',
    initialize drv self w = (Ok self', w')
    /\ page self' = true /\ context self' = true /\ browser self' = true
    /\ history w'
       = ([ Called AddInitScript; Called NewPage;
            Called (NewContext (Some (statePathOf self)));
            Called (ExistsSync (statePathOf self)) ] ++ history w1)%list
    /\ (verbose self = true ->
        console w' = ((CheckMark, "Loading saved session...") :: console w1)).
Proof.
  intros Hlaunch Hfile Hcontext Hpage Hscript.
  unfold initialize. rewrite (bind_run _ _ _ _ _ Hlaunch).
  unfold openContext. cbv zeta. fold (statePathOf self).
  rewrite (bind_run _ _ _ _ _ (call_run drv _ _ _ Hfile)).
  destruct (log_run self "Loading saved session..." Info
              (after drv (ExistsSync (statePathOf self)) w1))
    as (w2 & Hlog & Hh2 & Hc2).
  assert (Hstate : (log self "Loading saved session..." Info ;;
                    ret (Some (statePathOf self)))
                     (after drv (ExistsSync (statePathOf self)) w1)
                   = (Ok (Some (statePathOf self)), w2))
    by now rewrite (bind_run _ _ _ _ _ Hlog).
  rewrite (bind_run _ _ _ _ _ Hstate).
  rewrite (bind_run _ _ _ _ _ (call_run drv _ _ _ (Hcontext _ _))).
  rewrite (bind_run _ _ _ _ _ (call_run drv _ _ _ (Hpage _ _))).
  rewrite (bind_run _ _ _ _ _ (call_run drv _ _ _ (Hscript _ _))).
  eexists. eexists. split; [reflexivity|].
  split; [reflexivity|]. split; [reflexivity|]. split; [reflexivity|]. split.
  - cbn [after history app]. now rewrite Hh2.
  - intros Hverbose. cbn [after console]. unfold log in Hlog.
    rewrite Hverbose in Hlog. cbn in Hlog. now inversion Hlog.
Qed.

Lemma initialize_restores_saved_session_witness :
  exists self' w',
    initialize (scripted streaming) newDefault initialWorld = (Ok self', w')
    /\ page self' = true /\ context self' = true /\ browser self' = true
    /\ history w'
       = ([ Called AddInitScript; Called NewPage;
            Called (NewContext (Some (statePathOf newDefault)));
            Called (ExistsSync (statePathOf newDefault)) ]
          ++ history (snd (launchBrowser (scripted streaming) newDefault
                             initialWorld)))%list
    /\ (verbose newDefault = true ->
        console w'
        = ((CheckMark, "Loading saved session...")
           :: console (snd (launchBrowser (scripted streaming) newDefault
                              initialWorld)))).
Proof.
  apply (initialize_restores_saved_session (scripted streaming) newDefault
           initialWorld
           (snd (launchBrowser (scripted streaming) newDefault initialWorld)));
    reflexivity.
Defined.

(** ** How a query and a login can end *)

(** X27. On an initialised page [query] always comes to an end, whatever
    the browser does: within one round per two seconds of the response
    timeout, and twenty-two more, it returns a text that is not blank, or
    throws the response-timeout error, or lets through the error of a
    driver call; it throws nothing else. *)
Theorem query_outcome (drv : Driver) (self : ChatGPT) (fuel : nat) (prompt : string)
    (w : World) :
  page self = true ->
  match fst (query drv self fuel prompt w) with
  | Ok response => nonBlank response
  | Throw e => e = ResponseTimeout (getResponseTimeout self) \/ isDriverError e
  | OutOfFuel => (fuel <= Z.to_nat (getResponseTimeout self / 2000) + 21)%nat
  end.
Proof.
  intros Hpage. set (rt := getResponseTimeout self).
  assert (H : obeys (Z.to_nat (rt / 2000) + 21 < fuel)%nat
                (fun e => e = ResponseTimeout rt \/ isDriverError e) nonBlank
                (query drv self fuel prompt) w).
  { apply (query_obeys drv self _ _ fuel (Z.to_nat (rt / 2000) + 1)).
    - right. intros name msg. right. now exists name, msg.
    - now left.
    - now left.
    - intros Hfuel. split; [lia|]. split; [lia|]. apply rounds_cover. }
  destruct H as [_ H].
  destruct (fst (query drv self fuel prompt w)); [exact H | exact H | lia].
Qed.

Lemma query_outcome_witness :
  match fst (query (scripted streaming) defaultChatGPT 1000 "ping" initialWorld) with
  | Ok response => nonBlank response
  | Throw e => e = ResponseTimeout (getResponseTimeout defaultChatGPT) \/ isDriverError e
  | OutOfFuel =>
      (1000 <= Z.to_nat (getResponseTimeout defaultChatGPT / 2000) + 21)%nat
  end.
Proof.
  apply (query_outcome (scripted streaming) defaultChatGPT 1000 "ping" initialWorld).
  reflexivity.
Defined.

Lemma tolerates_login_errors (drv : Driver) : tolerates drv isLoginError.
Proof. right. intros name msg. exact I. Qed.

Lemma getCredentials_obeys (drv : Driver) (sufficient : Prop) w :
  obeys sufficient isLoginError any (getCredentials drv) w.
Proof.
  unfold getCredentials. cbv zeta.
  apply obeys_tryCatch; [obey | intros e w0; now apply obeys_throw].
Qed.

Lemma typeDigits_obeys (drv : Driver) (sufficient : Prop) (allowed : Error -> Prop)
    codeInputs digits :
  tolerates drv allowed ->
  forall i w, obeys sufficient allowed any (typeDigits drv codeInputs i digits) w.
Proof.
  intros Htol. induction digits as [|digit rest IH]; intros i w; cbn [typeDigits].
  - now apply obeys_ret.
  - repeat first [ apply IH | progress obey ].
Qed.

Lemma enterVerificationCode_obeys (drv : Driver) (self : ChatGPT) (sufficient : Prop)
    codeInputs w :
  obeys sufficient isLoginError any (enterVerificationCode drv self codeInputs) w.
Proof.
  pose proof (tolerates_login_errors drv) as Htol.
  unfold enterVerificationCode, prompt2FA.
  repeat first [ apply typeDigits_obeys; exact Htol | progress obey ]; exact I.
Qed.

Lemma checkIfLoggedIn_obeys (drv : Driver) (self : ChatGPT) (sufficient : Prop)
    (allowed : Error -> Prop) w :
  tolerates drv allowed ->
  obeys sufficient allowed any (checkIfLoggedIn drv self) w.
Proof. intros Htol. unfold checkIfLoggedIn. obey. Qed.

Lemma saveSession_obeys (drv : Driver) (self : ChatGPT) (sufficient : Prop)
    (allowed : Error -> Prop) w :
  tolerates drv allowed ->
  obeys sufficient allowed any (saveSession drv self) w.
Proof. intros Htol. unfold saveSession. obey. Qed.

Lemma loginInteractive_obeys (drv : Driver) (self : ChatGPT) (fuel : nat) w :
  page self = true ->
  obeys (91 < fuel)%nat isLoginError any (loginInteractive drv self fuel) w.
Proof.
  intros Hpage. pose proof (tolerates_login_errors drv) as Htol.
  unfold loginInteractive, openLandingPage, enterCredentials. rewrite Hpage.
  cbn [negb].
  repeat first
    [ apply getCredentials_obeys
    | apply checkIfLoggedIn_obeys; exact Htol
    | apply saveSession_obeys; exact Htol
    | apply enterVerificationCode_obeys
    | match goal with
      | |- obeys _ _ _ (waitForOtpInputs _ _ _ _) _ =>
          eapply obeys_weaken;
          [ | apply waitForOtpInputs_obeys; [lia | exact Htol | exact Hpage] ];
          intros; exact I
      | |- obeys _ _ _ (waitForAuthenticatedSession _ _ _ _) _ =>
          eapply obeys_sufficient;
          [ | apply waitForAuthenticatedSession_obeys ];
          change (Z.to_nat (90000 / 1000)) with 90%nat; lia
      end
    | progress obey ]; exact I.
Qed.

(** X28. On an initialised page an interactive login can fail in four
    ways only, whatever the browser, the 1Password CLI and the operator
    answer: with the credentials error, with "Verification code was
    empty", with "Login failed", or with the error of a driver call. *)
Theorem loginInteractive_outcome (drv : Driver) (self : ChatGPT) (fuel : nat)
    (w : World) (e : Error) (w' : World) :
  page self = true ->
  loginInteractive drv self fuel w = (Throw e, w') ->
  isLoginError e.
Proof.
  intros Hpage Hrun.
  destruct (loginInteractive_obeys drv self fuel w Hpage) as [_ H].
  now rewrite Hrun in H.
Qed.

Lemma loginInteractive_outcome_witness :
  fst (loginInteractive (scripted signedOut) defaultChatGPT 100 initialWorld)
  = Throw (CredentialsUnavailable "op://Private/OpenAI/username"
             "Error: Command failed: op read")
  /\ isLoginError
       (CredentialsUnavailable "op://Private/OpenAI/username"
          "Error: Command failed: op read").
Proof.
  split; [vm_compute; reflexivity|].
  apply (loginInteractive_outcome (scripted signedOut) defaultChatGPT 100 initialWorld
           (CredentialsUnavailable "op://Private/OpenAI/username"
              "Error: Command failed: op read")
           (snd (loginInteractive (scripted signedOut) defaultChatGPT 100
                   initialWorld))).
  - reflexivity.
  - vm_compute. reflexivity.
Defined.

(** ** The verification trigger *)

Lemma trigger_loop_clicks_once (drv : Driver) (self : ChatGPT) (attempt : nat)
    (body : string -> M (option unit)) :
  (forall l timeout force h t, respond drv (Click l timeout force) h t = Done tt) ->
  (forall ms h t, respond drv (WaitForTimeout ms) h t = Done tt) ->
  (forall selector,
      body selector
      = (let button := First (Css (selector ++ ":visible")) in
         n <- call drv (Count button) ;;
         if (n =? 0)%nat then ret None
         else
           tryCatch
             (call drv (Click button (Some 3000%Z) false) ;;
              debug self ("Clicked verification trigger (" ++ selector ++ ") on attempt "
                          ++ showNat attempt) ;;
              call drv (WaitForTimeout 500) ;;
              ret (Some tt))
             (fun error =>
                debug self ("Failed to click " ++ selector
                            ++ " during verification (attempt "
                            ++ showNat attempt ++ "): " ++ toString error) ;;
                ret None))) ->
  forall selectors w,
    exists events,
      history (snd (forOf selectors body w)) = (events ++ history w)%list
      /\ (List.length (filter isClick events) <= 1)%nat.
Proof.
  intros Hclick Hwait Hbody selectors.
  induction selectors as [|selector rest IH]; intros w.
  - exists []. split; [reflexivity | simpl; lia].
  - cbn [forOf]. rewrite Hbody. cbv zeta.
    set (button := First (Css (selector ++ ":visible"))).
    destruct (respond drv (Count button) (history w) (clock w)) as [n|name msg] eqn:C.
    + unfold bind at 1. rewrite (bind_run _ _ _ _ _ (call_run drv _ _ _ C)).
      destruct n as [|n]; cbn [Nat.eqb].
      * unfold ret at 1. cbv beta iota.
        destruct (IH (after drv (Count button) w)) as (events & Hh & Hn).
        exists (events ++ [Called (Count button)])%list. split.
        -- rewrite Hh. cbn [after history]. now rewrite <- app_assoc.
        -- rewrite filter_app. cbn [filter isClick]. now rewrite app_nil_r.
      * unfold tryCatch.
        rewrite (bind_run _ _ _ _ _ (call_run drv _ _ _ (Hclick _ _ _ _ _))).
        match goal with
        | |- context [bind (debug self ?msg) _ ?u] =>
            destruct (debug_run self msg u) as (w1 & Hdbg & Hh1 & Hc1);
            rewrite (bind_run _ _ _ _ _ Hdbg)
        end.
        rewrite (bind_run _ _ _ _ _ (call_run drv _ _ _ (Hwait _ _ _))).
        unfold ret at 1. cbv beta iota.
        exists [Called (WaitForTimeout 500); Called (Click button (Some 3000%Z) false);
                Called (Count button)].
        split; [|simpl; lia].
        cbn [ret snd after history app]. now rewrite Hh1.
    + unfold bind at 1. rewrite (bind_fail _ _ _ _ _ (call_fail drv _ _ _ _ C)).
      exists [Called (Count button)]. split; [reflexivity | simpl; lia].
Qed.

Lemma bind_ret_history {A : Type} (m : M A) w :
  history (snd (bind m (fun _ => ret tt) w)) = history (snd (m w)).
Proof. unfold bind. destruct (m w) as [[a|e|] w0]; reflexivity. Qed.

(** X29. With a browser in which a click succeeds, one attempt to
    trigger the verification step clicks one button at most: the first
    trigger that is found, after which it returns. *)
Theorem tryTriggerVerificationStep_clicks_once (drv : Driver) (self : ChatGPT)
    (attempt : nat) (w : World) :
  (forall l timeout force h t, respond drv (Click l timeout force) h t = Done tt) ->
  (forall ms h t, respond drv (WaitForTimeout ms) h t = Done tt) ->
  (List.length
     (filter isClick (since w (snd (tryTriggerVerificationStep drv self attempt w))))
   <= 1)%nat.
Proof.
  intros Hclick Hwait. unfold tryTriggerVerificationStep.
  destruct (negb (page self)).
  { rewrite (since_app _ _ []); [simpl; lia | reflexivity]. }
  match goal with
  | |- context [forOf triggerSelectors ?b] =>
      destruct (trigger_loop_clicks_once drv self attempt b Hclick Hwait
                  (fun _ => eq_refl) triggerSelectors w) as (events & Hh & Hn)
  end.
  rewrite (since_app _ _ events); [exact Hn|]. now rewrite bind_ret_history.
Qed.

Lemma tryTriggerVerificationStep_clicks_once_witness :
  (List.length
     (filter isClick
        (since initialWorld
           (snd (tryTriggerVerificationStep (scripted clickable) defaultChatGPT 1
                   initialWorld))))
   <= 1)%nat.
Proof.
  apply (tryTriggerVerificationStep_clicks_once (scripted clickable) defaultChatGPT 1
           initialWorld); reflexivity.
Defined.
